(** * sfeMovie: the packet queue of [Stream] and the seeking and decoding
      paths of [AudioStream]

    A shallow embedding of [src/Stream.cpp] and [src/AudioStream.cpp].
    Every C++ method becomes a function in a state-and-exception monad over
    a record holding the object's members.  Machine integers are integers
    of [Z] with the conversions of the C++ program written out, [sf::Time]
    is its [Int64] count of microseconds, and the two places where the
    program goes through floating point ([Stream::computeEncodedPosition]
    and [Stream::packetDuration]) are computed with the IEEE 754 model of
    [SpecFloat].  The collaborators whose code is outside the two files
    (the demuxer behind [Stream::DataSource], the decoder and the resampler
    of FFmpeg) are interfaces, given as type classes. *)

From Stdlib Require Import ZArith List String Bool Lia SpecFloat.
Import ListNotations.
Local Open Scope Z_scope.

Set Implicit Arguments.

(** ** Machine integers *)

Module Int.

(** Conversion to a signed integer of [bits] bits (two's complement). *)
Definition wrap (bits z : Z) : Z :=
  (z + 2 ^ (bits - 1)) mod 2 ^ bits - 2 ^ (bits - 1).

Definition to_int : Z -> Z := wrap 32.
Definition to_int64 : Z -> Z := wrap 64.
Definition to_size_t (z : Z) : Z := z mod 2 ^ 64.

Definition INT_MAX : Z := 2 ^ 31 - 1.
Definition INT_MIN : Z := - 2 ^ 31.
Definition INT64_MAX : Z := 2 ^ 63 - 1.
Definition INT64_MIN : Z := - 2 ^ 63.

Definition fits_int (z : Z) : Prop := INT_MIN <= z <= INT_MAX.
Definition fits_int64 (z : Z) : Prop := INT64_MIN <= z <= INT64_MAX.

Definition fits_intb (z : Z) : bool := (INT_MIN <=? z) && (z <=? INT_MAX).
Definition fits_int64b (z : Z) : bool := (INT64_MIN <=? z) && (z <=? INT64_MAX).

End Int.

(** ** IEEE 754 arithmetic, as far as the program uses it *)

Module Float.

(** [double] is binary64 and [float] binary32; both are [spec_float]
    values, rounded to nearest even by the operations below. *)
Definition double_of_Z (z : Z) : spec_float := binary_normalize 53 1024 z 0 false.
Definition float_of_Z (z : Z) : spec_float := binary_normalize 24 128 z 0 false.

Definition dmul : spec_float -> spec_float -> spec_float := SFmul 53 1024.
Definition ddiv : spec_float -> spec_float -> spec_float := SFdiv 53 1024.
Definition fmul : spec_float -> spec_float -> spec_float := SFmul 24 128.

(** Conversion of a [double] to [float]. *)
Definition float_of_double (x : spec_float) : spec_float :=
  match x with
  | S754_finite s m e => binary_normalize 24 128 (if s then Z.neg m else Z.pos m) e s
  | _ => x
  end.

(** The integral part of a finite value, rounded toward zero. *)
Definition truncate (x : spec_float) : option Z :=
  match x with
  | S754_zero _ => Some 0
  | S754_finite s m e =>
      let a := match e with
               | Z.neg p => Z.shiftr (Z.pos m) (Z.pos p)
               | _ => Z.shiftl (Z.pos m) e
               end in
      Some (if s then - a else a)
  | _ => None
  end.

(** Conversions to integer types.  A value out of the range of the target
    is undefined behaviour in C++; it is given here the result of the
    x86-64 conversion instructions, the smallest integer of the type. *)
Definition to_int32 (x : spec_float) : Z :=
  match truncate x with
  | Some z => if Int.fits_intb z then z else Int.INT_MIN
  | None => Int.INT_MIN
  end.

Definition to_int64 (x : spec_float) : Z :=
  match truncate x with
  | Some z => if Int.fits_int64b z then z else Int.INT64_MIN
  | None => Int.INT64_MIN
  end.

End Float.

(** ** SFML: [sf::Time] and the status of a sound stream *)

Module sf.

(** [sf::Time] holds an [Int64] number of microseconds. *)
Definition Time : Type := Z.

Definition Zero : Time := 0.
Definition asMicroseconds (t : Time) : Z := t.

Definition microseconds (amount : Z) : Time := amount.
Definition milliseconds (amount : Z) : Time := Int.to_int64 (amount * 1000).
Definition seconds (amount : spec_float) : Time :=
  Float.to_int64 (Float.fmul amount (Float.float_of_Z 1000000)).

(** [operator +], [operator -] on [Int64]. *)
Definition add (a b : Time) : Time := Int.to_int64 (a + b).
Definition sub (a b : Time) : Time := Int.to_int64 (a - b).

(** [sf::SoundSource::Status] *)
Inductive Status : Type := Stopped | Paused | Playing.

Definition Status_eqb (a b : Status) : bool :=
  match a, b with
  | Stopped, Stopped | Paused, Paused | Playing, Playing => true
  | _, _ => false
  end.

End sf.

(** ** FFmpeg: the data the program reads and the pure helpers it calls *)

Module av.

Record AVRational : Type := { num : Z; den : Z }.

Definition AV_NOPTS_VALUE : Z := Int.INT64_MIN.
Definition AV_CODEC_CAP_DELAY : Z := Z.shiftl 1 5.
Definition EINVAL : Z := 22.
Definition AVERROR (e : Z) : Z := - e.

Record AVPacket : Type := {
  data : option (list Byte.byte);
  size : Z;
  stream_index : Z;
  dts : Z;
  pts : Z;
  duration : Z
}.

Record AVFrame : Type := {
  nb_samples : Z;
  sample_rate : Z
}.

(** The fields of [AVStream] read by [Stream]; [guessed_frame_rate] is
    what [av_guess_frame_rate] answers for the stream. *)
Record AVStream : Type := {
  index : Z;
  time_base : AVRational;
  start_time : Z;
  guessed_frame_rate : AVRational
}.

Inductive AVFormatContext : Type := OpenedContainer.

Definition av_make_q (n d : Z) : AVRational := {| num := n; den := d |}.

Definition av_q2d (a : AVRational) : spec_float :=
  Float.ddiv (Float.double_of_Z (num a)) (Float.double_of_Z (den a)).

(** [av_reduce]: the fraction in lowest terms when both terms are at most
    [max], the best approximation by continued fractions otherwise. *)
Fixpoint reduce_loop (fuel : nat) (a0 a1 : Z * Z) (n d max : Z) : Z * Z :=
  match fuel with
  | O => a1
  | S fuel' =>
      if d =? 0 then a1
      else
        let x := n / d in
        let next_den := n - d * x in
        let a2n := x * fst a1 + fst a0 in
        let a2d := x * snd a1 + snd a0 in
        if (max <? a2n) || (max <? a2d) then
          let x1 := if fst a1 =? 0 then x else (max - fst a0) / fst a1 in
          let x2 := if snd a1 =? 0 then x1 else Z.min x1 ((max - snd a0) / snd a1) in
          if n * snd a1 <? d * (2 * x2 * snd a1 + snd a0)
          then (x2 * fst a1 + fst a0, x2 * snd a1 + snd a0)
          else a1
        else reduce_loop fuel' a1 (a2n, a2d) d next_den max
  end.

Definition av_reduce (n d max : Z) : AVRational :=
  let sign := xorb (n <? 0) (d <? 0) in
  let g := Z.gcd (Z.abs n) (Z.abs d) in
  let n' := if g =? 0 then n else Z.abs n / g in
  let d' := if g =? 0 then d else Z.abs d / g in
  let a1 := if (n' <=? max) && (d' <=? max) then (n', d')
            else reduce_loop 128 (0, 1) (1, 0) n' d' max in
  {| num := if sign then - fst a1 else fst a1; den := snd a1 |}.

Definition av_mul_q (b c : AVRational) : AVRational :=
  av_reduce (num b * num c) (den b * den c) Int.INT_MAX.

(** [av_rescale_rnd a b c AV_ROUND_UP]: [a * b / c] rounded up, and
    [INT64_MIN] when the arguments are invalid or the result does not
    fit. *)
Definition av_rescale_rnd_up (a b c : Z) : Z :=
  if (c <=? 0) || (b <? 0) then Int.INT64_MIN
  else
    let r := if 0 <=? a then (a * b + (c - 1)) / c else - ((- a * b) / c) in
    if Int.fits_int64b r then r else Int.INT64_MIN.

(** [av_samples_get_buffer_size] for interleaved signed 16-bit samples
    and an alignment of 1. *)
Definition av_get_bytes_per_sample_S16 : Z := 2.

Definition av_samples_get_buffer_size_S16 (nb_channels nb_samples : Z) : Z :=
  if (nb_samples <=? 0) || (nb_channels <=? 0) then AVERROR EINVAL
  else if (Int.INT_MAX <? nb_channels) ||
          ((Int.INT_MAX - nb_channels) / av_get_bytes_per_sample_S16 <? nb_channels * nb_samples)
  then AVERROR EINVAL
  else nb_samples * av_get_bytes_per_sample_S16 * nb_channels.

End av.

Import av.

(** ** The collaborators outside the two files *)

(** [Stream::DataSource], the interface through which a starving stream
    asks for packets; the demuxer implements it.  A request answers with
    the packets the source hands to the stream with [pushEncodedData]. *)
Class DataSource : Type := {
  source : Type;
  requestMoreData : source -> list AVPacket * source
}.

(** The stateful part of FFmpeg the streams call: a decoder context, a
    resampler context and the allocator of sample buffers.  Every function
    answers with the value the C function returns and the next state. *)
Class LibAV : Type := {
  AVCodecContext : Type;
  avcodec_send_packet : AVCodecContext -> AVPacket -> Z * AVCodecContext;
  avcodec_receive_frame : AVCodecContext -> Z * AVFrame * AVCodecContext;
  avcodec_flush_buffers : AVCodecContext -> AVCodecContext;
  SwrContext : Type;
  swr_get_delay : SwrContext -> Z -> Z;
  swr_convert : SwrContext -> Z -> AVFrame -> Z * SwrContext;
  Heap : Type;
  av_samples_alloc : Heap -> Z -> Z -> Z * Heap
}.

(** ** What a call can end in, and the monad of the methods *)

Inductive outcome (A : Type) : Type :=
| Return (a : A)            (* the method returns [a] *)
| Throw (what : string)     (* [std::runtime_error], raised by [CHECK] *)
| Undefined (why : string)  (* undefined behaviour of the C++ program *)
| Timeout.                  (* the fuel given to a loop ran out *)

Arguments Return {A} a.
Arguments Throw {A} what.
Arguments Undefined {A} why.
Arguments Timeout {A}.

Definition M (S A : Type) : Type := S -> outcome A * S.

Section Monad.
Context {S : Type}.

Definition ret {A} (a : A) : M S A := fun s => (Return a, s).

Definition bind {A B} (c : M S A) (k : A -> M S B) : M S B :=
  fun s =>
    match c s with
    | (Return a, s') => k a s'
    | (Throw what, s') => (Throw what, s')
    | (Undefined why, s') => (Undefined why, s')
    | (Timeout, s') => (Timeout, s')
    end.

Definition get : M S S := fun s => (Return s, s).
Definition put (s : S) : M S unit := fun _ => (Return tt, s).
Definition modify (f : S -> S) : M S unit := fun s => (Return tt, f s).
Definition throw {A} (what : string) : M S A := fun s => (Throw what, s).
Definition undefined {A} (why : string) : M S A := fun s => (Undefined why, s).
Definition timeout {A} : M S A := fun s => (Timeout, s).

(** Modelled from the spec: the macro [CHECK] of [Macros.hpp], which is
    not among the sources.  A check that fails is fatal: it aborts the
    operation with an exception carrying the message. *)
Definition CHECK (value : bool) (message : string) : M S unit :=
  if value then ret tt else throw message.

(** Pointers: [None] is [nullptr]. *)
Definition notNull {A} (p : option A) : bool :=
  match p with Some _ => true | None => false end.

(** Reading through a pointer. *)
Definition deref {A} (p : option A) (name : string) : M S A :=
  match p with
  | Some a => ret a
  | None => undefined name
  end.
End Monad.

Declare Scope monad_scope.
Delimit Scope monad_scope with monad.
Notation "x <- c1 ;; c2" := (bind c1 (fun x => c2))
  (at level 61, c1 at next level, right associativity) : monad_scope.
Notation "c1 ;; c2" := (bind c1 (fun _ => c2))
  (at level 61, right associativity) : monad_scope.
Local Open Scope monad_scope.

(** Running a method in the state of a base-class subobject. *)
Definition lift {S T A : Type} (proj : T -> S) (upd : S -> T -> T) (c : M S A) : M T A :=
  fun t => let '(r, s') := c (proj t) in (r, upd s' t).

(** ** Logging ([Log.hpp]) *)

Inductive MediaType : Type := Audio | Subtitle | Video | Unknown.

Inductive LogLevel : Type := LogDebug | LogWarning | LogError.

(** The messages of the two files, with the values they print. *)
Inductive LogMessage : Type :=
| SendingFlushPacket (kind : MediaType)
| FlushedWhilePlaying
| FastForwardFailed
| FastForwardEndOfStream (target : sf.Time)
| InaccuracyDetected (advance_us : Z)
| ExtraAudioTimeToDiscard (us : Z)
| CannotDiscardAll
| ExtraAudioTimeTooSmall (us : Z)
| NoMoreAudioPackets.

Definition LogEntry : Type := LogLevel * LogMessage.

(** ** [Stream] ([Stream.cpp]) *)

Inductive Status : Type := Stopped | Paused | Playing.

Definition Status_eqb (a b : Status) : bool :=
  match a, b with
  | Stopped, Stopped | Paused, Paused | Playing, Playing => true
  | _, _ => false
  end.

Module Stream.
Section WithCollaborators.
Context {DS : DataSource} {AV : LibAV}.

(** The members of a [Stream].  [m_formatCtx] and [m_stream] are
    references to pointers owned by the demuxer, which may become null.
    [isPassive] and [getStreamKind] stand for the virtual methods of the
    dynamic type.  The last three fields record what the object does to
    its environment: the calls of [m_dataSource.requestMoreData], the
    lines sent to the log and the packets released with
    [av_packet_unref], each in the order of the calls.  The lock on
    [m_readerMutex] is not modelled: methods run one at a time. *)
Record t : Type := {
  m_formatCtx : option AVFormatContext;
  m_stream : option AVStream;
  m_dataSource : source;
  m_codec_capabilities : Z;
  m_context : AVCodecContext;
  m_streamID : Z;
  m_packetList : list AVPacket;
  m_status : Status;
  isPassive : bool;
  getStreamKind : MediaType;
  requests : nat;
  log : list LogEntry;
  released : list AVPacket
}.

Definition set_dataSource (d : source) (s : t) : t :=
  {| m_formatCtx := m_formatCtx s; m_stream := m_stream s; m_dataSource := d;
     m_codec_capabilities := m_codec_capabilities s; m_context := m_context s;
     m_streamID := m_streamID s; m_packetList := m_packetList s;
     m_status := m_status s; isPassive := isPassive s;
     getStreamKind := getStreamKind s; requests := requests s;
     log := log s; released := released s |}.

Definition set_context (c : AVCodecContext) (s : t) : t :=
  {| m_formatCtx := m_formatCtx s; m_stream := m_stream s;
     m_dataSource := m_dataSource s;
     m_codec_capabilities := m_codec_capabilities s; m_context := c;
     m_streamID := m_streamID s; m_packetList := m_packetList s;
     m_status := m_status s; isPassive := isPassive s;
     getStreamKind := getStreamKind s; requests := requests s;
     log := log s; released := released s |}.

Definition set_packetList (l : list AVPacket) (s : t) : t :=
  {| m_formatCtx := m_formatCtx s; m_stream := m_stream s;
     m_dataSource := m_dataSource s;
     m_codec_capabilities := m_codec_capabilities s; m_context := m_context s;
     m_streamID := m_streamID s; m_packetList := l;
     m_status := m_status s; isPassive := isPassive s;
     getStreamKind := getStreamKind s; requests := requests s;
     log := log s; released := released s |}.

Definition set_status (st : Status) (s : t) : t :=
  {| m_formatCtx := m_formatCtx s; m_stream := m_stream s;
     m_dataSource := m_dataSource s;
     m_codec_capabilities := m_codec_capabilities s; m_context := m_context s;
     m_streamID := m_streamID s; m_packetList := m_packetList s;
     m_status := st; isPassive := isPassive s;
     getStreamKind := getStreamKind s; requests := requests s;
     log := log s; released := released s |}.

Definition set_requests (n : nat) (s : t) : t :=
  {| m_formatCtx := m_formatCtx s; m_stream := m_stream s;
     m_dataSource := m_dataSource s;
     m_codec_capabilities := m_codec_capabilities s; m_context := m_context s;
     m_streamID := m_streamID s; m_packetList := m_packetList s;
     m_status := m_status s; isPassive := isPassive s;
     getStreamKind := getStreamKind s; requests := n;
     log := log s; released := released s |}.

Definition set_log (l : list LogEntry) (s : t) : t :=
  {| m_formatCtx := m_formatCtx s; m_stream := m_stream s;
     m_dataSource := m_dataSource s;
     m_codec_capabilities := m_codec_capabilities s; m_context := m_context s;
     m_streamID := m_streamID s; m_packetList := m_packetList s;
     m_status := m_status s; isPassive := isPassive s;
     getStreamKind := getStreamKind s; requests := requests s;
     log := l; released := released s |}.

Definition set_released (l : list AVPacket) (s : t) : t :=
  {| m_formatCtx := m_formatCtx s; m_stream := m_stream s;
     m_dataSource := m_dataSource s;
     m_codec_capabilities := m_codec_capabilities s; m_context := m_context s;
     m_streamID := m_streamID s; m_packetList := m_packetList s;
     m_status := m_status s; isPassive := isPassive s;
     getStreamKind := getStreamKind s; requests := requests s;
     log := log s; released := l |}.

(** Modelled from the spec: the macros [sfeLogDebug], [sfeLogWarning] and
    [sfeLogError] of [Log.hpp], which is not among the sources.  A line of
    the given level is added to the log. *)
Definition sfeLog (level : LogLevel) (message : LogMessage) : M t unit :=
  modify (fun s => set_log (log s ++ [(level, message)]) s).

(** [av_packet_unref (pkt)] *)
Definition av_packet_unref (pkt : AVPacket) : M t unit :=
  modify (fun s => set_released (released s ++ [pkt]) s).

(** [Stream::pushEncodedData] *)
Definition pushEncodedData (packet : option AVPacket) : M t unit :=
  CHECK (notNull packet) "invalid argument" ;;
  match packet with
  | Some p => modify (fun s => set_packetList (m_packetList s ++ [p]) s)
  | None => ret tt
  end.

(** [Stream::prependEncodedData] *)
Definition prependEncodedData (packet : option AVPacket) : M t unit :=
  CHECK (notNull packet) "invalid argument" ;;
  match packet with
  | Some p => modify (fun s => set_packetList (p :: m_packetList s) s)
  | None => ret tt
  end.

(** Modelled from the spec: [Demuxer::requestMoreData], whose code
    ([Demuxer.cpp]) is not among the sources.  The source pushes the
    packets it has for the starving stream into the queue of the stream,
    with [pushEncodedData], one after the other. *)
Fixpoint pushAll (packets : list AVPacket) : M t unit :=
  match packets with
  | [] => ret tt
  | p :: rest => pushEncodedData (Some p) ;; pushAll rest
  end.

(** The call [m_dataSource.requestMoreData] on this stream. *)
Definition callRequestMoreData : M t unit :=
  s <- get ;;
  let '(packets, d) := requestMoreData (m_dataSource s) in
  put (set_requests (S (requests s)) (set_dataSource d s)) ;;
  pushAll packets.

(** The packet [popEncodedData] makes up to drain the decoder:
    [av_init_packet], then [data = nullptr] and [size = 0]. *)
Definition flushPacket : AVPacket :=
  {| data := None; size := 0; stream_index := 0;
     dts := AV_NOPTS_VALUE; pts := AV_NOPTS_VALUE; duration := 0 |}.

Definition empty (l : list AVPacket) : bool :=
  match l with [] => true | _ :: _ => false end.

(** [Stream::popEncodedData] *)
Definition popEncodedData : M t (option AVPacket) :=
  s <- get ;;
  (if empty (m_packetList s) && negb (isPassive s)
   then callRequestMoreData else ret tt) ;;
  s <- get ;;
  match m_packetList s with
  | front :: rest =>
      put (set_packetList rest s) ;;
      ret (Some front)
  | [] =>
      if negb (Z.land (m_codec_capabilities s) AV_CODEC_CAP_DELAY =? 0) then
        sfeLog LogDebug (SendingFlushPacket (getStreamKind s)) ;;
        ret (Some flushPacket)
      else ret None
  end.

(** The loop of [Stream::flushBuffers]: one turn for each queued packet. *)
Fixpoint releaseAll (queue : list AVPacket) : M t unit :=
  match queue with
  | [] => ret tt
  | pkt :: rest =>
      modify (set_packetList rest) ;;
      av_packet_unref pkt ;;
      releaseAll rest
  end.

Definition getStatus : M t Status :=
  s <- get ;; ret (m_status s).

(** [Stream::flushBuffers] *)
Definition flushBuffers : M t unit :=
  status <- getStatus ;;
  (if Status_eqb status Playing
   then sfeLog LogWarning FlushedWhilePlaying else ret tt) ;;
  s <- get ;;
  (match m_formatCtx s, m_stream s with
   | Some _, Some _ => put (set_context (avcodec_flush_buffers (m_context s)) s)
   | _, _ => ret tt
   end) ;;
  s <- get ;;
  releaseAll (m_packetList s).

(** [Stream::needsMoreData] *)
Definition needsMoreData (s : t) : bool :=
  (Z.of_nat (List.length (m_packetList s)) <? 10).

(** [Stream::hasPackets] *)
Definition hasPackets (s : t) : bool := negb (empty (m_packetList s)).

(** The timestamp [computeEncodedPosition] gives to a packet. *)
Definition timestampOf (stream : AVStream) (packet : AVPacket) : Z :=
  if negb (dts packet =? AV_NOPTS_VALUE) then dts packet
  else if negb (pts packet =? AV_NOPTS_VALUE) then
    let startTime :=
      if negb (start_time stream =? AV_NOPTS_VALUE) then start_time stream else 0 in
    Int.to_int64 (pts packet - startTime)
  else -424242.

(** [sf::milliseconds (1000 * av_q2d (av_mul_q (av_make_q (timestamp, 1),
    m_stream->time_base)))]: [av_make_q] takes an [int], the product is
    a [double] and [sf::milliseconds] takes an [Int32]. *)
Definition positionOf (stream : AVStream) (packet : AVPacket) : sf.Time :=
  let seconds :=
    av_mul_q (av_make_q (Int.to_int (timestampOf stream packet)) 1) (time_base stream) in
  sf.milliseconds
    (Float.to_int32 (Float.dmul (Float.double_of_Z 1000) (av_q2d seconds))).

(** [Stream::computeEncodedPosition]: [Some position] for [true] with the
    position written through the reference, [None] for [false]. *)
Definition computeEncodedPosition : M t (option sf.Time) :=
  s <- get ;;
  (if empty (m_packetList s) && negb (isPassive s)
   then callRequestMoreData else ret tt) ;;
  s <- get ;;
  match m_packetList s with
  | packet :: _ =>
      stream <- deref (m_stream s) "m_stream is null" ;;
      ret (Some (positionOf stream packet))
  | [] => ret None
  end.

(** The value [packetDuration] computes once its checks have passed. *)
Definition durationOf (stream : AVStream) (packet : AVPacket) : sf.Time :=
  if negb (duration packet =? 0) then
    let seconds :=
      av_mul_q (av_make_q (Int.to_int (duration packet)) 1) (time_base stream) in
    sf.seconds (Float.float_of_double (av_q2d seconds))
  else
    sf.seconds (Float.float_of_double
                  (Float.ddiv (Float.double_of_Z 1) (av_q2d (guessed_frame_rate stream)))).

(** [Stream::packetDuration] *)
Definition packetDuration (packet : option AVPacket) : M t sf.Time :=
  CHECK (notNull packet) "inconcistency error: null packet" ;;
  match packet with
  | None => ret sf.Zero
  | Some p =>
      s <- get ;;
      CHECK (stream_index p =? m_streamID s)
            "Asking for duration of a packet for a different stream!" ;;
      stream <- deref (m_stream s) "m_stream is null" ;;
      ret (durationOf stream p)
  end.

(** [Stream::canUsePacket] *)
Definition canUsePacket (packet : option AVPacket) : M t bool :=
  CHECK (notNull packet) "inconcistency error: null argument" ;;
  match packet with
  | None => ret false
  | Some p =>
      s <- get ;;
      stream <- deref (m_stream s) "m_stream is null" ;;
      ret (stream_index p =? index stream)
  end.

(** [Stream::setStatus] and the callbacks of the timer. *)
Definition setStatus (status : Status) : M t unit := modify (set_status status).
Definition didPlay : M t unit := setStatus Playing.
Definition didPause : M t unit := setStatus Paused.
Definition didStop : M t unit := setStatus Stopped.

End WithCollaborators.
Arguments t {DS AV}.
End Stream.

(** ** [AudioStream] ([AudioStream.cpp]) *)

Module AudioStream.
Section WithCollaborators.
Context {DS : DataSource} {AV : LibAV}.

(** [sizeof (sf::Int16)] *)
Definition BytesPerSample : Z := 2.

(** The number of channels of [AV_CHANNEL_LAYOUT_STEREO]. *)
Definition getStereoChannelCount : Z := 2.

(** One [std::memcpy] into [m_samplesBuffer]: the index of the first
    sample written, the offset in bytes of the first byte read in the
    block of the resampler, and the number of bytes copied. *)
Record Copy : Type := {
  firstSample : Z;
  sourceOffset : Z;
  byteCount : Z
}.

(** The members of an [AudioStream] on top of those of [Stream], and
    [soundStatus], the status its base [sf::SoundStream] reports.
    [m_dstData] is the number of samples per channel the block
    [m_dstData[0]] was allocated for, [None] when there is no block.
    [submitted] lists the packets given to [avcodec_send_packet] and
    [copied] the copies made into [m_samplesBuffer], in the order of the
    calls.  [m_dstLinesize], which is written and never read, is left
    out. *)
Record t : Type := {
  base : Stream.t;
  soundStatus : sf.Status;
  m_sampleRatePerChannel : Z;
  m_audioFrame : AVFrame;
  m_swrCtx : option SwrContext;
  m_dstNbSamples : Z;
  m_maxDstNbSamples : Z;
  m_dstNbChannels : Z;
  m_dstData : option Z;
  heap : Heap;
  m_extraAudioTime : sf.Time;
  submitted : list AVPacket;
  copied : list Copy
}.

Definition set_base (v : Stream.t) (s : t) : t :=
  {| base := v; soundStatus := soundStatus s;
     m_sampleRatePerChannel := m_sampleRatePerChannel s;
     m_audioFrame := m_audioFrame s; m_swrCtx := m_swrCtx s;
     m_dstNbSamples := m_dstNbSamples s;
     m_maxDstNbSamples := m_maxDstNbSamples s;
     m_dstNbChannels := m_dstNbChannels s; m_dstData := m_dstData s;
     heap := heap s; m_extraAudioTime := m_extraAudioTime s;
     submitted := submitted s; copied := copied s |}.

Definition set_soundStatus (v : sf.Status) (s : t) : t :=
  {| base := base s; soundStatus := v;
     m_sampleRatePerChannel := m_sampleRatePerChannel s;
     m_audioFrame := m_audioFrame s; m_swrCtx := m_swrCtx s;
     m_dstNbSamples := m_dstNbSamples s;
     m_maxDstNbSamples := m_maxDstNbSamples s;
     m_dstNbChannels := m_dstNbChannels s; m_dstData := m_dstData s;
     heap := heap s; m_extraAudioTime := m_extraAudioTime s;
     submitted := submitted s; copied := copied s |}.

Definition set_audioFrame (v : AVFrame) (s : t) : t :=
  {| base := base s; soundStatus := soundStatus s;
     m_sampleRatePerChannel := m_sampleRatePerChannel s; m_audioFrame := v;
     m_swrCtx := m_swrCtx s; m_dstNbSamples := m_dstNbSamples s;
     m_maxDstNbSamples := m_maxDstNbSamples s;
     m_dstNbChannels := m_dstNbChannels s; m_dstData := m_dstData s;
     heap := heap s; m_extraAudioTime := m_extraAudioTime s;
     submitted := submitted s; copied := copied s |}.

Definition set_swrCtx (v : option SwrContext) (s : t) : t :=
  {| base := base s; soundStatus := soundStatus s;
     m_sampleRatePerChannel := m_sampleRatePerChannel s;
     m_audioFrame := m_audioFrame s; m_swrCtx := v;
     m_dstNbSamples := m_dstNbSamples s;
     m_maxDstNbSamples := m_maxDstNbSamples s;
     m_dstNbChannels := m_dstNbChannels s; m_dstData := m_dstData s;
     heap := heap s; m_extraAudioTime := m_extraAudioTime s;
     submitted := submitted s; copied := copied s |}.

Definition set_dstNbSamples (v : Z) (s : t) : t :=
  {| base := base s; soundStatus := soundStatus s;
     m_sampleRatePerChannel := m_sampleRatePerChannel s;
     m_audioFrame := m_audioFrame s; m_swrCtx := m_swrCtx s;
     m_dstNbSamples := v; m_maxDstNbSamples := m_maxDstNbSamples s;
     m_dstNbChannels := m_dstNbChannels s; m_dstData := m_dstData s;
     heap := heap s; m_extraAudioTime := m_extraAudioTime s;
     submitted := submitted s; copied := copied s |}.

Definition set_maxDstNbSamples (v : Z) (s : t) : t :=
  {| base := base s; soundStatus := soundStatus s;
     m_sampleRatePerChannel := m_sampleRatePerChannel s;
     m_audioFrame := m_audioFrame s; m_swrCtx := m_swrCtx s;
     m_dstNbSamples := m_dstNbSamples s; m_maxDstNbSamples := v;
     m_dstNbChannels := m_dstNbChannels s; m_dstData := m_dstData s;
     heap := heap s; m_extraAudioTime := m_extraAudioTime s;
     submitted := submitted s; copied := copied s |}.

Definition set_dstData (v : option Z) (s : t) : t :=
  {| base := base s; soundStatus := soundStatus s;
     m_sampleRatePerChannel := m_sampleRatePerChannel s;
     m_audioFrame := m_audioFrame s; m_swrCtx := m_swrCtx s;
     m_dstNbSamples := m_dstNbSamples s;
     m_maxDstNbSamples := m_maxDstNbSamples s;
     m_dstNbChannels := m_dstNbChannels s; m_dstData := v; heap := heap s;
     m_extraAudioTime := m_extraAudioTime s; submitted := submitted s;
     copied := copied s |}.

Definition set_heap (v : Heap) (s : t) : t :=
  {| base := base s; soundStatus := soundStatus s;
     m_sampleRatePerChannel := m_sampleRatePerChannel s;
     m_audioFrame := m_audioFrame s; m_swrCtx := m_swrCtx s;
     m_dstNbSamples := m_dstNbSamples s;
     m_maxDstNbSamples := m_maxDstNbSamples s;
     m_dstNbChannels := m_dstNbChannels s; m_dstData := m_dstData s;
     heap := v; m_extraAudioTime := m_extraAudioTime s;
     submitted := submitted s; copied := copied s |}.

Definition set_extraAudioTime (v : sf.Time) (s : t) : t :=
  {| base := base s; soundStatus := soundStatus s;
     m_sampleRatePerChannel := m_sampleRatePerChannel s;
     m_audioFrame := m_audioFrame s; m_swrCtx := m_swrCtx s;
     m_dstNbSamples := m_dstNbSamples s;
     m_maxDstNbSamples := m_maxDstNbSamples s;
     m_dstNbChannels := m_dstNbChannels s; m_dstData := m_dstData s;
     heap := heap s; m_extraAudioTime := v; submitted := submitted s;
     copied := copied s |}.

Definition set_submitted (v : list AVPacket) (s : t) : t :=
  {| base := base s; soundStatus := soundStatus s;
     m_sampleRatePerChannel := m_sampleRatePerChannel s;
     m_audioFrame := m_audioFrame s; m_swrCtx := m_swrCtx s;
     m_dstNbSamples := m_dstNbSamples s;
     m_maxDstNbSamples := m_maxDstNbSamples s;
     m_dstNbChannels := m_dstNbChannels s; m_dstData := m_dstData s;
     heap := heap s; m_extraAudioTime := m_extraAudioTime s;
     submitted := v; copied := copied s |}.

Definition set_copied (v : list Copy) (s : t) : t :=
  {| base := base s; soundStatus := soundStatus s;
     m_sampleRatePerChannel := m_sampleRatePerChannel s;
     m_audioFrame := m_audioFrame s; m_swrCtx := m_swrCtx s;
     m_dstNbSamples := m_dstNbSamples s;
     m_maxDstNbSamples := m_maxDstNbSamples s;
     m_dstNbChannels := m_dstNbChannels s; m_dstData := m_dstData s;
     heap := heap s; m_extraAudioTime := m_extraAudioTime s;
     submitted := submitted s; copied := v |}.

(** A method of the base class, run on the [Stream] subobject. *)
Definition onBase {A} (c : M Stream.t A) : M t A := lift base set_base c.

Definition sfeLog (level : LogLevel) (message : LogMessage) : M t unit :=
  onBase (Stream.sfeLog level message).

(** The samples the constructor allocates for [m_samplesBuffer]:
    [getStereoChannelCount () * m_sampleRatePerChannel * 2], two seconds
    of stereo sound. *)
Definition samplesBufferCapacity (s : t) : Z :=
  getStereoChannelCount * m_sampleRatePerChannel s * 2.

(** [sf::SoundStream::stop] *)
Definition soundStream_stop : M t unit := modify (set_soundStatus sf.Stopped).

(** [AudioStream::flushBuffers] *)
Definition flushBuffers : M t unit :=
  s <- get ;;
  let sfStatus := soundStatus s in
  CHECK (negb (sf.Status_eqb sfStatus sf.Playing))
        "Trying to flush while audio is playing, this will introduce an audio glitch!" ;;
  (if negb (sf.Status_eqb sfStatus sf.Stopped) then soundStream_stop else ret tt) ;;
  modify (set_extraAudioTime sf.Zero) ;;
  onBase Stream.flushBuffers.

(** [AudioStream::getStreamKind] *)
Definition getStreamKind : MediaType := Audio.

(** [AudioStream::update] *)
Definition update : M t unit :=
  s <- get ;;
  match soundStatus s with
  | sf.Playing => onBase (Stream.setStatus Playing)
  | sf.Paused => onBase (Stream.setStatus Paused)
  | sf.Stopped => onBase (Stream.setStatus Stopped)
  end.

(** [AudioStream::fastForward].  The loop is a [do ... while]; [fuel]
    bounds the number of its turns. *)
Fixpoint fastForward (fuel : nat) (targetPosition : sf.Time) : M t bool :=
  match fuel with
  | O => timeout
  | S fuel' =>
      position <- onBase Stream.computeEncodedPosition ;;
      match position with
      | None =>
          sfeLog LogWarning FastForwardFailed ;;
          ret false
      | Some currentPosition =>
          packet <- onBase Stream.popEncodedData ;;
          match packet with
          | None =>
              sfeLog LogError (FastForwardEndOfStream targetPosition) ;;
              ret false
          | Some p =>
              pktDuration <- onBase (Stream.packetDuration packet) ;;
              (if targetPosition <? currentPosition then
                 (if sf.microseconds 1 <? sf.sub currentPosition targetPosition
                  then sfeLog LogWarning
                         (InaccuracyDetected
                            (sf.asMicroseconds (sf.sub currentPosition targetPosition)))
                  else ret tt) ;;
                 modify (set_extraAudioTime sf.Zero) ;;
                 onBase (Stream.prependEncodedData packet)
               else if targetPosition <? sf.add currentPosition pktDuration then
                 onBase (Stream.prependEncodedData packet) ;;
                 modify (set_extraAudioTime (sf.sub targetPosition currentPosition)) ;;
                 s <- get ;;
                 sfeLog LogDebug
                   (ExtraAudioTimeToDiscard (sf.asMicroseconds (m_extraAudioTime s))) ;;
                 CHECK (sf.Zero <? m_extraAudioTime s) "inconcistency error" ;;
                 CHECK (m_extraAudioTime s <=? pktDuration)
                       "Should have discarded a full packet"
               else onBase (Stream.av_packet_unref p)) ;;
              if sf.add currentPosition pktDuration <=? targetPosition
              then fastForward fuel' targetPosition
              else ret true
          end
      end
  end.

(** [AudioStream::decodePacket], always called with [m_audioFrame] as
    output frame: the pair of the result ([needsMoreDecoding] for the
    caller) and of [gotFrame]. *)
Definition decodePacket (packet : AVPacket) : M t (bool * bool) :=
  s <- get ;;
  let '(sent, ctx) := avcodec_send_packet (Stream.m_context (base s)) packet in
  put (set_submitted (submitted s ++ [packet])
         (set_base (Stream.set_context ctx (base s)) s)) ;;
  if negb (sent =? 0) then ret (true, false)
  else
    s <- get ;;
    let '(received, frame, ctx) := avcodec_receive_frame (Stream.m_context (base s)) in
    put (set_base (Stream.set_context ctx (base s)) s) ;;
    if negb (received =? 0) then ret (true, false)
    else
      modify (set_audioFrame frame) ;;
      ret (false, true).

(** [AudioStream::resampleFrame]: the pair of [outSamples], as an offset
    in bytes into the block [m_dstData[0]] when there is one, and of
    [outNbSamples]. *)
Definition resampleFrame (frame : option AVFrame) : M t (option Z * Z) :=
  s <- get ;;
  CHECK (notNull (m_swrCtx s))
        "AudioStream::resampleFrame() - resampler is not initialized, call AudioStream::initResamplerFirst() !" ;;
  CHECK (notNull frame) "AudioStream::resampleFrame() - invalid argument" ;;
  match m_swrCtx s, frame with
  | Some swr, Some f =>
      let src_rate := sample_rate f in
      let dst_rate := src_rate in
      let dstNbSamples :=
        Int.to_int
          (av_rescale_rnd_up (Int.to_int64 (swr_get_delay swr src_rate + nb_samples f))
                             dst_rate src_rate) in
      modify (set_dstNbSamples dstNbSamples) ;;
      (if m_maxDstNbSamples s <? dstNbSamples then
         modify (set_dstData None) ;;
         s <- get ;;
         let '(err, h) := av_samples_alloc (heap s) (m_dstNbChannels s) dstNbSamples in
         put (set_heap h s) ;;
         CHECK (0 <=? err) "AudioStream::resampleFrame() - out of memory" ;;
         modify (set_dstData (Some dstNbSamples)) ;;
         modify (set_maxDstNbSamples dstNbSamples)
       else ret tt) ;;
      let '(converted, swr') := swr_convert swr dstNbSamples f in
      let err := Int.to_int converted in
      modify (set_swrCtx (Some swr')) ;;
      CHECK (0 <=? err) "AudioStream::resampleFrame() - swr_convert() error" ;;
      s <- get ;;
      let dst_bufsize := av_samples_get_buffer_size_S16 (m_dstNbChannels s) err in
      CHECK (0 <=? dst_bufsize)
            "AudioStream::resampleFrame() - av_samples_get_buffer_size() error" ;;
      ret (option_map (fun _ => 0) (m_dstData s),
           Z.quot dst_bufsize av_get_bytes_per_sample_S16)
  | _, _ => ret (None, 0)
  end.

(** [AudioStream::timeToSamples] *)
Definition timeToSamples (time : sf.Time) : M t Z :=
  s <- get ;;
  let channelCount := getStereoChannelCount in
  let samplesPerSecond := Int.to_int (m_sampleRatePerChannel s * channelCount) in
  let samples :=
    Z.quot (Int.to_int64 (samplesPerSecond * sf.asMicroseconds time)) 1000000 in
  CHECK (0 <=? samples) "computation overflow" ;;
  let samples :=
    if negb (Z.rem samples channelCount =? 0)
    then Int.to_int64 (samples - Z.rem samples channelCount)
    else samples in
  ret (Int.to_int samples).

(** [AudioStream::samplesToTime] *)
Definition samplesToTime (nbSamples : Z) : M t sf.Time :=
  s <- get ;;
  let samplesPerChannel := Z.quot nbSamples getStereoChannelCount in
  (if m_sampleRatePerChannel s =? 0 then undefined "division by zero" else ret tt) ;;
  let microseconds :=
    Z.quot (Int.to_int64 (1000000 * samplesPerChannel)) (m_sampleRatePerChannel s) in
  CHECK (0 <=? microseconds) "computation overflow" ;;
  ret (sf.microseconds microseconds).

(** [sf::SoundStream::Chunk]; [samples] tells whether the pointer has
    been set to [m_samplesBuffer]. *)
Record Chunk : Type := {
  samples : bool;
  sampleCount : Z
}.

(** The part of [AudioStream::onGetData] that drops the samples of
    [m_extraAudioTime] from a resampled frame of [samplesCount] samples
    (the block under [if (m_extraAudioTime > sf::Time::Zero)]): the pair
    of the offset in bytes added to [samplesBuffer] and of the value left
    in [samplesCount]. *)
Definition discardExtra (samplesCount : Z) : M t (Z * Z) :=
  let stereoChannelCount := getStereoChannelCount in
  s <- get ;;
  if sf.Zero <? m_extraAudioTime s then
    wanted <- timeToSamples (m_extraAudioTime s) ;;
    samplesToDiscard <-
      (if samplesCount <? wanted then
         sfeLog LogDebug CannotDiscardAll ;;
         ret samplesCount
       else ret wanted) ;;
    if (samplesToDiscard <? stereoChannelCount) && (0 <? samplesCount) then
      sfeLog LogDebug
        (ExtraAudioTimeTooSmall (sf.asMicroseconds (m_extraAudioTime s))) ;;
      modify (set_extraAudioTime sf.Zero) ;;
      ret (0, samplesCount)
    else
      whole <- samplesToTime samplesCount ;;
      (if sf.asMicroseconds whole =? 0
       then undefined "division by zero" else ret tt) ;;
      (* the difference of two integers is below 0.1 when it is at
         most 0 *)
      CHECK (Z.quot samplesToDiscard (Z.max samplesCount samplesToDiscard)
             - Z.quot (sf.asMicroseconds (m_extraAudioTime s))
                      (sf.asMicroseconds whole) <=? 0)
            "It looks like an invalid amount of audio samples was discarded, please report this bug" ;;
      discarded <- samplesToTime samplesToDiscard ;;
      modify (set_extraAudioTime (sf.sub (m_extraAudioTime s) discarded)) ;;
      ret (Int.to_int (samplesToDiscard * BytesPerSample),
           Int.to_int (samplesCount - samplesToDiscard))
  else ret (0, samplesCount).

(** The part of [AudioStream::onGetData] run for a decoded frame (the
    block under [if (gotFrame)]). *)
Definition appendFrame (data : Chunk) : M t Chunk :=
  s <- get ;;
  resampled <- resampleFrame (Some (m_audioFrame s)) ;;
  let samplesBuffer := fst resampled in
  let samplesCount := snd resampled in
  CHECK (notNull samplesBuffer) "AudioStream::onGetData() - resampleFrame() error" ;;
  CHECK (0 <? samplesCount) "AudioStream::onGetData() - resampleFrame() error" ;;
  total <- samplesToTime (Int.to_int (Int.to_size_t (sampleCount data + samplesCount))) ;;
  CHECK (total <? sf.seconds (Float.float_of_Z 2))
        "AudioStream::onGetData() - Going to overflow!!" ;;
  kept <- discardExtra samplesCount ;;
  let samplesCount := snd kept in
  modify (fun s => set_copied
                     (copied s ++ [{| firstSample := sampleCount data;
                                      sourceOffset := fst kept;
                                      byteCount := Int.to_int (samplesCount * BytesPerSample) |}])
                     s) ;;
  ret {| samples := samples data;
         sampleCount := Int.to_size_t (sampleCount data + samplesCount) |}.

(** The inner [do ... while (needsMoreDecoding)] of [onGetData]. *)
Fixpoint decodeWhileNeeded (fuel : nat) (packet : AVPacket) (data : Chunk) : M t Chunk :=
  match fuel with
  | O => timeout
  | S fuel' =>
      decoded <- decodePacket packet ;;
      let needsMoreDecoding := fst decoded in
      let gotFrame := snd decoded in
      data <- (if gotFrame then appendFrame data else ret data) ;;
      if needsMoreDecoding then decodeWhileNeeded fuel' packet data else ret data
  end.

(** The outer [while] of [onGetData]; [packet] is the local variable of
    that name. *)
Fixpoint fillChunk (fuel : nat) (packet : option AVPacket) (data : Chunk)
  : M t (option AVPacket * Chunk) :=
  match fuel with
  | O => timeout
  | S fuel' =>
      s <- get ;;
      if sampleCount data
         <? Int.to_size_t (Int.to_int (getStereoChannelCount * m_sampleRatePerChannel s))
      then
        packet <- onBase Stream.popEncodedData ;;
        match packet with
        | None => ret (None, data)
        | Some p =>
            data <- decodeWhileNeeded fuel' p data ;;
            onBase (Stream.av_packet_unref p) ;;
            fillChunk fuel' packet data
        end
      else ret (packet, data)
  end.

(** [AudioStream::onGetData] *)
Definition onGetData (fuel : nat) (data : Chunk) : M t (bool * Chunk) :=
  let data := {| samples := true; sampleCount := sampleCount data |} in
  filled <- fillChunk fuel None data ;;
  let packet := fst filled in
  (if negb (notNull packet) then sfeLog LogDebug NoMoreAudioPackets else ret tt) ;;
  ret (notNull packet, snd filled).

(** [AudioStream::didSeek], inherited from [Stream]: [offset] is what the
    timer answers to [getOffset]. *)
Definition didSeek (fuel : nat) (offset : sf.Time) : M t bool :=
  if negb (offset =? sf.Zero) then fastForward fuel offset else ret true.

(** [AudioStream::didPlay] *)
Definition didPlay : M t unit :=
  s <- get ;;
  CHECK (sf.Status_eqb (soundStatus s) sf.Playing)
        "AudioStream::didPlay() - willPlay() not executed!" ;;
  onBase Stream.didPlay.

End WithCollaborators.
Arguments t {DS AV}.
End AudioStream.

(** ** Collaborators to run the methods with *)

(** A data source that answers its successive requests with the batches of
    a list, and with nothing once the list is used up. *)
Definition ScriptedSource : DataSource :=
  {| source := list (list AVPacket);
     requestMoreData := fun batches =>
       match batches with
       | [] => ([], [])
       | batch :: later => (batch, later)
       end |}.

(** A decoder whose successive calls of [avcodec_send_packet] return the
    codes of a list, then 0, and whose every [avcodec_receive_frame] gives
    a frame of [frameSamples] samples at [frameRate] Hz; a resampler
    without delay which converts as many samples as it is given room for;
    an allocator which answers with the code [allocResult]. *)
Definition ScriptedLibAV (frameSamples frameRate allocResult : Z) : LibAV :=
  {| AVCodecContext := list Z;
     avcodec_send_packet := fun codes _ =>
       match codes with
       | [] => (0, [])
       | code :: later => (code, later)
       end;
     avcodec_receive_frame := fun codes =>
       (0, {| nb_samples := frameSamples; sample_rate := frameRate |}, codes);
     avcodec_flush_buffers := fun _ => [];
     SwrContext := unit;
     swr_get_delay := fun _ _ => 0;
     swr_convert := fun swr out_count frame => (Z.min out_count (nb_samples frame), swr);
     Heap := unit;
     av_samples_alloc := fun h _ _ => (allocResult, h) |}.

(** A decoder that refuses every packet. *)
Definition RefusingLibAV : LibAV :=
  {| AVCodecContext := unit;
     avcodec_send_packet := fun ctx _ => (AVERROR EINVAL, ctx);
     avcodec_receive_frame := fun ctx =>
       (AVERROR EINVAL, {| nb_samples := 0; sample_rate := 0 |}, ctx);
     avcodec_flush_buffers := fun ctx => ctx;
     SwrContext := unit;
     swr_get_delay := fun _ _ => 0;
     swr_convert := fun swr out_count frame => (Z.min out_count (nb_samples frame), swr);
     Heap := unit;
     av_samples_alloc := fun h _ _ => (0, h) |}.

(** A decoder that takes every packet and gives a frame of
    [frameSamples] samples at [frameRate] Hz for each, with the resampler
    and the allocator of [RefusingLibAV]. *)
Definition WillingLibAV (frameSamples frameRate : Z) : LibAV :=
  {| AVCodecContext := unit;
     avcodec_send_packet := fun ctx _ => (0, ctx);
     avcodec_receive_frame := fun ctx =>
       (0, {| nb_samples := frameSamples; sample_rate := frameRate |}, ctx);
     avcodec_flush_buffers := fun ctx => ctx;
     SwrContext := unit;
     swr_get_delay := fun _ _ => 0;
     swr_convert := fun swr out_count frame => (Z.min out_count (nb_samples frame), swr);
     Heap := unit;
     av_samples_alloc := fun h _ _ => (0, h) |}.

Module Scenario.

(** A mono source at 48 kHz cut in packets of 20 ms: the time base is
    1/48000, a packet lasts 960 ticks and packet [k] starts at tick
    [960 * k]. *)
Definition audio48k : AVStream :=
  {| index := 0;
     time_base := {| num := 1; den := 48000 |};
     start_time := 0;
     guessed_frame_rate := {| num := 0; den := 1 |} |}.

Definition packet (k : nat) : AVPacket :=
  {| data := Some []; size := 0; stream_index := 0;
     dts := 960 * Z.of_nat k; pts := 960 * Z.of_nat k; duration := 960 |}.

Definition packets (from count : nat) : list AVPacket := map packet (seq from count).

Definition stream (AV : LibAV) (ctx : @AVCodecContext AV) (queue : list AVPacket)
  : @Stream.t ScriptedSource AV :=
  {| Stream.m_formatCtx := Some OpenedContainer;
     Stream.m_stream := Some audio48k;
     Stream.m_dataSource := [] : @source ScriptedSource;
     Stream.m_codec_capabilities := 0;
     Stream.m_context := ctx;
     Stream.m_streamID := 0;
     Stream.m_packetList := queue;
     Stream.m_status := Stopped;
     Stream.isPassive := false;
     Stream.getStreamKind := Audio;
     Stream.requests := 0;
     Stream.log := [];
     Stream.released := [] |}.

Definition audioStream (AV : LibAV) (ctx : @AVCodecContext AV)
    (swr : @SwrContext AV) (h : @Heap AV) (queue : list AVPacket)
  : @AudioStream.t ScriptedSource AV :=
  {| AudioStream.base := stream AV ctx queue;
     AudioStream.soundStatus := sf.Stopped;
     AudioStream.m_sampleRatePerChannel := 48000;
     AudioStream.m_audioFrame := {| nb_samples := 0; sample_rate := 0 |};
     AudioStream.m_swrCtx := Some swr;
     AudioStream.m_dstNbSamples := 1024;
     AudioStream.m_maxDstNbSamples := 1024;
     AudioStream.m_dstNbChannels := 2;
     AudioStream.m_dstData := Some 1024;
     AudioStream.heap := h;
     AudioStream.m_extraAudioTime := sf.Zero;
     AudioStream.submitted := [];
     AudioStream.copied := [] |}.

(** The stream of the scenario with its first hundred packets queued. *)
Definition seekable : @AudioStream.t ScriptedSource (ScriptedLibAV 960 48000 0) :=
  audioStream (ScriptedLibAV 960 48000 0) [] tt tt (packets 0 100).

(** The same stream while the sound is playing, with three packets
    queued and 5 ms of sound left to discard. *)
Definition playing : @AudioStream.t ScriptedSource (ScriptedLibAV 960 48000 0) :=
  AudioStream.set_extraAudioTime 5000
    (AudioStream.set_soundStatus sf.Playing
       (AudioStream.set_base
          (Stream.set_status Playing
             (stream (ScriptedLibAV 960 48000 0) [] (packets 0 3)))
          seekable)).

(** The stream when the queue starts with the second packet, which
    begins at 20 ms. *)
Definition fromSecondPacket : @AudioStream.t ScriptedSource (ScriptedLibAV 960 48000 0) :=
  audioStream (ScriptedLibAV 960 48000 0) [] tt tt (packets 1 10).

(** Two packets queued, and a decoder that refuses the first packet once
    before it accepts it. *)
Definition refusedOnce : @AudioStream.t ScriptedSource (ScriptedLibAV 960 48000 0) :=
  audioStream (ScriptedLibAV 960 48000 0) [AVERROR EINVAL] tt tt (packets 0 2).

(** Two packets queued, and a decoder that refuses every packet. *)
Definition refused : @AudioStream.t ScriptedSource RefusingLibAV :=
  audioStream RefusingLibAV tt tt tt (packets 0 2).

(** The chunk the sound stream passes to [onGetData]. *)
Definition emptyChunk : AudioStream.Chunk :=
  {| AudioStream.samples := false; AudioStream.sampleCount := 0 |}.

(** The stream with a decoder whose frames hold two seconds of sound, as
    many samples as the buffer. *)
Definition longFrames : @AudioStream.t ScriptedSource (ScriptedLibAV 96000 48000 0) :=
  audioStream (ScriptedLibAV 96000 48000 0) [] tt tt (packets 0 2).

(** The same stream once paused. *)
Definition paused : @AudioStream.t ScriptedSource (ScriptedLibAV 960 48000 0) :=
  AudioStream.set_soundStatus sf.Paused playing.

(** The stream after a seek, with 416666 us of sound left to discard and
    a decoder whose frames hold 1.25 s of sound. *)
Definition longFramesAfterSeek
  : @AudioStream.t ScriptedSource (ScriptedLibAV 60000 48000 0) :=
  AudioStream.set_extraAudioTime 416666
    (audioStream (ScriptedLibAV 60000 48000 0) [] tt tt (packets 0 3)).

End Scenario.

(** ** The order of the queue, in the words of the specification *)

Module QueueOrder.
Section WithCollaborators.
Context {DS : DataSource} {AV : LibAV}.

Inductive Operation : Type :=
| Push (packet : AVPacket)
| Prepend (packet : AVPacket)
| Pop.

(** A sequence of calls on one stream, and what each pop returned. *)
Fixpoint run (ops : list Operation) : M Stream.t (list (option AVPacket)) :=
  match ops with
  | [] => ret []
  | Push p :: later => Stream.pushEncodedData (Some p) ;; run later
  | Prepend p :: later => Stream.prependEncodedData (Some p) ;; run later
  | Pop :: later =>
      popped <- Stream.popEncodedData ;;
      others <- run later ;;
      ret (popped :: others)
  end.

(** The specification speaks of the packets that wait, each one pushed
    or prepended, in the order they arrived.  The next packet out is the
    one prepended last, and the one that arrived first when no prepended
    packet waits. *)
Inductive Arrival : Type := Pushed | Prepended.

Definition Waiting : Type := list (Arrival * AVPacket).

Fixpoint takeLastPrepended (w : Waiting) : option (AVPacket * Waiting) :=
  match w with
  | [] => None
  | (how, p) :: later =>
      match takeLastPrepended later with
      | Some (q, later') => Some (q, (how, p) :: later')
      | None =>
          match how with
          | Prepended => Some (p, later)
          | Pushed => None
          end
      end
  end.

Definition takeFirst (w : Waiting) : option (AVPacket * Waiting) :=
  match w with
  | [] => None
  | (_, p) :: later => Some (p, later)
  end.

Definition next (w : Waiting) : option (AVPacket * Waiting) :=
  match takeLastPrepended w with
  | Some found => Some found
  | None => takeFirst w
  end.

Definition arrive (how : Arrival) (packets : list AVPacket) : Waiting :=
  map (fun p => (how, p)) packets.

(** The same sequence of calls against the waiting packets.  A pop that
    finds nothing waiting on an active stream asks the source once, and
    what the source hands over counts as pushed; a pop that still finds
    nothing answers with the flush packet when the codec has a delay and
    with no packet otherwise. *)
Fixpoint expected (passive delay : bool) (ops : list Operation)
    (w : Waiting) (d : source) : list (option AVPacket) :=
  match ops with
  | [] => []
  | Push p :: later => expected passive delay later (w ++ [(Pushed, p)]) d
  | Prepend p :: later => expected passive delay later (w ++ [(Prepended, p)]) d
  | Pop :: later =>
      let refilled :=
        match w with
        | [] => if passive then (w, d)
                else (arrive Pushed (fst (requestMoreData d)), snd (requestMoreData d))
        | _ :: _ => (w, d)
        end in
      match next (fst refilled) with
      | Some (p, w') => Some p :: expected passive delay later w' (snd refilled)
      | None =>
          (if delay then Some Stream.flushPacket else None)
            :: expected passive delay later (fst refilled) (snd refilled)
      end
  end.

(** The queue a stream holds for given waiting packets. *)
Fixpoint queueOf (w : Waiting) (queue : list AVPacket) : list AVPacket :=
  match w with
  | [] => queue
  | (Pushed, p) :: later => queueOf later (queue ++ [p])
  | (Prepended, p) :: later => queueOf later (p :: queue)
  end.

Definition hasDelay (s : Stream.t) : bool :=
  negb (Z.land (Stream.m_codec_capabilities s) AV_CODEC_CAP_DELAY =? 0).

(** The waiting packets that were prepended, and those that were
    pushed, in the order they arrived. *)
Fixpoint prependedOf (w : Waiting) : list AVPacket :=
  match w with
  | [] => []
  | (Prepended, p) :: later => p :: prependedOf later
  | (Pushed, _) :: later => prependedOf later
  end.

Fixpoint pushedOf (w : Waiting) : list AVPacket :=
  match w with
  | [] => []
  | (Pushed, p) :: later => p :: pushedOf later
  | (Prepended, _) :: later => pushedOf later
  end.

(** The state of a stream once the source has answered a request. *)
Definition afterRequest (s : Stream.t) : Stream.t :=
  Stream.set_packetList
    (Stream.m_packetList s ++ fst (requestMoreData (Stream.m_dataSource s)))
    (Stream.set_requests (S (Stream.requests s))
       (Stream.set_dataSource (snd (requestMoreData (Stream.m_dataSource s))) s)).

End WithCollaborators.
End QueueOrder.

(** ** Successive calls of [resampleFrame] *)

Module Resampling.
Section WithCollaborators.
Context {DS : DataSource} {AV : LibAV}.

(** The states an [AudioStream] goes through when [resampleFrame] is
    called on one frame after the other, the first state included. *)
Fixpoint history (frames : list (option AVFrame)) (s : AudioStream.t)
  : list AudioStream.t :=
  match frames with
  | [] => [s]
  | frame :: later => s :: history later (snd (AudioStream.resampleFrame frame s))
  end.

(** Two successive states: the capacity is the same, or it has grown and
    the block is the one just allocated for it. *)
Definition grows (before after : AudioStream.t) : Prop :=
  AudioStream.m_maxDstNbSamples before = AudioStream.m_maxDstNbSamples after
  \/ (AudioStream.m_maxDstNbSamples before < AudioStream.m_maxDstNbSamples after
      /\ AudioStream.m_dstData after = Some (AudioStream.m_maxDstNbSamples after)
      /\ AudioStream.m_dstNbSamples after = AudioStream.m_maxDstNbSamples after).

Fixpoint chain {A} (R : A -> A -> Prop) (l : list A) : Prop :=
  match l with
  | a :: (b :: _) as rest => R a b /\ chain R rest
  | _ => True
  end.

End WithCollaborators.
End Resampling.

(** ** The copies [onGetData] makes into its buffer *)

Module Buffer.
Section WithCollaborators.
Context {DS : DataSource} {AV : LibAV}.

(** A copy stays inside a buffer of [capacity] samples. *)
Definition inside (capacity : Z) (c : AudioStream.Copy) : Prop :=
  0 <= AudioStream.firstSample c
  /\ 0 <= AudioStream.byteCount c
  /\ AudioStream.firstSample c * AudioStream.BytesPerSample + AudioStream.byteCount c
     <= capacity * AudioStream.BytesPerSample.

(** From [before] to [after] the sample rate is the same and the copies
    made stay inside the buffer of [capacity] samples. *)
Definition extends (capacity : Z) (before after : AudioStream.t) : Prop :=
  AudioStream.m_sampleRatePerChannel after = AudioStream.m_sampleRatePerChannel before
  /\ exists made,
       AudioStream.copied after = AudioStream.copied before ++ made
       /\ Forall (inside capacity) made.

(** The state [onGetData] starts from: a sample rate above zero whose
    double fits an [int] (the loop of [onGetData] computes it), and a chunk
    whose number of samples fits an [int] and is not above the capacity of
    the buffer. *)
Definition ready (data : AudioStream.Chunk) (s : AudioStream.t) : Prop :=
  0 < AudioStream.m_sampleRatePerChannel s
  /\ 2 * AudioStream.m_sampleRatePerChannel s <= Int.INT_MAX
  /\ 0 <= AudioStream.sampleCount data <= AudioStream.samplesBufferCapacity s
  /\ AudioStream.sampleCount data <= Int.INT_MAX.

End WithCollaborators.
End Buffer.

(** ** What a seek does to the queue *)

Module Seek.
Section WithCollaborators.
Context {DS : DataSource} {AV : LibAV}.

(** The stream once [popEncodedData] or [computeEncodedPosition] has
    asked the source, which they do when the queue is empty and the
    stream is not passive. *)
Definition refilled (s : Stream.t) : Stream.t :=
  if Stream.empty (Stream.m_packetList s) && negb (Stream.isPassive s)
  then QueueOrder.afterRequest s else s.

(** The stream after a turn of the loop of [fastForward] that found the
    packet [p] starting after the target: the packet is back in front of
    [rest], the extra time is zero, and the advance [late] is in the log
    when it is above one microsecond. *)
Definition reinsertedLate (late : sf.Time) (p : AVPacket) (rest : list AVPacket)
    (b : Stream.t) (s : AudioStream.t) : AudioStream.t :=
  AudioStream.set_base
    (Stream.set_packetList (p :: rest)
       (if sf.microseconds 1 <? late
        then Stream.set_log
               (Stream.log b ++ [(LogWarning, InaccuracyDetected (sf.asMicroseconds late))])
               (Stream.set_packetList rest b)
        else Stream.set_packetList rest b))
    (AudioStream.set_extraAudioTime sf.Zero s).

(** The stream after the turn that found the packet holding the target. *)
Definition reinsertedInside (extra : sf.Time) (p : AVPacket) (rest : list AVPacket)
    (b : Stream.t) (s : AudioStream.t) : AudioStream.t :=
  AudioStream.set_base
    (Stream.set_log
       (Stream.log b ++ [(LogDebug, ExtraAudioTimeToDiscard (sf.asMicroseconds extra))])
       (Stream.set_packetList (p :: rest) (Stream.set_packetList rest b)))
    (AudioStream.set_extraAudioTime extra s).

(** The stream after a turn that released the packet [p]. *)
Definition discarded (p : AVPacket) (rest : list AVPacket)
    (b : Stream.t) (s : AudioStream.t) : AudioStream.t :=
  AudioStream.set_base
    (Stream.set_released (Stream.released b ++ [p]) (Stream.set_packetList rest b)) s.

(** A packet that ends at or before the time [T]. *)
Definition endsBefore (stream : AVStream) (T : sf.Time) (q : AVPacket) : Prop :=
  sf.add (Stream.positionOf stream q) (Stream.durationOf stream q) <= T.

(** From [before] to [after] the packets [dropped] were released, in
    this order, the packets [fetched] came from the source, and no other
    packet left the queue or entered it. *)
Definition moved (dropped fetched : list AVPacket) (before after : Stream.t) : Prop :=
  Stream.released after = Stream.released before ++ dropped
  /\ dropped ++ Stream.m_packetList after = Stream.m_packetList before ++ fetched.

(** The lines added to the log from [before] to [after] hold no error. *)
Definition noErrorLogged (before after : Stream.t) : Prop :=
  exists added,
    Stream.log after = Stream.log before ++ added
    /\ Forall (fun entry : LogEntry => fst entry <> LogError) added.

(** What a seek to [T] may do to a stream: release packets that end at
    or before [T], take packets from the source, and log lines that are
    not errors. *)
Definition skipped (T : sf.Time) (before after : Stream.t) : Prop :=
  Stream.m_stream after = Stream.m_stream before
  /\ (exists dropped fetched,
        moved dropped fetched before after
        /\ forall stream, Stream.m_stream before = Some stream ->
                          Forall (endsBefore stream T) dropped)
  /\ noErrorLogged before after.

(** Where [fastForward] leaves the stream when it returns. *)
Definition stopsAt (T : sf.Time) (before : Stream.t) (result : bool) (s' : AudioStream.t)
  : Prop :=
  if result then
    exists stream p rest,
      Stream.m_stream (AudioStream.base s') = Some stream
      /\ Stream.m_packetList (AudioStream.base s') = p :: rest
      /\ T < sf.add (Stream.positionOf stream p) (Stream.durationOf stream p)
      /\ ((T < Stream.positionOf stream p /\ AudioStream.m_extraAudioTime s' = sf.Zero)
          \/ (Stream.positionOf stream p <= T
              /\ AudioStream.m_extraAudioTime s' = sf.sub T (Stream.positionOf stream p)
              /\ 0 < AudioStream.m_extraAudioTime s' <= Stream.durationOf stream p))
  else
    Stream.m_packetList (AudioStream.base s') = []
    /\ exists added,
         Stream.log (AudioStream.base s')
         = Stream.log before ++ added ++ [(LogWarning, FastForwardFailed)]
         /\ Forall (fun entry : LogEntry => fst entry <> LogError) added.

End WithCollaborators.
End Seek.

(** ** What [onGetData] does with the packets it takes *)

Module Decoding.
Section WithCollaborators.
Context {DS : DataSource} {AV : LibAV}.

(** A method keeps the relation [R] when every call that returns relates
    the state it started in to the state it leaves. *)
Definition keeps {S A : Type} (R : S -> S -> Prop) (c : M S A) : Prop :=
  forall s a s', c s = (Return a, s') -> R s s'.

(** A method settles from the states of [P] when every call from such a
    state returns, in a state of [P] and with a value of [Q], or throws:
    it neither runs out of fuel nor runs into undefined behaviour. *)
Definition settles {S A : Type} (P : S -> Prop) (Q : A -> Prop) (c : M S A) : Prop :=
  forall s, P s ->
    match c s with
    | (Return a, s') => P s' /\ Q a
    | (Throw _, _) => True
    | (Undefined _, _) => False
    | (Timeout, _) => False
    end.

(** The sample rates [samplesToTime] can divide by without giving a
    frame of sound the time zero. *)
Definition usualRate (s : AudioStream.t) : Prop :=
  0 < AudioStream.m_sampleRatePerChannel s <= 1000000.

(** From [before] to [after] the queue and the source were not touched,
    no packet was released, and [frames] copies were made into the
    buffer. *)
Definition copiedMore (frames : nat) (before after : AudioStream.t) : Prop :=
  AudioStream.m_sampleRatePerChannel after = AudioStream.m_sampleRatePerChannel before
  /\ Stream.m_packetList (AudioStream.base after) = Stream.m_packetList (AudioStream.base before)
  /\ Stream.released (AudioStream.base after) = Stream.released (AudioStream.base before)
  /\ Stream.m_codec_capabilities (AudioStream.base after)
     = Stream.m_codec_capabilities (AudioStream.base before)
  /\ Stream.isPassive (AudioStream.base after) = Stream.isPassive (AudioStream.base before)
  /\ Stream.m_dataSource (AudioStream.base after)
     = Stream.m_dataSource (AudioStream.base before)
  /\ List.length (AudioStream.copied after)
     = (List.length (AudioStream.copied before) + frames)%nat.

(** The number of samples [resampleFrame] asks the resampler to convert
    for the frame [f]. *)
Definition wantedSamples (swr : SwrContext) (f : AVFrame) : Z :=
  Int.to_int
    (av_rescale_rnd_up (Int.to_int64 (swr_get_delay swr (sample_rate f) + nb_samples f))
                       (sample_rate f) (sample_rate f)).

(** The number of samples below which [onGetData] goes on decoding. *)
Definition oneSecond (s : AudioStream.t) : Z :=
  Int.to_size_t
    (Int.to_int (AudioStream.getStereoChannelCount * AudioStream.m_sampleRatePerChannel s)).

(** From [before] to [after] the packets [popped] were taken from the
    queue, one frame of each was copied into the buffer, and each was
    released, in this order. *)
Definition consumed (popped : list AVPacket) (before after : AudioStream.t) : Prop :=
  AudioStream.m_sampleRatePerChannel after = AudioStream.m_sampleRatePerChannel before
  /\ Stream.m_codec_capabilities (AudioStream.base after)
     = Stream.m_codec_capabilities (AudioStream.base before)
  /\ Stream.released (AudioStream.base after)
     = Stream.released (AudioStream.base before) ++ popped
  /\ List.length (AudioStream.copied after)
     = (List.length (AudioStream.copied before) + List.length popped)%nat
  /\ (QueueOrder.hasDelay (AudioStream.base before) = false ->
      exists fetched,
        popped ++ Stream.m_packetList (AudioStream.base after)
        = Stream.m_packetList (AudioStream.base before) ++ fetched).

(** How the loop of [onGetData] ends: with the last packet it took when
    the chunk holds a second of sound, and with no packet when the queue
    is empty or when the chunk held a second of sound from the start. *)
Definition ended (packet : option AVPacket) (data : AudioStream.Chunk)
    (before : AudioStream.t) (popped : list AVPacket)
    (packet' : option AVPacket) (data' : AudioStream.Chunk) (after : AudioStream.t) : Prop :=
  match packet' with
  | Some p =>
      oneSecond before <= AudioStream.sampleCount data'
      /\ ((packet = Some p /\ popped = []) \/ In p popped)
  | None =>
      (Stream.m_packetList (AudioStream.base after) = []
       /\ QueueOrder.hasDelay (AudioStream.base before) = false)
      \/ (packet = None /\ popped = [] /\ data' = data
          /\ oneSecond before <= AudioStream.sampleCount data)
  end.

End WithCollaborators.
End Decoding.

(** ** The turns of the loops of [onGetData] *)

Module Turns.
Section WithCollaborators.
Context {DS : DataSource} {AV : LibAV}.

(** [reaches fuel data s outer inner p data' s']: the call
    [onGetData fuel data] on the stream [s] comes to the head of its
    inner loop ([do ... while (needsMoreDecoding)]) with the packet [p],
    the chunk [data'] and the stream [s'], and with [inner] turns left
    for this loop and [outer] for the outer one.  It does so when the
    chunk holds less than one second of sound and [popEncodedData]
    gives a packet, at the start of the call or after the turn of a
    packet whose frame was copied and which was released; and it does so
    again each time the decoder gives no frame for the packet. *)
Inductive reaches (fuel : nat) (data : AudioStream.Chunk) (s : AudioStream.t)
  : nat -> nat -> AVPacket -> AudioStream.Chunk -> AudioStream.t -> Prop :=
| reaches_first (outer : nat) (p : AVPacket) (s1 : AudioStream.t) :
    fuel = S outer ->
    AudioStream.sampleCount data < Decoding.oneSecond s ->
    AudioStream.onBase Stream.popEncodedData s = (Return (Some p), s1) ->
    reaches fuel data s outer outer p
      {| AudioStream.samples := true;
         AudioStream.sampleCount := AudioStream.sampleCount data |} s1
| reaches_again (outer inner : nat) (p : AVPacket) (data' : AudioStream.Chunk)
    (s' s1 : AudioStream.t) :
    reaches fuel data s outer (S inner) p data' s' ->
    AudioStream.decodePacket p s' = (Return (true, false), s1) ->
    reaches fuel data s outer inner p data' s1
| reaches_next (outer inner : nat) (p q : AVPacket) (data' data1 : AudioStream.Chunk)
    (s' s1 s2 s3 s4 : AudioStream.t) :
    reaches fuel data s (S outer) (S inner) p data' s' ->
    AudioStream.decodePacket p s' = (Return (false, true), s1) ->
    AudioStream.appendFrame data' s1 = (Return data1, s2) ->
    AudioStream.onBase (Stream.av_packet_unref p) s2 = (Return tt, s3) ->
    AudioStream.sampleCount data1 < Decoding.oneSecond s3 ->
    AudioStream.onBase Stream.popEncodedData s3 = (Return (Some q), s4) ->
    reaches fuel data s outer outer q data1 s4.

End WithCollaborators.
End Turns.

(** * Properties *)

Unset Implicit Arguments.

(** ** Machine integers *)

Lemma to_int64_fits (z : Z) : Int.fits_int64 z -> Int.to_int64 z = z.
Proof.
  unfold Int.fits_int64, Int.INT64_MIN, Int.INT64_MAX, Int.to_int64, Int.wrap.
  intros H. change (2 ^ (64 - 1)) with 9223372036854775808.
  change (2 ^ 64) with 18446744073709551616.
  change (2 ^ 63) with 9223372036854775808 in H.
  rewrite Z.mod_small; lia.
Qed.

Lemma to_int_fits (z : Z) : Int.fits_int z -> Int.to_int z = z.
Proof.
  unfold Int.fits_int, Int.INT_MIN, Int.INT_MAX, Int.to_int, Int.wrap.
  intros H. change (2 ^ (32 - 1)) with 2147483648.
  change (2 ^ 32) with 4294967296.
  change (2 ^ 31) with 2147483648 in H.
  rewrite Z.mod_small; lia.
Qed.

Lemma to_int64_range (z : Z) : Int.fits_int64 (Int.to_int64 z).
Proof.
  unfold Int.fits_int64, Int.INT64_MIN, Int.INT64_MAX, Int.to_int64, Int.wrap.
  change (2 ^ (64 - 1)) with 9223372036854775808.
  change (2 ^ 64) with 18446744073709551616.
  change (2 ^ 63) with 9223372036854775808.
  pose proof (Z.mod_pos_bound (z + 9223372036854775808) 18446744073709551616).
  lia.
Qed.

Lemma to_int_range (z : Z) : Int.fits_int (Int.to_int z).
Proof.
  unfold Int.fits_int, Int.INT_MIN, Int.INT_MAX, Int.to_int, Int.wrap.
  change (2 ^ (32 - 1)) with 2147483648.
  change (2 ^ 32) with 4294967296.
  change (2 ^ 31) with 2147483648.
  pose proof (Z.mod_pos_bound (z + 2147483648) 4294967296).
  lia.
Qed.

Lemma to_size_t_small (z : Z) : 0 <= z < 2 ^ 64 -> Int.to_size_t z = z.
Proof. intros H. unfold Int.to_size_t. apply Z.mod_small. exact H. Qed.

Lemma float_to_int64_range (x : spec_float) : Int.fits_int64 (Float.to_int64 x).
Proof.
  unfold Float.to_int64.
  destruct (Float.truncate x) as [z|].
  - destruct (Int.fits_int64b z) eqn:E.
    + unfold Int.fits_int64b in E. apply andb_prop in E. destruct E as [E1 E2].
      split; [apply Z.leb_le, E1 | apply Z.leb_le, E2].
    + unfold Int.fits_int64, Int.INT64_MIN, Int.INT64_MAX. lia.
  - unfold Int.fits_int64, Int.INT64_MIN, Int.INT64_MAX. lia.
Qed.

(** ** The monad *)

Lemma bind_Return {S A B} (c : M S A) (k : A -> M S B) (s s' : S) (a : A) :
  c s = (Return a, s') -> bind c k s = k a s'.
Proof. intros H. unfold bind. rewrite H. reflexivity. Qed.

Lemma bind_ret_l {S A B} (a : A) (k : A -> M S B) (s : S) :
  bind (ret a) k s = k a s.
Proof. reflexivity. Qed.

Lemma bind_get {S B} (k : S -> M S B) (s : S) : bind get k s = k s s.
Proof. reflexivity. Qed.

Lemma bind_put {S B} (s0 : S) (k : unit -> M S B) (s : S) : bind (put s0) k s = k tt s0.
Proof. reflexivity. Qed.

Lemma bind_modify {S B} (f : S -> S) (k : unit -> M S B) (s : S) :
  bind (modify f) k s = k tt (f s).
Proof. reflexivity. Qed.

Lemma bind_CHECK_true {S B} (message : string) (k : unit -> M S B) (s : S) :
  bind (CHECK true message) k s = k tt s.
Proof. reflexivity. Qed.

Lemma bind_CHECK_false {S B} (message : string) (k : unit -> M S B) (s : S) :
  bind (CHECK false message) k s = (Throw message, s).
Proof. reflexivity. Qed.

Lemma bind_assoc {S A B C} (c : M S A) (k : A -> M S B) (h : B -> M S C) (s : S) :
  bind (bind c k) h s = bind c (fun a => bind (k a) h) s.
Proof. unfold bind. destruct (c s) as [[a| | |] s1]; reflexivity. Qed.

Lemma bind_unfold {S A B} (c : M S A) (k : A -> M S B) (s : S) :
  bind c k s
  = match c s with
    | (Return a, s') => k a s'
    | (Throw what, s') => (Throw what, s')
    | (Undefined why, s') => (Undefined why, s')
    | (Timeout, s') => (Timeout, s')
    end.
Proof. reflexivity. Qed.

(** ** [Stream]: the queue *)

Section StreamQueue.
Context {DS : DataSource} {AV : LibAV}.

Lemma pushEncodedData_some (p : AVPacket) (s : Stream.t) :
  Stream.pushEncodedData (Some p) s
  = (Return tt, Stream.set_packetList (Stream.m_packetList s ++ [p]) s).
Proof. reflexivity. Qed.

Lemma prependEncodedData_some (p : AVPacket) (s : Stream.t) :
  Stream.prependEncodedData (Some p) s
  = (Return tt, Stream.set_packetList (p :: Stream.m_packetList s) s).
Proof. reflexivity. Qed.

Lemma pushAll_spec (packets : list AVPacket) (s : Stream.t) :
  Stream.pushAll packets s
  = (Return tt, Stream.set_packetList (Stream.m_packetList s ++ packets) s).
Proof.
  revert s. induction packets as [|p rest IH]; intros s.
  - simpl. rewrite app_nil_r. destruct s; reflexivity.
  - simpl. unfold bind at 1. simpl. rewrite IH. simpl.
    rewrite <- app_assoc. reflexivity.
Qed.

Lemma callRequestMoreData_spec (s : Stream.t) :
  Stream.callRequestMoreData s
  = (Return tt,
     Stream.set_packetList
       (Stream.m_packetList s ++ fst (requestMoreData (Stream.m_dataSource s)))
       (Stream.set_requests (S (Stream.requests s))
          (Stream.set_dataSource (snd (requestMoreData (Stream.m_dataSource s))) s))).
Proof.
  unfold Stream.callRequestMoreData, bind, get, put.
  destruct (requestMoreData (Stream.m_dataSource s)) as [packets d]. simpl.
  rewrite pushAll_spec. reflexivity.
Qed.

Lemma releaseAll_spec (queue : list AVPacket) (s : Stream.t) :
  Stream.releaseAll queue s
  = (Return tt,
     Stream.set_released (Stream.released s ++ queue)
       (Stream.set_packetList (match queue with [] => Stream.m_packetList s | _ => [] end) s)).
Proof.
  revert s. induction queue as [|pkt rest IH]; intros s.
  - simpl. rewrite app_nil_r. destruct s; reflexivity.
  - simpl. unfold bind, modify, Stream.av_packet_unref. simpl. rewrite IH. simpl.
    rewrite <- app_assoc. destruct rest; reflexivity.
Qed.

End StreamQueue.

Section PopEncodedData.
Context {DS : DataSource} {AV : LibAV}.

Lemma popEncodedData_front (s : Stream.t) (front : AVPacket) (rest : list AVPacket) :
  Stream.m_packetList s = front :: rest ->
  Stream.popEncodedData s = (Return (Some front), Stream.set_packetList rest s).
Proof.
  intros H. unfold Stream.popEncodedData, bind, get. rewrite H. simpl.
  rewrite H. reflexivity.
Qed.

(** C4.  What [Stream::popEncodedData] does in each case.  A queued
    packet is removed from the front and returned, and the source is not
    asked.  On an empty queue a passive stream does not ask the source;
    an active one asks it exactly once, and returns the first packet the
    source handed over if there is one.  When the queue is still empty,
    the result is the flush packet (no data, size 0) if the codec has
    [AV_CODEC_CAP_DELAY], and no packet otherwise; the call returns
    normally in every case. *)
Theorem popEncodedData_refill_and_flush (s : Stream.t) :
  let result := fst (Stream.popEncodedData s) in
  let after := snd (Stream.popEncodedData s) in
  let atEnd := if QueueOrder.hasDelay s then Some Stream.flushPacket else None in
  data Stream.flushPacket = None /\ size Stream.flushPacket = 0 /\
  match Stream.m_packetList s with
  | front :: rest =>
      result = Return (Some front)
      /\ Stream.m_packetList after = rest
      /\ Stream.requests after = Stream.requests s
      /\ Stream.m_dataSource after = Stream.m_dataSource s
  | [] =>
      if Stream.isPassive s then
        result = Return atEnd
        /\ Stream.m_packetList after = []
        /\ Stream.requests after = Stream.requests s
        /\ Stream.m_dataSource after = Stream.m_dataSource s
      else
        Stream.requests after = S (Stream.requests s)
        /\ Stream.m_dataSource after = snd (requestMoreData (Stream.m_dataSource s))
        /\ match fst (requestMoreData (Stream.m_dataSource s)) with
           | front :: rest =>
               result = Return (Some front) /\ Stream.m_packetList after = rest
           | [] =>
               result = Return atEnd /\ Stream.m_packetList after = []
           end
  end.
Proof.
  cbv zeta. split; [reflexivity|]. split; [reflexivity|].
  destruct (Stream.m_packetList s) as [|front rest] eqn:Hq.
  - unfold Stream.popEncodedData. rewrite bind_get.
    rewrite Hq. destruct (Stream.isPassive s) eqn:Hp; simpl.
    + rewrite bind_ret_l, bind_get.
      rewrite Hq. unfold QueueOrder.hasDelay.
      destruct (negb (Z.land (Stream.m_codec_capabilities s) AV_CODEC_CAP_DELAY =? 0));
        simpl; rewrite ?Hq; auto.
    + rewrite (bind_Return _ _ _ _ _ (callRequestMoreData_spec s)), bind_get.
      simpl. rewrite Hq. simpl.
      destruct (fst (requestMoreData (Stream.m_dataSource s))) as [|p ps] eqn:Hd.
      * unfold QueueOrder.hasDelay.
        destruct (negb (Z.land (Stream.m_codec_capabilities s) AV_CODEC_CAP_DELAY =? 0));
          simpl; auto.
      * simpl. auto.
  - rewrite (popEncodedData_front s front rest Hq). simpl. auto.
Qed.

End PopEncodedData.

(** ** [Stream]: the order in which packets come out *)

Section QueueOrderProofs.
Context {DS : DataSource} {AV : LibAV}.
Import QueueOrder.

Lemma popEncodedData_empty (s : Stream.t) :
  Stream.m_packetList s = [] ->
  Stream.popEncodedData s
  = let s1 := if Stream.isPassive s then s else afterRequest s in
    match Stream.m_packetList s1 with
    | front :: rest => (Return (Some front), Stream.set_packetList rest s1)
    | [] =>
        if hasDelay s
        then (Return (Some Stream.flushPacket),
              Stream.set_log
                (Stream.log s1 ++ [(LogDebug, SendingFlushPacket (Stream.getStreamKind s))])
                s1)
        else (Return None, s1)
    end.
Proof.
  intros Hq. unfold Stream.popEncodedData. rewrite bind_get, Hq.
  destruct (Stream.isPassive s) eqn:Hp; simpl.
  - rewrite bind_ret_l, bind_get, Hq. unfold hasDelay.
    destruct (negb (Z.land (Stream.m_codec_capabilities s) AV_CODEC_CAP_DELAY =? 0));
      reflexivity.
  - rewrite (bind_Return _ _ _ _ _ (callRequestMoreData_spec s)), bind_get.
    fold (afterRequest s). simpl.
    destruct (Stream.m_packetList s ++ fst (requestMoreData (Stream.m_dataSource s)))
      as [|front rest]; [|reflexivity].
    unfold hasDelay.
    destruct (negb (Z.land (Stream.m_codec_capabilities s) AV_CODEC_CAP_DELAY =? 0));
      reflexivity.
Qed.

Lemma queueOf_split (w : Waiting) (queue : list AVPacket) :
  queueOf w queue = rev (prependedOf w) ++ queue ++ pushedOf w.
Proof.
  revert queue. induction w as [|[[|] p] later IH]; intros queue; simpl.
  - rewrite app_nil_r. reflexivity.
  - rewrite IH, <- app_assoc. reflexivity.
  - rewrite IH, <- app_assoc. reflexivity.
Qed.

Lemma prependedOf_app (w w' : Waiting) :
  prependedOf (w ++ w') = prependedOf w ++ prependedOf w'.
Proof.
  induction w as [|[[|] q] later IH]; simpl; [reflexivity | exact IH |].
  rewrite IH. reflexivity.
Qed.

Lemma pushedOf_app (w w' : Waiting) :
  pushedOf (w ++ w') = pushedOf w ++ pushedOf w'.
Proof.
  induction w as [|[[|] q] later IH]; simpl; [reflexivity | | exact IH].
  rewrite IH. reflexivity.
Qed.

Lemma queueOf_push (w : Waiting) (p : AVPacket) :
  queueOf (w ++ [(Pushed, p)]) [] = queueOf w [] ++ [p].
Proof.
  rewrite !queueOf_split, prependedOf_app, pushedOf_app. simpl.
  rewrite !app_nil_r, app_assoc. reflexivity.
Qed.

Lemma queueOf_prepend (w : Waiting) (p : AVPacket) :
  queueOf (w ++ [(Prepended, p)]) [] = p :: queueOf w [].
Proof.
  rewrite !queueOf_split, prependedOf_app, pushedOf_app. simpl.
  rewrite rev_app_distr, !app_nil_r. reflexivity.
Qed.

Lemma queueOf_arrive_pushed (packets : list AVPacket) :
  queueOf (arrive Pushed packets) [] = packets.
Proof.
  assert (H : prependedOf (arrive Pushed packets) = []
              /\ pushedOf (arrive Pushed packets) = packets).
  { induction packets as [|p rest [IH1 IH2]]; simpl; [auto|].
    rewrite IH1, IH2. auto. }
  destruct H as [H1 H2]. rewrite queueOf_split, H1, H2. reflexivity.
Qed.

Lemma queueOf_nil (w : Waiting) : queueOf w [] = [] -> w = [].
Proof.
  rewrite queueOf_split. destruct w as [|[[|] p] later]; simpl; intros H.
  - reflexivity.
  - destruct (rev (prependedOf later)); discriminate.
  - apply app_eq_nil in H. destruct H as [H _].
    apply app_eq_nil in H. destruct H as [_ H]. discriminate.
Qed.

Lemma takeLastPrepended_none (w : Waiting) :
  takeLastPrepended w = None -> prependedOf w = [].
Proof.
  induction w as [|[[|] p] later IH]; simpl; intros H.
  - reflexivity.
  - destruct (takeLastPrepended later) as [[q later']|]; [discriminate|]. auto.
  - destruct (takeLastPrepended later) as [[q later']|]; discriminate.
Qed.

Lemma takeLastPrepended_some (w w' : Waiting) (x : AVPacket) :
  takeLastPrepended w = Some (x, w') ->
  prependedOf w = prependedOf w' ++ [x] /\ pushedOf w' = pushedOf w.
Proof.
  revert w' x. induction w as [|[[|] p] later IH]; simpl; intros w' x H.
  - discriminate.
  - destruct (takeLastPrepended later) as [[q later']|] eqn:E; [|discriminate].
    injection H as <- <-. destruct (IH _ _ eq_refl) as [H1 H2].
    simpl. rewrite H1, H2. auto.
  - destruct (takeLastPrepended later) as [[q later']|] eqn:E.
    + injection H as <- <-. destruct (IH _ _ eq_refl) as [H1 H2].
      simpl. rewrite H1, H2. auto.
    + injection H as <- <-. rewrite (takeLastPrepended_none later E). auto.
Qed.

(** The packet the specification names next is the front of the queue. *)
Lemma next_is_front (w : Waiting) :
  match queueOf w [] with
  | [] => next w = None
  | front :: rest => exists w', next w = Some (front, w') /\ queueOf w' [] = rest
  end.
Proof.
  unfold next. destruct (takeLastPrepended w) as [[x w']|] eqn:E.
  - destruct (takeLastPrepended_some w w' x E) as [H1 H2].
    rewrite queueOf_split, H1, rev_app_distr. simpl.
    exists w'. split; [reflexivity|]. rewrite queueOf_split, H2. reflexivity.
  - pose proof (takeLastPrepended_none w E) as H.
    rewrite queueOf_split, H. simpl.
    destruct w as [|[[|] p] later]; simpl in *.
    + reflexivity.
    + exists later. split; [reflexivity|]. rewrite queueOf_split, H. reflexivity.
    + discriminate.
Qed.

Lemma run_expected (ops : list Operation) :
  forall (s : Stream.t) (w : Waiting),
    Stream.m_packetList s = queueOf w [] ->
    exists s',
      run ops s
      = (Return (expected (Stream.isPassive s) (hasDelay s) ops w (Stream.m_dataSource s)),
         s').
Proof.
  induction ops as [|[p|p|] later IH]; intros s w Hq.
  - exists s. reflexivity.
  - simpl. rewrite (bind_Return _ _ _ _ _ (pushEncodedData_some p s)).
    apply (IH (Stream.set_packetList (Stream.m_packetList s ++ [p]) s)).
    simpl. rewrite Hq, queueOf_push. reflexivity.
  - simpl. rewrite (bind_Return _ _ _ _ _ (prependEncodedData_some p s)).
    apply (IH (Stream.set_packetList (p :: Stream.m_packetList s) s)).
    simpl. rewrite Hq, queueOf_prepend. reflexivity.
  - simpl. destruct w as [|a w0].
    + (* nothing waits: the queue is empty *)
      simpl in Hq. pose proof (popEncodedData_empty s Hq) as Hpop.
      cbv zeta in Hpop. unfold next; simpl.
      destruct (Stream.isPassive s) eqn:Hp.
      * rewrite Hq in Hpop. simpl. destruct (hasDelay s) eqn:Hd.
        -- rewrite (bind_Return _ _ _ _ _ Hpop).
           edestruct (IH (Stream.set_log
                        (Stream.log s ++ [(LogDebug, SendingFlushPacket (Stream.getStreamKind s))])
                        s) []) as [s' Hs']; [exact Hq|].
           rewrite (bind_Return _ _ _ _ _ Hs'). simpl in *.
           rewrite Hp. unfold hasDelay in Hd |- *. simpl. rewrite Hd.
           eexists. reflexivity.
        -- rewrite (bind_Return _ _ _ _ _ Hpop).
           edestruct (IH s []) as [s' Hs']; [exact Hq|].
           rewrite (bind_Return _ _ _ _ _ Hs'). rewrite Hp, Hd.
           eexists. reflexivity.
      * simpl in Hpop. rewrite Hq in Hpop. simpl in Hpop.
        pose proof (next_is_front
                      (arrive Pushed (fst (requestMoreData (Stream.m_dataSource s))))) as Hn.
        rewrite queueOf_arrive_pushed in Hn. unfold next in Hn.
        destruct (fst (requestMoreData (Stream.m_dataSource s))) as [|front rest] eqn:Hdel.
        -- simpl. destruct (hasDelay s) eqn:Hd.
           ++ rewrite (bind_Return _ _ _ _ _ Hpop).
              edestruct (IH (Stream.set_log
                        (Stream.log s
                           ++ [(LogDebug, SendingFlushPacket (Stream.getStreamKind s))])
                        (afterRequest s)) []) as [s' Hs'].
              { simpl. rewrite Hq, Hdel. reflexivity. }
              rewrite (bind_Return _ _ _ _ _ Hs'). simpl in *.
              rewrite Hp. unfold hasDelay in Hd |- *. simpl. rewrite Hd.
              eexists. reflexivity.
           ++ rewrite (bind_Return _ _ _ _ _ Hpop).
              edestruct (IH (afterRequest s) []) as [s' Hs'].
              { simpl. rewrite Hq, Hdel. reflexivity. }
              rewrite (bind_Return _ _ _ _ _ Hs'). simpl in *.
              rewrite Hp. unfold hasDelay in Hd |- *. simpl. rewrite Hd.
              eexists. reflexivity.
        -- destruct Hn as [w' [Hn Hw']]. cbn [fst snd]. rewrite Hn.
           rewrite (bind_Return _ _ _ _ _ Hpop).
           edestruct (IH (Stream.set_packetList rest (afterRequest s)) w') as [s' Hs'].
           { simpl. symmetry. exact Hw'. }
           rewrite (bind_Return _ _ _ _ _ Hs'). simpl.
           rewrite Hp. eexists. reflexivity.
    + (* packets wait: the queue has a front *)
      pose proof (next_is_front (a :: w0)) as Hn.
      destruct (queueOf (a :: w0) []) as [|front rest] eqn:Hw.
      * apply queueOf_nil in Hw. discriminate.
      * destruct Hn as [w' [Hn Hw']].
        rewrite (bind_Return _ _ _ _ _ (popEncodedData_front s front rest Hq)).
        cbv zeta. cbn [fst snd]. rewrite Hn.
        edestruct (IH (Stream.set_packetList rest s) w') as [s' Hs'].
        { simpl. symmetry. exact Hw'. }
        rewrite (bind_Return _ _ _ _ _ Hs'). simpl.
        eexists. reflexivity.
Qed.

(** C8.  For every sequence of calls of [pushEncodedData],
    [prependEncodedData] and [popEncodedData] on a stream, the pops
    return what the specification says: of the packets that wait, the
    one prepended last, and the one that arrived first when no prepended
    packet waits (the packets found in the queue at the start count as
    pushed in their order, and so do the packets handed over by the
    source). *)
Theorem pop_order_follows_specification (s : Stream.t) (ops : list Operation) :
  fst (run ops s)
  = Return (expected (Stream.isPassive s) (hasDelay s) ops
              (arrive Pushed (Stream.m_packetList s)) (Stream.m_dataSource s)).
Proof.
  destruct (run_expected ops s (arrive Pushed (Stream.m_packetList s))) as [s' H].
  - rewrite queueOf_arrive_pushed. reflexivity.
  - rewrite H. reflexivity.
Qed.

End QueueOrderProofs.

(** ** [AudioStream::resampleFrame]: the capacity of the output block *)

Section ResamplerCapacity.
Context {DS : DataSource} {AV : LibAV}.
Import Resampling.

Lemma buffer_size_range (nb_channels nb_samples : Z) :
  av_samples_get_buffer_size_S16 nb_channels nb_samples <= Int.INT_MAX.
Proof.
  unfold av_samples_get_buffer_size_S16, AVERROR, EINVAL, av_get_bytes_per_sample_S16,
    Int.INT_MAX.
  change (2 ^ 31 - 1) with 2147483647.
  destruct ((nb_samples <=? 0) || (nb_channels <=? 0)) eqn:H1; [lia|].
  apply orb_false_elim in H1. destruct H1 as [Hn Hc].
  apply Z.leb_gt in Hn, Hc.
  destruct ((2147483647 <? nb_channels)
            || ((2147483647 - nb_channels) / 2 <? nb_channels * nb_samples)) eqn:H2; [lia|].
  apply orb_false_elim in H2. destruct H2 as [_ H2]. apply Z.ltb_ge in H2.
  pose proof (Z.mul_div_le (2147483647 - nb_channels) 2 ltac:(lia)) as Hd.
  nia.
Qed.

Lemma samples_of_buffer_size (nb_channels nb_samples : Z) :
  0 <= av_samples_get_buffer_size_S16 nb_channels nb_samples ->
  0 <= Z.quot (av_samples_get_buffer_size_S16 nb_channels nb_samples)
              av_get_bytes_per_sample_S16 < 2 ^ 30.
Proof.
  intros Hpos. pose proof (buffer_size_range nb_channels nb_samples) as Hmax.
  unfold Int.INT_MAX in Hmax. change (2 ^ 31 - 1) with 2147483647 in Hmax.
  unfold av_get_bytes_per_sample_S16. rewrite Z.quot_div_nonneg by lia.
  change (2 ^ 30) with 1073741824.
  split; [apply Z.div_pos; lia | apply Z.div_lt_upper_bound; lia].
Qed.

(** Every way [resampleFrame] can end.  [leaf] closes a goal in which the
    call has been run to its end. *)
Ltac resample_check leaf :=
  match goal with
  | |- context [bind (CHECK ?c ?m) ?k ?s] =>
      destruct c eqn:?; [rewrite bind_CHECK_true | rewrite bind_CHECK_false; leaf]
  end.

Ltac resample_cases leaf :=
  unfold AudioStream.resampleFrame; rewrite bind_get;
  match goal with
  | |- context [AudioStream.m_swrCtx ?s] =>
      destruct (AudioStream.m_swrCtx s) as [swr|]; cbn [notNull]
  end;
  [rewrite bind_CHECK_true | rewrite bind_CHECK_false; leaf];
  match goal with
  | |- context [notNull ?frame] => destruct frame as [f|]; cbn [notNull]
  end;
  [rewrite bind_CHECK_true | rewrite bind_CHECK_false; leaf];
  rewrite bind_modify;
  match goal with
  | |- context [AudioStream.m_maxDstNbSamples ?s <? ?n] =>
      destruct (AudioStream.m_maxDstNbSamples s <? n) eqn:Hlarger; set (dst := n) in *
  end;
  [ rewrite bind_assoc, bind_modify, bind_assoc, bind_get;
    cbn [AudioStream.heap AudioStream.m_dstNbChannels AudioStream.set_dstData
         AudioStream.set_dstNbSamples];
    match goal with
    | |- context [av_samples_alloc ?h ?c ?n] =>
        destruct (av_samples_alloc h c n) as [? ?]
    end;
    rewrite bind_assoc, bind_put, bind_assoc;
    resample_check leaf;
    rewrite bind_assoc, bind_modify, bind_modify
  | rewrite bind_ret_l ];
  (match goal with
   | |- context [swr_convert ?c ?n ?f] =>
       destruct (swr_convert c n f) as [? ?]
   end;
   rewrite bind_modify;
   resample_check leaf;
   rewrite bind_get;
   match goal with
   | |- context [CHECK (0 <=? ?size) _] => destruct (0 <=? size) eqn:Hsize
   end;
   [ rewrite bind_CHECK_true | rewrite bind_CHECK_false ];
   leaf).

(** [resampleFrame] changes the members of the resampler only; it leaves
    the capacity as it was or makes it larger; and the number of samples it
    returns is that of a buffer whose size in bytes fits an [int]. *)
Lemma resampleFrame_analysis (frame : option AVFrame) (s : AudioStream.t) :
  grows s (snd (AudioStream.resampleFrame frame s))
  /\ (AudioStream.m_sampleRatePerChannel (snd (AudioStream.resampleFrame frame s))
      = AudioStream.m_sampleRatePerChannel s
      /\ AudioStream.copied (snd (AudioStream.resampleFrame frame s))
         = AudioStream.copied s)
  /\ forall buffer count,
       fst (AudioStream.resampleFrame frame s) = Return (buffer, count) ->
       0 <= count < 2 ^ 30.
Proof.
  resample_cases
    ltac:(cbn;
          split; [first [left; reflexivity
                        | right; apply Z.ltb_lt in Hlarger; repeat split; auto]|];
          split; [split; reflexivity|];
          intros buffer count H;
          first [discriminate
                | injection H as _ <-; apply samples_of_buffer_size;
                  apply Z.leb_le; assumption]).
Qed.

Lemma resampleFrame_grows (frame : option AVFrame) (s : AudioStream.t) :
  grows s (snd (AudioStream.resampleFrame frame s)).
Proof. apply resampleFrame_analysis. Qed.

Lemma grows_le (a b : AudioStream.t) :
  grows a b -> AudioStream.m_maxDstNbSamples a <= AudioStream.m_maxDstNbSamples b.
Proof. unfold grows. intros [H|[H _]]; lia. Qed.

(** C9.  Along every sequence of calls of [resampleFrame], whatever the
    frames and whatever the resampler and the allocator answer, and
    whether the calls return or throw, the capacity [m_maxDstNbSamples]
    never decreases from one call to the next: a call leaves it as it
    was, or it has allocated a block for strictly more samples and made
    that number the capacity. *)
Theorem resampler_capacity_never_shrinks
    (frames : list (option AVFrame)) (s : AudioStream.t) :
  chain grows (history frames s)
  /\ chain (fun a b => AudioStream.m_maxDstNbSamples a <= AudioStream.m_maxDstNbSamples b)
           (history frames s)
  /\ Forall (fun later => AudioStream.m_maxDstNbSamples s
                          <= AudioStream.m_maxDstNbSamples later)
            (history frames s).
Proof.
  revert s. induction frames as [|frame later IH]; intros s.
  - simpl. repeat split; auto. constructor; [lia | constructor].
  - destruct (IH (snd (AudioStream.resampleFrame frame s))) as [H1 [H2 H3]].
    pose proof (resampleFrame_grows frame s) as Hg.
    pose proof (grows_le _ _ Hg) as Hle.
    simpl. destruct later as [|frame' later']; simpl in *.
    + repeat split; auto. constructor; [lia|]. constructor; [lia | constructor].
    + repeat split; auto; try tauto.
      constructor; [lia|].
      eapply Forall_impl; [|exact H3]. simpl. intros a Ha. lia.
Qed.

End ResamplerCapacity.

(** ** [AudioStream::timeToSamples] *)

Section TimeToSamples.
Context {DS : DataSource} {AV : LibAV}.

(** Conversion to a signed integer keeps an even number even. *)
Lemma wrap_even (bits z : Z) :
  2 <= bits -> (exists k, z = 2 * k) -> exists k, Int.wrap bits z = 2 * k.
Proof.
  intros Hbits [k ->]. unfold Int.wrap.
  assert (Hhalf : 2 ^ (bits - 1) = 2 * 2 ^ (bits - 2)).
  { replace (bits - 1) with (Z.succ (bits - 2)) by lia. apply Z.pow_succ_r. lia. }
  assert (Hfull : 2 ^ bits = 2 * 2 ^ (bits - 1)).
  { replace bits with (Z.succ (bits - 1)) at 1 by lia. apply Z.pow_succ_r. lia. }
  assert (Hpos : 0 < 2 ^ (bits - 2)) by (apply Z.pow_pos_nonneg; lia).
  pose proof (Z.div_mod (2 * k + 2 ^ (bits - 1)) (2 ^ bits) ltac:(lia)) as Hdm.
  set (q := (2 * k + 2 ^ (bits - 1)) / 2 ^ bits) in *.
  set (r := (2 * k + 2 ^ (bits - 1)) mod 2 ^ bits) in *.
  exists (k - 2 * 2 ^ (bits - 2) * q). rewrite Hfull, Hhalf in Hdm. rewrite Hhalf.
  clearbody q r. nia.
Qed.

(** Within the range of an [int] the claim holds.  For a stream whose
    sample rate is not negative and whose stereo sample rate fits an
    [int], and a time [t >= 0] whose number of samples
    [2 * rate * t / 1000000] fits an [int] too, [timeToSamples] returns,
    without changing the stream, a number of samples that is not
    negative and is a multiple of the number of channels: the raw
    number of samples rounded down to whole sample-frames.  An offset of
    that many samples is a whole number of sample-frames in bytes too. *)
Lemma timeToSamples_within_int (s : AudioStream.t) (t : sf.Time) :
  0 <= AudioStream.m_sampleRatePerChannel s ->
  2 * AudioStream.m_sampleRatePerChannel s <= Int.INT_MAX ->
  0 <= t ->
  2 * AudioStream.m_sampleRatePerChannel s * t / 1000000 <= Int.INT_MAX ->
  exists n,
    AudioStream.timeToSamples t s = (Return n, s)
    /\ 0 <= n
    /\ Z.rem n AudioStream.getStereoChannelCount = 0
    /\ n <= 2 * AudioStream.m_sampleRatePerChannel s * t / 1000000 < n + 2
    /\ Z.rem (n * AudioStream.BytesPerSample)
             (AudioStream.getStereoChannelCount * AudioStream.BytesPerSample) = 0.
Proof.
  assert (Hbytes : forall n, 0 <= n -> Z.rem n 2 = 0 -> Z.rem (n * 2) (2 * 2) = 0).
  { intros n Hn Heven. rewrite Z.rem_mod_nonneg in * by lia.
    pose proof (Z.div_mod n 2 ltac:(lia)) as Hdm. rewrite Heven in Hdm.
    replace (n * 2) with (n / 2 * (2 * 2)) by lia. apply Z.mod_mul. lia. }
  intros Hrate Hstereo Ht Hfits.
  unfold Int.INT_MAX in *. change (2 ^ 31 - 1) with 2147483647 in *.
  set (rate := AudioStream.m_sampleRatePerChannel s) in *.
  set (raw := 2 * rate * t / 1000000) in *.
  assert (Hraw : 0 <= raw) by (apply Z.div_pos; nia).
  assert (Hprod : 0 <= 2 * rate * t < 2147483648 * 1000000).
  { split; [nia|].
    pose proof (Z.div_mod (2 * rate * t) 1000000 ltac:(lia)) as Hdm.
    pose proof (Z.mod_pos_bound (2 * rate * t) 1000000 ltac:(lia)) as Hmb.
    fold raw in Hdm. lia. }
  unfold AudioStream.timeToSamples. rewrite bind_get. fold rate.
  unfold AudioStream.getStereoChannelCount, sf.asMicroseconds.
  rewrite (to_int_fits (rate * 2))
    by (unfold Int.fits_int, Int.INT_MIN, Int.INT_MAX; lia).
  rewrite (to_int64_fits (rate * 2 * t))
    by (unfold Int.fits_int64, Int.INT64_MIN, Int.INT64_MAX; lia).
  replace (rate * 2 * t) with (2 * rate * t) by ring.
  rewrite Z.quot_div_nonneg by lia. fold raw.
  clearbody raw. clear Hprod.
  assert (Hleb : (0 <=? raw) = true) by (apply Z.leb_le; lia).
  rewrite Hleb, bind_CHECK_true.
  rewrite Z.rem_mod_nonneg by lia.
  pose proof (Z.mod_pos_bound raw 2 ltac:(lia)) as Hmod.
  destruct (raw mod 2 =? 0) eqn:Heven; simpl.
  - apply Z.eqb_eq in Heven.
    exists raw. rewrite to_int_fits by (unfold Int.fits_int, Int.INT_MIN, Int.INT_MAX; lia).
    assert (Hrem : Z.rem raw 2 = 0) by (rewrite Z.rem_mod_nonneg by lia; exact Heven).
    repeat split; try lia; try exact Hrem; apply Hbytes; [lia | exact Hrem].
  - apply Z.eqb_neq in Heven.
    assert (Hone : raw mod 2 = 1) by lia.
    assert (Hpos : 1 <= raw).
    { pose proof (Z.div_mod raw 2 ltac:(lia)) as Hdm.
      pose proof (Z.div_pos raw 2 Hraw ltac:(lia)). lia. }
    exists (raw - 1). rewrite Hone.
    rewrite (to_int64_fits (raw - 1))
      by (unfold Int.fits_int64, Int.INT64_MIN, Int.INT64_MAX; lia).
    rewrite to_int_fits by (unfold Int.fits_int, Int.INT_MIN, Int.INT_MAX; lia).
    assert (Hrem : Z.rem (raw - 1) 2 = 0).
    { rewrite Z.rem_mod_nonneg by lia.
      rewrite <- Zminus_mod_idemp_l, Hone. reflexivity. }
    repeat split; try lia; try exact Hrem; apply Hbytes; [lia | exact Hrem].
Qed.

End TimeToSamples.

(** C10.  The part of the claim on whole sample-frames holds of every
    call, with no condition on the stream or on the time: [timeToSamples]
    leaves the stream as it was and either returns a multiple of the
    number of channels, which is a whole number of sample-frames in
    bytes too, or throws [computation overflow].  The part on the sign
    fails.  The check [samples >= 0] is made on the [int64_t] value, and
    the value is then returned as an [int]: at 48 kHz in stereo a time of
    22370 s, which is not negative, makes 2147520000 samples, which pass
    the check and are more than an [int] holds, and the call returns
    -2147447296. *)
Theorem timeToSamples_narrows_after_its_check :
  (forall (DS : DataSource) (AV : LibAV) (s : @AudioStream.t DS AV) (t : sf.Time),
      match AudioStream.timeToSamples t s with
      | (Return n, s') =>
          s' = s
          /\ Z.rem n AudioStream.getStereoChannelCount = 0
          /\ Z.rem (n * AudioStream.BytesPerSample)
                   (AudioStream.getStereoChannelCount * AudioStream.BytesPerSample) = 0
      | (Throw message, s') => s' = s /\ message = "computation overflow"%string
      | (_, _) => False
      end)
  /\ 0 <= 22370000000
  /\ AudioStream.m_sampleRatePerChannel Scenario.seekable = 48000
  /\ Z.quot (Int.to_int64 (Int.to_int (48000 * AudioStream.getStereoChannelCount)
                           * sf.asMicroseconds 22370000000)) 1000000
     = 2147520000
  /\ Int.INT_MAX < 2147520000
  /\ AudioStream.timeToSamples 22370000000 Scenario.seekable
     = (Return (-2147447296), Scenario.seekable)
  /\ -2147447296 < 0.
Proof.
  split.
  - intros DS AV s t.
    unfold AudioStream.timeToSamples. rewrite bind_get.
    unfold AudioStream.getStereoChannelCount, AudioStream.BytesPerSample.
    set (samples :=
           Z.quot (Int.to_int64 (Int.to_int (AudioStream.m_sampleRatePerChannel s * 2)
                                 * sf.asMicroseconds t)) 1000000).
    clearbody samples.
    destruct (0 <=? samples) eqn:Hcheck.
    + rewrite bind_CHECK_true. cbn [ret].
      split; [reflexivity|].
      assert (Heven : exists k,
                 Int.to_int (if negb (Z.rem samples 2 =? 0)
                             then Int.to_int64 (samples - Z.rem samples 2)
                             else samples) = 2 * k).
      { apply wrap_even; [lia|].
        pose proof (Z.quot_rem' samples 2) as Hqr.
        destruct (Z.rem samples 2 =? 0) eqn:Hrem; cbn [negb].
        - apply Z.eqb_eq in Hrem. exists (Z.quot samples 2). lia.
        - apply wrap_even; [lia|]. exists (Z.quot samples 2). lia. }
      destruct Heven as [k ->].
      split.
      * rewrite Z.mul_comm. apply Z.rem_mul. lia.
      * replace (2 * k * 2) with (k * (2 * 2)) by ring. apply Z.rem_mul. lia.
    + rewrite bind_CHECK_false. split; reflexivity.
  - split; [lia|]. split; [reflexivity|]. split; [vm_compute; reflexivity|].
    split; [vm_compute; reflexivity|].
    split; [vm_compute; reflexivity | lia].
Qed.

(** ** [flushBuffers] *)

Section FlushBuffers.
Context {DS : DataSource} {AV : LibAV}.

Lemma Stream_flushBuffers_spec (b : Stream.t) :
  exists b',
    Stream.flushBuffers b = (Return tt, b')
    /\ Stream.m_packetList b' = []
    /\ Stream.released b' = Stream.released b ++ Stream.m_packetList b
    /\ Stream.m_context b'
       = match Stream.m_formatCtx b, Stream.m_stream b with
         | Some _, Some _ => avcodec_flush_buffers (Stream.m_context b)
         | _, _ => Stream.m_context b
         end
    /\ Stream.log b'
       = Stream.log b
           ++ (if Status_eqb (Stream.m_status b) Playing
               then [(LogWarning, FlushedWhilePlaying)] else [])
    /\ Stream.m_status b' = Stream.m_status b
    /\ Stream.m_dataSource b' = Stream.m_dataSource b
    /\ Stream.requests b' = Stream.requests b.
Proof.
  unfold Stream.flushBuffers, Stream.getStatus.
  rewrite bind_assoc, bind_get, bind_ret_l.
  set (b1 := if Status_eqb (Stream.m_status b) Playing
             then Stream.set_log (Stream.log b ++ [(LogWarning, FlushedWhilePlaying)]) b
             else b).
  assert (H1 : (if Status_eqb (Stream.m_status b) Playing
                then Stream.sfeLog LogWarning FlushedWhilePlaying else ret tt) b
               = (Return tt, b1)).
  { unfold b1. destruct (Status_eqb (Stream.m_status b) Playing); reflexivity. }
  rewrite (bind_Return _ _ _ _ _ H1), bind_get.
  set (b2 := match Stream.m_formatCtx b1, Stream.m_stream b1 with
             | Some _, Some _ =>
                 Stream.set_context (avcodec_flush_buffers (Stream.m_context b1)) b1
             | _, _ => b1
             end).
  assert (H2 : match Stream.m_formatCtx b1, Stream.m_stream b1 with
               | Some _, Some _ =>
                   put (Stream.set_context (avcodec_flush_buffers (Stream.m_context b1)) b1)
               | _, _ => ret tt
               end b1 = (Return tt, b2)).
  { unfold b2. destruct (Stream.m_formatCtx b1), (Stream.m_stream b1); reflexivity. }
  rewrite (bind_Return _ _ _ _ _ H2), bind_get, releaseAll_spec.
  eexists. split; [reflexivity|].
  unfold b2, b1. clear.
  destruct b as [fc st d caps ctx id queue status passive kind n lg rel]. simpl.
  destruct (Status_eqb status Playing), fc, st, queue;
    simpl; rewrite ?app_nil_r; repeat split; reflexivity.
Qed.

(** C6, as amended.  When the sound stream does not report [Playing],
    [AudioStream::flushBuffers] returns with every queued packet released
    once, in the order of the queue, the queue empty, [m_extraAudioTime]
    zero and the sound stopped; the buffers of the decoder are flushed
    when the format context and the stream are still there; and one
    warning is logged when the status of the [Stream] is [Playing], none
    otherwise. *)
Theorem flushBuffers_unless_sound_playing (s : AudioStream.t) :
  AudioStream.soundStatus s <> sf.Playing ->
  exists s',
    AudioStream.flushBuffers s = (Return tt, s')
    /\ Stream.m_packetList (AudioStream.base s') = []
    /\ Stream.released (AudioStream.base s')
       = Stream.released (AudioStream.base s) ++ Stream.m_packetList (AudioStream.base s)
    /\ AudioStream.m_extraAudioTime s' = sf.Zero
    /\ AudioStream.soundStatus s' = sf.Stopped
    /\ Stream.m_context (AudioStream.base s')
       = match Stream.m_formatCtx (AudioStream.base s),
               Stream.m_stream (AudioStream.base s) with
         | Some _, Some _ => avcodec_flush_buffers (Stream.m_context (AudioStream.base s))
         | _, _ => Stream.m_context (AudioStream.base s)
         end
    /\ Stream.log (AudioStream.base s')
       = Stream.log (AudioStream.base s)
           ++ (if Status_eqb (Stream.m_status (AudioStream.base s)) Playing
               then [(LogWarning, FlushedWhilePlaying)] else []).
Proof.
  intros Hnot.
  destruct (Stream_flushBuffers_spec (AudioStream.base s))
    as [b' [Hrun [Hq [Hrel [Hctx [Hlog _]]]]]].
  unfold AudioStream.flushBuffers. rewrite bind_get.
  destruct (AudioStream.soundStatus s) eqn:Hst; [| |congruence]; simpl.
  - rewrite bind_ret_l, bind_ret_l, bind_modify.
    unfold AudioStream.onBase, lift. simpl. rewrite Hrun.
    eexists. split; [reflexivity|]. simpl. rewrite Hst. auto 10.
  - rewrite bind_ret_l. unfold AudioStream.soundStream_stop.
    rewrite bind_modify, bind_modify.
    unfold AudioStream.onBase, lift. simpl. rewrite Hrun.
    eexists. split; [reflexivity|]. simpl. auto 10.
Qed.

(** When the sound stream reports [Playing], the call throws and leaves
    the stream as it was. *)
Lemma flushBuffers_while_sound_playing (s : AudioStream.t) :
  AudioStream.soundStatus s = sf.Playing ->
  AudioStream.flushBuffers s
  = (Throw "Trying to flush while audio is playing, this will introduce an audio glitch!", s).
Proof.
  intros H. unfold AudioStream.flushBuffers. rewrite bind_get, H. reflexivity.
Qed.

End FlushBuffers.

(** The amended statement holds of the paused stream of the scenario: its
    three packets are released and the warning is logged. *)
Lemma flushBuffers_unless_sound_playing_witness :
  exists s',
    AudioStream.flushBuffers Scenario.paused = (Return tt, s')
    /\ Stream.m_packetList (AudioStream.base s') = []
    /\ Stream.released (AudioStream.base s') = [] ++ Scenario.packets 0 3
    /\ AudioStream.m_extraAudioTime s' = sf.Zero
    /\ AudioStream.soundStatus s' = sf.Stopped
    /\ Stream.m_context (AudioStream.base s') = []
    /\ Stream.log (AudioStream.base s') = [] ++ [(LogWarning, FlushedWhilePlaying)].
Proof.
  apply (flushBuffers_unless_sound_playing Scenario.paused).
  simpl. discriminate.
Defined.

(** C6, as stated, fails.  On the stream of the scenario while the sound is
    playing, [flushBuffers] throws: the three queued packets stay queued,
    none is released, [m_extraAudioTime] keeps its 5 ms and nothing is
    logged. *)
Lemma flushBuffers_aborts_while_playing :
  let after := snd (AudioStream.flushBuffers Scenario.playing) in
  fst (AudioStream.flushBuffers Scenario.playing)
  = Throw "Trying to flush while audio is playing, this will introduce an audio glitch!"
  /\ Stream.m_packetList (AudioStream.base after) = Scenario.packets 0 3
  /\ Stream.released (AudioStream.base after) = []
  /\ AudioStream.m_extraAudioTime after = 5000
  /\ Stream.log (AudioStream.base after) = [].
Proof. vm_compute. repeat split. Qed.

(** ** [AudioStream::onGetData]: a packet the decoder refuses *)

Section RefusedPacket.
Context {DS : DataSource} {AV : LibAV}.

Lemma decodePacket_refused (packet : AVPacket) (s : AudioStream.t) :
  fst (avcodec_send_packet (Stream.m_context (AudioStream.base s)) packet) <> 0 ->
  AudioStream.decodePacket packet s
  = (Return (true, false),
     AudioStream.set_submitted (AudioStream.submitted s ++ [packet])
       (AudioStream.set_base
          (Stream.set_context
             (snd (avcodec_send_packet (Stream.m_context (AudioStream.base s)) packet))
             (AudioStream.base s))
          s)).
Proof.
  intros H. unfold AudioStream.decodePacket. rewrite bind_get.
  destruct (avcodec_send_packet (Stream.m_context (AudioStream.base s)) packet)
    as [sent ctx].
  simpl in H. rewrite bind_put.
  apply Z.eqb_neq in H. rewrite H. reflexivity.
Qed.

(** As long as the decoder refuses the packet, the inner loop of
    [onGetData] gives it the same packet again: with a decoder that
    never accepts, the loop uses up any fuel, one submission of the
    packet for each turn. *)
Lemma decodeWhileNeeded_refused_forever
    (fuel : nat) (packet : AVPacket) (data : AudioStream.Chunk) (s : AudioStream.t) :
  (forall ctx p, fst (avcodec_send_packet ctx p) <> 0) ->
  fst (AudioStream.decodeWhileNeeded fuel packet data s) = Timeout
  /\ AudioStream.submitted (snd (AudioStream.decodeWhileNeeded fuel packet data s))
     = AudioStream.submitted s ++ repeat packet fuel.
Proof.
  intros Hrefuse. revert s. induction fuel as [|fuel IH]; intros s.
  - simpl. rewrite app_nil_r. auto.
  - simpl. rewrite (bind_Return _ _ _ _ _ (decodePacket_refused packet s (Hrefuse _ _))).
    simpl. rewrite bind_ret_l.
    destruct (IH (AudioStream.set_submitted (AudioStream.submitted s ++ [packet])
       (AudioStream.set_base
          (Stream.set_context
             (snd (avcodec_send_packet (Stream.m_context (AudioStream.base s)) packet))
             (AudioStream.base s))
          s))) as [H1 H2].
    split; [exact H1|]. rewrite H2. simpl. rewrite <- app_assoc. reflexivity.
Qed.

End RefusedPacket.

(** C3: what the code does with a packet whose decoding fails.  With two
    packets queued and a decoder that refuses the first packet once,
    [onGetData] gives the decoder the first packet a second time before it
    goes on to the second packet; and with a decoder that refuses every
    packet it never gets past the first one: whatever the fuel, the call
    does not return, and the first packet is all the decoder was given. *)
Theorem onGetData_resubmits_refused_packet :
  (let r := AudioStream.onGetData 10 Scenario.emptyChunk Scenario.refusedOnce in
   fst r = Return (false, {| AudioStream.samples := true; AudioStream.sampleCount := 3840 |})
   /\ AudioStream.submitted (snd r)
      = [Scenario.packet 0; Scenario.packet 0; Scenario.packet 1])
  /\ forall fuel : nat,
       let r := AudioStream.onGetData (S fuel) Scenario.emptyChunk Scenario.refused in
       fst r = Timeout
       /\ AudioStream.submitted (snd r) = repeat (Scenario.packet 0) fuel.
Proof.
  split.
  - vm_compute. split; reflexivity.
  - intros fuel. cbv zeta.
    set (chunk := {| AudioStream.samples := true; AudioStream.sampleCount := 0 |}).
    set (popped := AudioStream.set_base
                     (Stream.set_packetList [Scenario.packet 1]
                        (AudioStream.base Scenario.refused))
                     Scenario.refused).
    assert (Hfill : AudioStream.fillChunk (S fuel) None chunk Scenario.refused
                    = bind (AudioStream.decodeWhileNeeded fuel (Scenario.packet 0) chunk)
                        (fun data =>
                           bind (AudioStream.onBase
                                   (Stream.av_packet_unref (Scenario.packet 0)))
                             (fun _ => AudioStream.fillChunk fuel
                                         (Some (Scenario.packet 0)) data))
                        popped) by reflexivity.
    destruct (@decodeWhileNeeded_refused_forever ScriptedSource RefusingLibAV fuel
                (Scenario.packet 0) chunk popped) as [H1 H2].
    { intros ctx p. simpl. discriminate. }
    assert (Hall : AudioStream.onGetData (S fuel) Scenario.emptyChunk Scenario.refused
                   = (Timeout,
                      snd (AudioStream.decodeWhileNeeded fuel (Scenario.packet 0)
                             chunk popped))).
    { unfold AudioStream.onGetData.
      change {| AudioStream.samples := true;
                AudioStream.sampleCount := AudioStream.sampleCount Scenario.emptyChunk |}
        with chunk.
      unfold bind at 1. rewrite Hfill. unfold bind at 1.
      destruct (AudioStream.decodeWhileNeeded fuel (Scenario.packet 0) chunk popped)
        as [o s'].
      simpl in H1. subst o. reflexivity. }
    rewrite Hall. split; [reflexivity | exact H2].
Qed.

(** ** [AudioStream::fastForward] on the scenario *)

(** C5: what the code does when the first packet starts after the target.
    The packet of the scenario that starts at 20 ms is at the front and the
    target is 19.5 ms, half a millisecond before: the packet is put back
    and the call returns [true] after one turn, but the warning is logged
    for these 500 microseconds.  At 19.999 ms, one microsecond before the
    packet, nothing is logged: the threshold of the code is one
    microsecond. *)
Theorem fastForward_warns_above_one_microsecond :
  (let r := AudioStream.fastForward 1 19500 Scenario.fromSecondPacket in
   Stream.positionOf Scenario.audio48k (Scenario.packet 1) - 19500 = 500
   /\ fst r = Return true
   /\ Stream.m_packetList (AudioStream.base (snd r)) = Scenario.packets 1 10
   /\ AudioStream.m_extraAudioTime (snd r) = 0
   /\ Stream.log (AudioStream.base (snd r)) = [(LogWarning, InaccuracyDetected 500)])
  /\ (let r := AudioStream.fastForward 1 19999 Scenario.fromSecondPacket in
      fst r = Return true
      /\ Stream.log (AudioStream.base (snd r)) = []).
Proof. vm_compute. repeat split. Qed.

(** C2: what the code does in the scenario (48 kHz, packets of 20 ms, a
    hundred of them queued).  For the target 1.5 s, where the 76th packet
    begins, [fastForward] releases the first 75 packets, puts the 76th back
    at the front and sets [m_extraAudioTime] to zero, and then fails its
    own check that this time is positive: the call throws.  For the target
    1.51 s it releases the same 75 packets, puts the 76th back, leaves
    10 ms in [m_extraAudioTime] and returns [true]. *)
Theorem fastForward_on_packet_boundary :
  (let r := AudioStream.fastForward 100 1500000 Scenario.seekable in
   Stream.positionOf Scenario.audio48k (Scenario.packet 75) = 1500000
   /\ fst r = Throw "inconcistency error"
   /\ Stream.released (AudioStream.base (snd r)) = Scenario.packets 0 75
   /\ Stream.m_packetList (AudioStream.base (snd r)) = Scenario.packets 75 25
   /\ AudioStream.m_extraAudioTime (snd r) = 0)
  /\ (let r := AudioStream.fastForward 100 1510000 Scenario.seekable in
      fst r = Return true
      /\ Stream.released (AudioStream.base (snd r)) = Scenario.packets 0 75
      /\ Stream.m_packetList (AudioStream.base (snd r)) = Scenario.packets 75 25
      /\ AudioStream.m_extraAudioTime (snd r) = 10000).
Proof. vm_compute. repeat split. Qed.

(** ** [AudioStream::fastForward]: a target inside a queued packet *)

Section FastForward.
Context {DS : DataSource} {AV : LibAV}.

Lemma onBase_Return {A} (c : M Stream.t A) (s : AudioStream.t) (a : A) (b' : Stream.t) :
  c (AudioStream.base s) = (Return a, b') ->
  AudioStream.onBase c s = (Return a, AudioStream.set_base b' s).
Proof. intros H. unfold AudioStream.onBase, lift. rewrite H. reflexivity. Qed.

(** The next step of the goal is a method of [Stream] which returns, as
    [H] says. *)
Ltac on_base H :=
  match goal with
  | |- context [bind (AudioStream.onBase ?c) ?k ?s] =>
      rewrite (bind_Return (AudioStream.onBase c) k s _ _ (onBase_Return c s _ _ H));
      cbn [AudioStream.base AudioStream.set_base AudioStream.soundStatus
           AudioStream.m_sampleRatePerChannel AudioStream.m_audioFrame
           AudioStream.m_swrCtx AudioStream.m_dstNbSamples
           AudioStream.m_maxDstNbSamples AudioStream.m_dstNbChannels
           AudioStream.m_dstData AudioStream.heap AudioStream.m_extraAudioTime
           AudioStream.submitted AudioStream.copied]
  end.

Lemma computeEncodedPosition_front
    (b : Stream.t) (stream : AVStream) (front : AVPacket) (rest : list AVPacket) :
  Stream.m_stream b = Some stream ->
  Stream.m_packetList b = front :: rest ->
  Stream.computeEncodedPosition b = (Return (Some (Stream.positionOf stream front)), b).
Proof.
  intros Hs Hq. unfold Stream.computeEncodedPosition.
  rewrite bind_get, Hq. simpl. rewrite bind_ret_l, bind_get, Hq, Hs. reflexivity.
Qed.

Lemma packetDuration_own
    (b : Stream.t) (stream : AVStream) (p : AVPacket) :
  Stream.m_stream b = Some stream ->
  stream_index p = Stream.m_streamID b ->
  Stream.packetDuration (Some p) b = (Return (Stream.durationOf stream p), b).
Proof.
  intros Hs Hid. unfold Stream.packetDuration. simpl.
  rewrite bind_ret_l, bind_get, Hid, Z.eqb_refl, bind_CHECK_true, Hs. reflexivity.
Qed.

(** One turn of the loop on a packet that ends at or before the target:
    the packet is released and the loop goes on. *)
Lemma fastForward_discards
    (fuel : nat) (T : sf.Time) (s : AudioStream.t) (stream : AVStream)
    (q : AVPacket) (rest : list AVPacket) :
  Stream.m_stream (AudioStream.base s) = Some stream ->
  Stream.m_packetList (AudioStream.base s) = q :: rest ->
  stream_index q = Stream.m_streamID (AudioStream.base s) ->
  Stream.positionOf stream q <= T ->
  sf.add (Stream.positionOf stream q) (Stream.durationOf stream q) <= T ->
  AudioStream.fastForward (S fuel) T s
  = AudioStream.fastForward fuel T
      (AudioStream.set_base
         (Stream.set_released (Stream.released (AudioStream.base s) ++ [q])
            (Stream.set_packetList rest (AudioStream.base s)))
         s).
Proof.
  intros Hs Hq Hid Hpos Hend.
  destruct s as [b sound rate frame swr dstNb maxDstNb channels block hp extra sent cop].
  cbn [AudioStream.base] in *.
  cbn [AudioStream.fastForward].
  on_base (computeEncodedPosition_front _ _ _ _ Hs Hq).
  on_base (popEncodedData_front b q rest Hq).
  on_base (packetDuration_own (Stream.set_packetList rest b) stream q Hs Hid).
  assert (H1 : (T <? Stream.positionOf stream q) = false) by (apply Z.ltb_ge; lia).
  assert (H2 : (T <? sf.add (Stream.positionOf stream q) (Stream.durationOf stream q))
               = false) by (apply Z.ltb_ge; lia).
  assert (H3 : (sf.add (Stream.positionOf stream q) (Stream.durationOf stream q) <=? T)
               = true) by (apply Z.leb_le; lia).
  rewrite H1, H2, H3.
  unfold bind at 1. reflexivity.
Qed.

(** The turn of the loop on the packet that holds the target. *)
Lemma fastForward_stops_inside
    (fuel : nat) (T : sf.Time) (s : AudioStream.t) (stream : AVStream)
    (p : AVPacket) (rest : list AVPacket) :
  Stream.m_stream (AudioStream.base s) = Some stream ->
  Stream.m_packetList (AudioStream.base s) = p :: rest ->
  stream_index p = Stream.m_streamID (AudioStream.base s) ->
  Stream.positionOf stream p < T < Stream.positionOf stream p + Stream.durationOf stream p ->
  Int.fits_int64 (Stream.positionOf stream p + Stream.durationOf stream p) ->
  AudioStream.fastForward (S fuel) T s
  = (Return true,
     AudioStream.set_base
       (Stream.set_log
          (Stream.log (AudioStream.base s)
             ++ [(LogDebug, ExtraAudioTimeToDiscard (T - Stream.positionOf stream p))])
          (AudioStream.base s))
       (AudioStream.set_extraAudioTime (T - Stream.positionOf stream p) s)).
Proof.
  intros Hs Hq Hid Hin Hfits.
  pose proof (float_to_int64_range
                (if negb (duration p =? 0)
                 then Float.float_of_double
                        (av_q2d (av_mul_q (av_make_q (Int.to_int (duration p)) 1)
                                   (time_base stream)))
                 else Float.float_of_double
                        (Float.ddiv (Float.double_of_Z 1)
                           (av_q2d (guessed_frame_rate stream))))) as Hdur.
  assert (HD : Int.fits_int64 (Stream.durationOf stream p)).
  { unfold Stream.durationOf, sf.seconds.
    destruct (negb (duration p =? 0)); apply float_to_int64_range. }
  clear Hdur.
  assert (HS : Int.fits_int64 (Stream.positionOf stream p)).
  { unfold Stream.positionOf, sf.milliseconds. apply to_int64_range. }
  set (S0 := Stream.positionOf stream p) in *.
  set (D0 := Stream.durationOf stream p) in *.
  assert (Hadd : sf.add S0 D0 = S0 + D0) by (apply to_int64_fits; exact Hfits).
  assert (Hsub : sf.sub T S0 = T - S0).
  { apply to_int64_fits. unfold Int.fits_int64, Int.INT64_MIN, Int.INT64_MAX in *. lia. }
  destruct s as [b sound rate frame swr dstNb maxDstNb channels block hp extra sent cop].
  cbn [AudioStream.base] in *.
  cbn [AudioStream.fastForward].
  on_base (computeEncodedPosition_front _ _ _ _ Hs Hq).
  on_base (popEncodedData_front b p rest Hq).
  on_base (packetDuration_own (Stream.set_packetList rest b) stream p Hs Hid).
  fold S0 D0.
  assert (H1 : (T <? S0) = false) by (apply Z.ltb_ge; lia).
  assert (H2 : (T <? sf.add S0 D0) = true) by (apply Z.ltb_lt; lia).
  assert (H3 : (sf.add S0 D0 <=? T) = false) by (apply Z.leb_gt; lia).
  rewrite H1, H2, H3, Hsub.
  rewrite bind_assoc.
  on_base (prependEncodedData_some p (Stream.set_packetList rest b)).
  rewrite bind_assoc, bind_modify, bind_assoc, bind_get.
  cbn [AudioStream.set_extraAudioTime AudioStream.m_extraAudioTime AudioStream.base
       sf.asMicroseconds].
  assert (H4 : (sf.Zero <? T - S0) = true) by (apply Z.ltb_lt; unfold sf.Zero; lia).
  assert (H5 : (T - S0 <=? D0) = true) by (apply Z.leb_le; lia).
  rewrite H4, H5.
  unfold AudioStream.sfeLog, AudioStream.onBase, lift, Stream.sfeLog, modify, bind, ret, CHECK.
  clear - Hq. destruct b. cbn in Hq. subst. reflexivity.
Qed.

(** C1.  The queue holds the packets [earlier], which belong to the
    stream and end at or before the target [T], then a packet [p] of the
    stream whose interval, from [S] over the duration [D], holds [T]
    strictly inside, with an end [S + D] that an [Int64] can hold.  Given
    fuel for one turn per packet, [fastForward] returns [true]; the queue
    is then [p] followed by what followed it, [earlier] has been released
    packet by packet, [m_extraAudioTime] is [T - S], which is positive and
    at most [D], and the source was not asked. *)
Theorem fastForward_inside_packet
    (s : AudioStream.t) (stream : AVStream) (earlier rest : list AVPacket)
    (p : AVPacket) (T : sf.Time) (fuel : nat) :
  Stream.m_stream (AudioStream.base s) = Some stream ->
  Stream.m_packetList (AudioStream.base s) = earlier ++ p :: rest ->
  Forall (fun q => stream_index q = Stream.m_streamID (AudioStream.base s))
         (earlier ++ [p]) ->
  Forall (fun q => 0 <= Stream.durationOf stream q
                   /\ Stream.positionOf stream q + Stream.durationOf stream q <= T)
         earlier ->
  Stream.positionOf stream p < T < Stream.positionOf stream p + Stream.durationOf stream p ->
  Int.fits_int64 (Stream.positionOf stream p + Stream.durationOf stream p) ->
  (List.length earlier < fuel)%nat ->
  exists s',
    AudioStream.fastForward fuel T s = (Return true, s')
    /\ Stream.m_packetList (AudioStream.base s') = p :: rest
    /\ Stream.released (AudioStream.base s')
       = Stream.released (AudioStream.base s) ++ earlier
    /\ AudioStream.m_extraAudioTime s' = T - Stream.positionOf stream p
    /\ 0 < AudioStream.m_extraAudioTime s' <= Stream.durationOf stream p
    /\ Stream.requests (AudioStream.base s') = Stream.requests (AudioStream.base s).
Proof.
  revert s fuel.
  induction earlier as [|q earlier IH]; intros s fuel Hs Hq Hids Hearlier Hin Hfits Hfuel.
  - destruct fuel as [|fuel]; [inversion Hfuel|].
    simpl in Hq. inversion Hids as [|? ? Hid _]; subst.
    rewrite (fastForward_stops_inside fuel T s stream p rest Hs Hq Hid Hin Hfits).
    eexists. split; [reflexivity|].
    cbn. rewrite app_nil_r. repeat split; try reflexivity; try exact Hq; lia.
  - destruct fuel as [|fuel]; [inversion Hfuel|].
    simpl in Hq. inversion Hids as [|? ? Hid Hids']; subst.
    inversion Hearlier as [|? ? [Hdur Hend] Hearlier']; subst.
    assert (HS : Int.fits_int64 (Stream.positionOf stream q)).
    { unfold Stream.positionOf, sf.milliseconds. apply to_int64_range. }
    assert (HT : T <= Int.INT64_MAX).
    { unfold Int.fits_int64 in Hfits. lia. }
    assert (Hadd : sf.add (Stream.positionOf stream q) (Stream.durationOf stream q)
                   = Stream.positionOf stream q + Stream.durationOf stream q).
    { apply to_int64_fits. unfold Int.fits_int64 in *. lia. }
    rewrite (fastForward_discards fuel T s stream q (earlier ++ p :: rest) Hs Hq Hid)
      by (rewrite ?Hadd; lia).
    destruct (IH (AudioStream.set_base
                    (Stream.set_released (Stream.released (AudioStream.base s) ++ [q])
                       (Stream.set_packetList (earlier ++ p :: rest) (AudioStream.base s)))
                    s) fuel) as [s' [Hrun [H1 [H2 [H3 [H4 H5]]]]]];
      try assumption; try reflexivity.
    + simpl in Hfuel. lia.
    + exists s'. split; [exact Hrun|].
      cbn in H2, H5. rewrite <- app_assoc in H2. auto.
Qed.

End FastForward.

(** The theorem holds of the stream of the scenario and the target 50 ms,
    which falls inside the third packet (40 ms to 60 ms): two packets are
    released and 10 ms are left to discard. *)
Lemma fastForward_inside_packet_witness :
  exists s',
    AudioStream.fastForward 3 50000 Scenario.seekable = (Return true, s')
    /\ Stream.m_packetList (AudioStream.base s') = Scenario.packet 2 :: Scenario.packets 3 97
    /\ Stream.released (AudioStream.base s')
       = Stream.released (AudioStream.base Scenario.seekable) ++ Scenario.packets 0 2
    /\ AudioStream.m_extraAudioTime s'
       = 50000 - Stream.positionOf Scenario.audio48k (Scenario.packet 2)
    /\ 0 < AudioStream.m_extraAudioTime s'
         <= Stream.durationOf Scenario.audio48k (Scenario.packet 2)
    /\ Stream.requests (AudioStream.base s')
       = Stream.requests (AudioStream.base Scenario.seekable).
Proof.
  apply (fastForward_inside_packet Scenario.seekable Scenario.audio48k
           (Scenario.packets 0 2) (Scenario.packets 3 97) (Scenario.packet 2) 50000 3).
  - reflexivity.
  - reflexivity.
  - repeat (constructor; [reflexivity|]). constructor.
  - repeat (constructor; [split; vm_compute; discriminate|]). constructor.
  - split; vm_compute; reflexivity.
  - split; vm_compute; discriminate.
  - simpl. lia.
Defined.

(** ** [AudioStream::onGetData]: the copies stay inside the buffer *)

Section WithinCapacity.
Context {DS : DataSource} {AV : LibAV}.
Import Buffer.

Lemma extends_refl (capacity : Z) (s : AudioStream.t) : extends capacity s s.
Proof.
  split; [reflexivity|]. exists []. rewrite app_nil_r. split; [reflexivity | constructor].
Qed.

Lemma extends_trans (capacity : Z) (a b c : AudioStream.t) :
  extends capacity a b -> extends capacity b c -> extends capacity a c.
Proof.
  intros [Hr1 [m1 [Hc1 Hf1]]] [Hr2 [m2 [Hc2 Hf2]]].
  split; [congruence|]. exists (m1 ++ m2).
  rewrite Hc2, Hc1, app_assoc. split; [reflexivity|].
  apply Forall_app. auto.
Qed.

(** A step that touches neither the sample rate nor the copies. *)
Lemma extends_same (capacity : Z) (a b : AudioStream.t) :
  AudioStream.m_sampleRatePerChannel b = AudioStream.m_sampleRatePerChannel a ->
  AudioStream.copied b = AudioStream.copied a ->
  extends capacity a b.
Proof.
  intros Hr Hc. split; [exact Hr|]. exists []. rewrite app_nil_r.
  split; [exact Hc | constructor].
Qed.

Lemma onBase_extends {A} (capacity : Z) (c : M Stream.t A) (s : AudioStream.t) :
  extends capacity s (snd (AudioStream.onBase c s)).
Proof.
  unfold AudioStream.onBase, lift. destruct (c (AudioStream.base s)) as [r b'].
  apply extends_same; reflexivity.
Qed.

Lemma samplesToTime_state (n : Z) (s : AudioStream.t) :
  snd (AudioStream.samplesToTime n s) = s.
Proof.
  unfold AudioStream.samplesToTime. rewrite bind_get.
  destruct (AudioStream.m_sampleRatePerChannel s =? 0); [reflexivity|].
  rewrite bind_ret_l.
  destruct (0 <=? Z.quot (Int.to_int64 (1000000 * Z.quot n AudioStream.getStereoChannelCount))
              (AudioStream.m_sampleRatePerChannel s)); reflexivity.
Qed.

Lemma samplesToTime_value (n : Z) (s : AudioStream.t) (t : sf.Time) :
  fst (AudioStream.samplesToTime n s) = Return t ->
  AudioStream.m_sampleRatePerChannel s <> 0
  /\ t = Z.quot (Int.to_int64 (1000000 * Z.quot n 2)) (AudioStream.m_sampleRatePerChannel s)
  /\ 0 <= t.
Proof.
  unfold AudioStream.samplesToTime. rewrite bind_get.
  destruct (AudioStream.m_sampleRatePerChannel s =? 0) eqn:Hz; [discriminate|].
  rewrite bind_ret_l. unfold AudioStream.getStereoChannelCount.
  destruct (0 <=? Z.quot (Int.to_int64 (1000000 * Z.quot n 2))
              (AudioStream.m_sampleRatePerChannel s)) eqn:Hle; [|discriminate].
  simpl. intros H. injection H as <-.
  apply Z.eqb_neq in Hz. apply Z.leb_le in Hle. auto.
Qed.

Lemma timeToSamples_state (t : sf.Time) (s : AudioStream.t) :
  snd (AudioStream.timeToSamples t s) = s.
Proof.
  unfold AudioStream.timeToSamples. rewrite bind_get.
  match goal with |- context [CHECK ?c _] => destruct c end; reflexivity.
Qed.

Lemma sfeLog_run (level : LogLevel) (message : LogMessage) (s : AudioStream.t) :
  AudioStream.sfeLog level message s
  = (Return tt,
     AudioStream.set_base
       (Stream.set_log (Stream.log (AudioStream.base s) ++ [(level, message)])
          (AudioStream.base s)) s).
Proof. reflexivity. Qed.

Lemma resampleFrame_extends (capacity : Z) (frame : option AVFrame) (s : AudioStream.t) :
  extends capacity s (snd (AudioStream.resampleFrame frame s)).
Proof.
  destruct (resampleFrame_analysis frame s) as [_ [[Hr Hc] _]].
  apply extends_same; assumption.
Qed.

Lemma resampleFrame_count
    (frame : option AVFrame) (s : AudioStream.t) (buffer : option Z) (count : Z) :
  fst (AudioStream.resampleFrame frame s) = Return (buffer, count) ->
  count < 2 ^ 30.
Proof.
  intros H. apply (proj2 (proj2 (resampleFrame_analysis frame s))) in H. lia.
Qed.

(** What is left of a frame of [samplesCount] samples once the samples of
    [m_extraAudioTime] are dropped is between nothing and the whole
    frame. *)
Lemma discardExtra_spec (capacity samplesCount : Z) (s : AudioStream.t) :
  0 < samplesCount < 2 ^ 30 ->
  extends capacity s (snd (AudioStream.discardExtra samplesCount s))
  /\ forall offset left,
       fst (AudioStream.discardExtra samplesCount s) = Return (offset, left) ->
       0 <= left <= samplesCount.
Proof.
  intros Hcount. change (2 ^ 30) with 1073741824 in Hcount.
  unfold AudioStream.discardExtra. rewrite bind_get.
  destruct (sf.Zero <? AudioStream.m_extraAudioTime s);
    [|split; [apply extends_refl | intros ? ? H; injection H as _ <-; lia]].
  rewrite bind_unfold.
  pose proof (timeToSamples_state (AudioStream.m_extraAudioTime s) s) as Hstate.
  destruct (AudioStream.timeToSamples (AudioStream.m_extraAudioTime s) s) as [[wanted| | |] s1];
    simpl in Hstate; subst s1;
    try (split; [apply extends_refl | discriminate]).
  rewrite bind_unfold.
  set (logged := AudioStream.set_base
                   (Stream.set_log
                      (Stream.log (AudioStream.base s) ++ [(LogDebug, CannotDiscardAll)])
                      (AudioStream.base s)) s).
  set (toDiscard := if samplesCount <? wanted then samplesCount else wanted).
  set (s1 := if samplesCount <? wanted then logged else s).
  assert (Hchoice : (if samplesCount <? wanted
                     then bind (AudioStream.sfeLog LogDebug CannotDiscardAll)
                               (fun _ => ret samplesCount)
                     else ret wanted) s = (Return toDiscard, s1)).
  { unfold toDiscard, s1. destruct (samplesCount <? wanted); reflexivity. }
  rewrite Hchoice.
  assert (Hle : toDiscard <= samplesCount).
  { unfold toDiscard. destruct (samplesCount <? wanted) eqn:E; [lia|].
    apply Z.ltb_ge in E. lia. }
  assert (Hs1 : extends capacity s s1).
  { unfold s1, logged. destruct (samplesCount <? wanted);
      [apply extends_same; reflexivity | apply extends_refl]. }
  clearbody toDiscard s1. clear Hchoice logged.
  destruct ((toDiscard <? AudioStream.getStereoChannelCount) && (0 <? samplesCount)) eqn:Hsmall.
  - split.
    + eapply extends_trans; [exact Hs1|]. apply extends_same; reflexivity.
    + intros ? ? H. injection H as _ <-. lia.
  - assert (Hbig : 2 <= toDiscard).
    { apply andb_false_iff in Hsmall. destruct Hsmall as [H|H].
      - apply Z.ltb_ge in H. exact H.
      - apply Z.ltb_ge in H. lia. }
    rewrite bind_unfold.
    pose proof (samplesToTime_state samplesCount s1) as Hst1.
    destruct (AudioStream.samplesToTime samplesCount s1) as [[whole| | |] s2];
      simpl in Hst1; subst s2; try (split; [exact Hs1 | discriminate]).
    rewrite bind_unfold.
    destruct (sf.asMicroseconds whole =? 0); [split; [exact Hs1 | discriminate]|].
    cbn [ret].
    rewrite bind_unfold.
    match goal with |- context [CHECK ?c _] => destruct c end;
      [|split; [exact Hs1 | discriminate]].
    cbn [CHECK ret].
    rewrite bind_unfold.
    pose proof (samplesToTime_state toDiscard s1) as Hst2.
    destruct (AudioStream.samplesToTime toDiscard s1) as [[discarded| | |] s2];
      simpl in Hst2; subst s2; try (split; [exact Hs1 | discriminate]).
    rewrite bind_modify. cbn [ret fst snd].
    split.
    + eapply extends_trans; [exact Hs1|]. apply extends_same; reflexivity.
    + intros ? ? H. injection H as _ <-.
      rewrite to_int_fits
        by (unfold Int.fits_int, Int.INT_MIN, Int.INT_MAX;
            change (2 ^ 31) with 2147483648; lia).
      lia.
Qed.

Lemma two_seconds : sf.seconds (Float.float_of_Z 2) = 2000000.
Proof. vm_compute. reflexivity. Qed.

(** The check of [onGetData] against two seconds: a number of samples
    whose time is below two seconds is below the capacity. *)
Lemma below_two_seconds (rate n : Z) :
  0 < rate -> 0 <= n ->
  Z.quot (1000000 * Z.quot n 2) rate < 2000000 ->
  n < 2 * rate * 2.
Proof.
  intros Hrate Hn Hcheck.
  rewrite (Z.quot_div_nonneg n 2) in Hcheck by lia.
  pose proof (Z.div_pos n 2 Hn ltac:(lia)) as Hq.
  rewrite Z.quot_div_nonneg in Hcheck by lia.
  pose proof (Z.div_mod n 2 ltac:(lia)) as Hdm.
  pose proof (Z.mod_pos_bound n 2 ltac:(lia)) as Hmb.
  destruct (Z_lt_le_dec (n / 2) (2 * rate)) as [Hlt|Hge]; [lia|].
  exfalso.
  assert (2000000 <= 1000000 * (n / 2) / rate); [|lia].
  apply Z.div_le_lower_bound; nia.
Qed.

(** A sum of samples that no longer fits an [int] comes out negative, and
    so does its time: [samplesToTime] refuses it. *)
Lemma wrapped_time_negative (rate sum : Z) :
  0 < rate -> 2 * rate <= Int.INT_MAX ->
  2 ^ 31 <= sum < 2 ^ 31 + 2 ^ 30 ->
  Z.quot (Int.to_int64 (1000000 * Z.quot (Int.to_int sum) 2)) rate < 0.
Proof.
  unfold Int.INT_MAX. change (2 ^ 31) with 2147483648. change (2 ^ 30) with 1073741824.
  intros Hrate Hstereo Hsum.
  assert (Hwrap : Int.to_int sum = sum - 4294967296).
  { unfold Int.to_int, Int.wrap. change (2 ^ (32 - 1)) with 2147483648.
    change (2 ^ 32) with 4294967296.
    replace (sum + 2147483648) with (sum - 2147483648 + 1 * 4294967296) by ring.
    rewrite Z.mod_add by lia. rewrite Z.mod_small by lia. lia. }
  rewrite Hwrap.
  set (m := 4294967296 - sum).
  replace (sum - 4294967296) with (- m) by (unfold m; ring).
  assert (Hm : 1073741824 < m <= 2147483648) by (unfold m; lia).
  rewrite Z.quot_opp_l by lia. rewrite (Z.quot_div_nonneg m 2) by lia.
  assert (Hhalf : 536870912 <= m / 2 <= 1073741824).
  { split; [apply Z.div_le_lower_bound; lia | apply Z.div_le_upper_bound; lia]. }
  replace (1000000 * - (m / 2)) with (- (1000000 * (m / 2))) by ring.
  rewrite to_int64_fits
    by (unfold Int.fits_int64, Int.INT64_MIN, Int.INT64_MAX;
        change (2 ^ 63) with 9223372036854775808; lia).
  rewrite Z.quot_opp_l by lia. rewrite Z.quot_div_nonneg by lia.
  assert (1 <= 1000000 * (m / 2) / rate); [|lia].
  apply Z.div_le_lower_bound; lia.
Qed.

(** One decoded frame: the copy it makes stays inside the buffer, and so
    does the number of samples of the chunk. *)
Lemma appendFrame_spec (data : AudioStream.Chunk) (s : AudioStream.t) :
  ready data s ->
  extends (AudioStream.samplesBufferCapacity s) s (snd (AudioStream.appendFrame data s))
  /\ forall data',
       fst (AudioStream.appendFrame data s) = Return data' -> ready data' s.
Proof.
  intros [Hrate [Hstereo [Hdata Hint]]].
  set (capacity := AudioStream.samplesBufferCapacity s) in *.
  assert (Hcapacity : capacity = 2 * AudioStream.m_sampleRatePerChannel s * 2)
    by reflexivity.
  unfold Int.INT_MAX in Hstereo, Hint. change (2 ^ 31 - 1) with 2147483647 in Hstereo, Hint.
  unfold AudioStream.appendFrame. rewrite bind_get, bind_unfold.
  pose proof (resampleFrame_extends capacity (Some (AudioStream.m_audioFrame s)) s) as Hext1.
  pose proof (resampleFrame_count (Some (AudioStream.m_audioFrame s)) s) as Hcount.
  destruct (AudioStream.resampleFrame (Some (AudioStream.m_audioFrame s)) s)
    as [[[buffer count]| | |] s1]; cbn [fst snd] in *;
    try (split; [exact Hext1 | discriminate]).
  specialize (Hcount buffer count eq_refl). change (2 ^ 30) with 1073741824 in Hcount.
  destruct buffer as [buffer|]; cbn [notNull];
    [rewrite bind_CHECK_true | split; [exact Hext1 | discriminate]].
  destruct (0 <? count) eqn:Hpos;
    [rewrite bind_CHECK_true | split; [exact Hext1 | discriminate]].
  apply Z.ltb_lt in Hpos.
  rewrite bind_unfold.
  rewrite (to_size_t_small (AudioStream.sampleCount data + count))
    by (change (2 ^ 64) with 18446744073709551616; lia).
  set (sum := AudioStream.sampleCount data + count).
  pose proof (samplesToTime_state (Int.to_int sum) s1) as Hst.
  pose proof (samplesToTime_value (Int.to_int sum) s1) as Hval.
  destruct (AudioStream.samplesToTime (Int.to_int sum) s1) as [[total| | |] s2];
    cbn [fst snd] in *; subst s2; try (split; [exact Hext1 | discriminate]).
  destruct (Hval total eq_refl) as [_ [Htotal Hnonneg]].
  destruct Hext1 as [Hrate1 Hcopied1]. rewrite Hrate1 in Htotal.
  assert (Hsum : sum <= 2147483647).
  { destruct (Z_le_gt_dec sum 2147483647) as [H|H]; [exact H|]. exfalso.
    pose proof (wrapped_time_negative (AudioStream.m_sampleRatePerChannel s) sum Hrate) as Hneg.
    unfold Int.INT_MAX in Hneg. change (2 ^ 31 - 1) with 2147483647 in Hneg.
    change (2 ^ 31) with 2147483648 in Hneg. change (2 ^ 30) with 1073741824 in Hneg.
    specialize (Hneg Hstereo ltac:(unfold sum; lia)). lia. }
  rewrite (to_int_fits sum) in *
    by (unfold Int.fits_int, Int.INT_MIN, Int.INT_MAX; change (2 ^ 31) with 2147483648;
        unfold sum; lia).
  rewrite two_seconds.
  destruct (total <? 2000000) eqn:Hcheck;
    [rewrite bind_CHECK_true | split; [split; assumption | discriminate]].
  apply Z.ltb_lt in Hcheck.
  assert (Hroom : sum < capacity).
  { rewrite Hcapacity. apply below_two_seconds; [exact Hrate | unfold sum; lia |].
    rewrite Htotal in Hcheck.
    rewrite to_int64_fits in Hcheck; [exact Hcheck|].
    unfold Int.fits_int64, Int.INT64_MIN, Int.INT64_MAX.
    change (2 ^ 63) with 9223372036854775808.
    rewrite Z.quot_div_nonneg by (unfold sum; lia).
    pose proof (Z.div_pos sum 2 ltac:(unfold sum; lia) ltac:(lia)).
    assert (sum / 2 <= sum) by (apply Z.div_le_upper_bound; unfold sum; lia).
    lia. }
  rewrite bind_unfold.
  destruct (discardExtra_spec capacity count s1 ltac:(change (2 ^ 30) with 1073741824; lia))
    as [Hext2 Hleft].
  destruct (AudioStream.discardExtra count s1) as [[[offset left]| | |] s2];
    cbn [fst snd] in *;
    try (split; [eapply extends_trans; [split; eassumption | exact Hext2] | discriminate]).
  specialize (Hleft offset left eq_refl).
  rewrite bind_modify. cbn [ret fst snd].
  assert (Hbytes : Int.to_int (left * AudioStream.BytesPerSample) = left * 2).
  { apply to_int_fits. unfold Int.fits_int, Int.INT_MIN, Int.INT_MAX, AudioStream.BytesPerSample.
    change (2 ^ 31) with 2147483648. lia. }
  unfold sum in *.
  split.
  - eapply extends_trans; [split; eassumption|].
    eapply extends_trans; [exact Hext2|].
    split; [reflexivity|]. eexists. split; [reflexivity|].
    constructor; [|constructor].
    unfold inside. cbn. rewrite Hbytes. unfold AudioStream.BytesPerSample. lia.
  - intros data' H. injection H as <-. unfold ready.
    cbn [AudioStream.sampleCount]. fold capacity.
    rewrite to_size_t_small by (change (2 ^ 64) with 18446744073709551616; lia).
    unfold Int.INT_MAX. change (2 ^ 31 - 1) with 2147483647. lia.
Qed.

Lemma decodePacket_extends (capacity : Z) (packet : AVPacket) (s : AudioStream.t) :
  extends capacity s (snd (AudioStream.decodePacket packet s)).
Proof.
  unfold AudioStream.decodePacket. rewrite bind_get.
  destruct (avcodec_send_packet (Stream.m_context (AudioStream.base s)) packet)
    as [sent ctx].
  rewrite bind_put.
  destruct (negb (sent =? 0)); [apply extends_same; reflexivity|].
  rewrite bind_get. cbn [AudioStream.base AudioStream.set_submitted AudioStream.set_base
                         Stream.m_context Stream.set_context].
  destruct (avcodec_receive_frame ctx) as [[received frame] ctx'].
  rewrite bind_put.
  destruct (negb (received =? 0)); apply extends_same; reflexivity.
Qed.

Lemma capacity_extends (capacity : Z) (a b : AudioStream.t) :
  extends capacity a b ->
  AudioStream.samplesBufferCapacity b = AudioStream.samplesBufferCapacity a.
Proof.
  intros [Hr _]. unfold AudioStream.samplesBufferCapacity. rewrite Hr. reflexivity.
Qed.

Lemma ready_extends (capacity : Z) (data : AudioStream.Chunk) (a b : AudioStream.t) :
  extends capacity a b -> (ready data a <-> ready data b).
Proof.
  intros Hext. pose proof (capacity_extends _ _ _ Hext) as Hc.
  destruct Hext as [Hr _]. unfold ready. rewrite Hr, Hc. tauto.
Qed.

Lemma decodeWhileNeeded_spec (fuel : nat) (packet : AVPacket) :
  forall (data : AudioStream.Chunk) (s : AudioStream.t),
    ready data s ->
    extends (AudioStream.samplesBufferCapacity s) s
      (snd (AudioStream.decodeWhileNeeded fuel packet data s))
    /\ forall data',
         fst (AudioStream.decodeWhileNeeded fuel packet data s) = Return data' ->
         ready data' s.
Proof.
  induction fuel as [|fuel IH]; intros data s Hready.
  - simpl. split; [apply extends_refl | discriminate].
  - set (capacity := AudioStream.samplesBufferCapacity s).
    cbn [AudioStream.decodeWhileNeeded]. rewrite bind_unfold.
    pose proof (decodePacket_extends capacity packet s) as Hext1.
    destruct (AudioStream.decodePacket packet s) as [[[needsMore gotFrame]| | |] s1];
      cbn [fst snd] in *; try (split; [exact Hext1 | discriminate]).
    pose proof (proj1 (ready_extends _ data _ _ Hext1) Hready) as Hready1.
    pose proof (capacity_extends _ _ _ Hext1) as Hcap1. fold capacity in Hcap1.
    rewrite bind_unfold.
    assert (Hframe :
              extends capacity s1
                (snd ((if gotFrame then AudioStream.appendFrame data else ret data) s1))
              /\ forall data1,
                   fst ((if gotFrame then AudioStream.appendFrame data else ret data) s1)
                   = Return data1 ->
                   ready data1 s1).
    { destruct gotFrame.
      - destruct (appendFrame_spec data s1 Hready1) as [Ha Hb].
        rewrite Hcap1 in Ha. split; assumption.
      - split; [apply extends_refl|]. intros data1 H. injection H as <-. exact Hready1. }
    destruct Hframe as [Hext2 Hdata1].
    destruct ((if gotFrame then AudioStream.appendFrame data else ret data) s1)
      as [[data1| | |] s2]; cbn [fst snd] in *;
      try (split; [eapply extends_trans; eassumption | discriminate]).
    specialize (Hdata1 data1 eq_refl).
    pose proof (extends_trans _ _ _ _ Hext1 Hext2) as Hext12.
    pose proof (proj1 (ready_extends _ data1 _ _ Hext2) Hdata1) as Hready2.
    destruct needsMore.
    + destruct (IH data1 s2 Hready2) as [Hext3 Hdata3].
      pose proof (capacity_extends _ _ _ Hext12) as Hc. fold capacity in Hc.
      rewrite Hc in Hext3.
      split; [eapply extends_trans; eassumption|].
      intros data' H. apply (ready_extends _ data' _ _ Hext12). apply Hdata3. exact H.
    + split; [exact Hext12|]. intros data' H. injection H as <-.
      apply (ready_extends _ data1 _ _ Hext1). exact Hdata1.
Qed.

Lemma fillChunk_spec (fuel : nat) :
  forall (packet : option AVPacket) (data : AudioStream.Chunk) (s : AudioStream.t),
    ready data s ->
    extends (AudioStream.samplesBufferCapacity s) s
      (snd (AudioStream.fillChunk fuel packet data s))
    /\ forall last data',
         fst (AudioStream.fillChunk fuel packet data s) = Return (last, data') ->
         ready data' s.
Proof.
  induction fuel as [|fuel IH]; intros packet data s Hready.
  - simpl. split; [apply extends_refl | discriminate].
  - set (capacity := AudioStream.samplesBufferCapacity s).
    cbn [AudioStream.fillChunk]. rewrite bind_get.
    match goal with |- context [if ?c then _ else _] => destruct c end;
      [|split; [apply extends_refl|];
        intros last data' H; injection H as _ <-; exact Hready].
    rewrite bind_unfold.
    pose proof (onBase_extends capacity Stream.popEncodedData s) as Hext1.
    destruct (AudioStream.onBase Stream.popEncodedData s) as [[[p|]| | |] s1];
      cbn [fst snd] in *; try (split; [exact Hext1 | discriminate]).
    + pose proof (proj1 (ready_extends _ data _ _ Hext1) Hready) as Hready1.
      pose proof (capacity_extends _ _ _ Hext1) as Hcap1. fold capacity in Hcap1.
      rewrite bind_unfold.
      destruct (decodeWhileNeeded_spec fuel p data s1 Hready1) as [Hext2 Hdata1].
      rewrite Hcap1 in Hext2.
      destruct (AudioStream.decodeWhileNeeded fuel p data s1) as [[data1| | |] s2];
        cbn [fst snd] in *;
        try (split; [eapply extends_trans; eassumption | discriminate]).
      specialize (Hdata1 data1 eq_refl).
      pose proof (extends_trans _ _ _ _ Hext1 Hext2) as Hext12.
      rewrite bind_unfold.
      pose proof (onBase_extends capacity (Stream.av_packet_unref p) s2) as Hext3.
      destruct (AudioStream.onBase (Stream.av_packet_unref p) s2) as [[[]| | |] s3];
        cbn [fst snd] in *;
        try (split; [eapply extends_trans; eassumption | discriminate]).
      pose proof (extends_trans _ _ _ _ Hext12 Hext3) as Hext123.
      pose proof (extends_trans _ _ _ _ Hext2 Hext3) as Hext23.
      pose proof (proj1 (ready_extends _ data1 _ _ Hext23) Hdata1) as Hready3.
      destruct (IH (Some p) data1 s3 Hready3) as [Hext4 Hdata4].
      pose proof (capacity_extends _ _ _ Hext123) as Hc. fold capacity in Hc.
      rewrite Hc in Hext4.
      split; [eapply extends_trans; eassumption|].
      intros last data' H. apply (ready_extends _ data' _ _ Hext123).
      apply (Hdata4 last). exact H.
    + split; [exact Hext1|]. intros last data' H. injection H as _ <-. exact Hready.
Qed.

(** A frame that would bring the chunk to the capacity of the buffer or
    beyond is fatal: the call throws before anything is copied, from the
    check of [onGetData] against two seconds, or from the check of
    [samplesToTime] when the number of samples no longer fits an [int]. *)
Lemma appendFrame_overflow_is_fatal
    (data : AudioStream.Chunk) (s s1 : AudioStream.t) (buffer count : Z) :
  ready data s ->
  AudioStream.resampleFrame (Some (AudioStream.m_audioFrame s)) s
  = (Return (Some buffer, count), s1) ->
  0 < count ->
  AudioStream.samplesBufferCapacity s <= AudioStream.sampleCount data + count ->
  AudioStream.appendFrame data s
  = (Throw (if AudioStream.sampleCount data + count <=? Int.INT_MAX
            then "AudioStream::onGetData() - Going to overflow!!"
            else "computation overflow"), s1)
  /\ AudioStream.copied s1 = AudioStream.copied s.
Proof.
  intros [Hrate [Hstereo [Hdata Hint]]] Hresample Hpos Hover.
  unfold Int.INT_MAX in *. change (2 ^ 31 - 1) with 2147483647 in *.
  pose proof (proj1 (proj2 (resampleFrame_analysis (Some (AudioStream.m_audioFrame s)) s)))
    as Hkeeps.
  pose proof (resampleFrame_count (Some (AudioStream.m_audioFrame s)) s) as Hcount.
  rewrite Hresample in Hkeeps, Hcount. cbn [fst snd] in *.
  specialize (Hcount (Some buffer) count eq_refl).
  change (2 ^ 30) with 1073741824 in Hcount.
  destruct Hkeeps as [Hrate1 Hsame].
  split; [|exact Hsame].
  unfold AudioStream.appendFrame. rewrite bind_get.
  rewrite (bind_Return _ _ _ _ _ Hresample). cbn [fst snd notNull].
  rewrite bind_CHECK_true.
  assert (Hp : (0 <? count) = true) by (apply Z.ltb_lt; exact Hpos).
  rewrite Hp, bind_CHECK_true.
  rewrite (to_size_t_small (AudioStream.sampleCount data + count))
    by (change (2 ^ 64) with 18446744073709551616; lia).
  set (sum := AudioStream.sampleCount data + count) in *.
  unfold AudioStream.samplesBufferCapacity, AudioStream.getStereoChannelCount in *.
  unfold AudioStream.samplesToTime at 1. rewrite bind_assoc, bind_get, Hrate1.
  assert (Hz : (AudioStream.m_sampleRatePerChannel s =? 0) = false)
    by (apply Z.eqb_neq; lia).
  rewrite Hz, bind_assoc, bind_ret_l. unfold AudioStream.getStereoChannelCount.
  destruct (sum <=? 2147483647) eqn:Hfits.
  - apply Z.leb_le in Hfits.
    rewrite (to_int_fits sum)
      by (unfold Int.fits_int, Int.INT_MIN, Int.INT_MAX; change (2 ^ 31) with 2147483648;
          unfold sum; lia).
    rewrite (Z.quot_div_nonneg sum 2) by (unfold sum; lia).
    pose proof (Z.div_pos sum 2 ltac:(unfold sum; lia) ltac:(lia)) as Hq.
    assert (sum / 2 <= sum) by (apply Z.div_le_upper_bound; unfold sum; lia).
    rewrite to_int64_fits
      by (unfold Int.fits_int64, Int.INT64_MIN, Int.INT64_MAX;
          change (2 ^ 63) with 9223372036854775808; lia).
    rewrite Z.quot_div_nonneg by lia.
    assert (Hnonneg : (0 <=? 1000000 * (sum / 2) / AudioStream.m_sampleRatePerChannel s)
                      = true).
    { apply Z.leb_le. apply Z.div_pos; lia. }
    rewrite bind_assoc, Hnonneg, bind_CHECK_true, bind_ret_l, two_seconds.
    assert (Hlate : (1000000 * (sum / 2) / AudioStream.m_sampleRatePerChannel s <? 2000000)
                    = false).
    { apply Z.ltb_ge. apply Z.div_le_lower_bound; [lia|].
      assert (2 * AudioStream.m_sampleRatePerChannel s <= sum / 2).
      { apply Z.div_le_lower_bound; lia. }
      nia. }
    unfold sf.microseconds. rewrite Hlate. reflexivity.
  - apply Z.leb_gt in Hfits.
    pose proof (wrapped_time_negative (AudioStream.m_sampleRatePerChannel s) sum Hrate) as Hneg.
    unfold Int.INT_MAX in Hneg. change (2 ^ 31 - 1) with 2147483647 in Hneg.
    change (2 ^ 31) with 2147483648 in Hneg. change (2 ^ 30) with 1073741824 in Hneg.
    specialize (Hneg Hstereo ltac:(unfold sum; lia)).
    assert (Hcheck : (0 <=? Z.quot (Int.to_int64 (1000000 * Z.quot (Int.to_int sum) 2))
                              (AudioStream.m_sampleRatePerChannel s)) = false)
      by (apply Z.leb_gt; exact Hneg).
    rewrite bind_assoc, Hcheck, bind_CHECK_false. reflexivity.
Qed.

Lemma decodePacket_copied (packet : AVPacket) (s : AudioStream.t) :
  AudioStream.copied (snd (AudioStream.decodePacket packet s)) = AudioStream.copied s.
Proof.
  unfold AudioStream.decodePacket. rewrite bind_get.
  destruct (avcodec_send_packet (Stream.m_context (AudioStream.base s)) packet)
    as [sent ctx].
  rewrite bind_put.
  destruct (negb (sent =? 0)); [reflexivity|].
  rewrite bind_get. cbn [AudioStream.base AudioStream.set_submitted AudioStream.set_base
                         Stream.m_context Stream.set_context].
  destruct (avcodec_receive_frame ctx) as [[received frame] ctx'].
  rewrite bind_put.
  destruct (negb (received =? 0)); reflexivity.
Qed.

(** At a head of the inner loop what is left of the loops of [onGetData]
    is this loop, the release of the packet and the later turns of the
    outer loop. *)
Lemma reaches_run
    (fuel : nat) (data : AudioStream.Chunk) (s : AudioStream.t)
    (outer inner : nat) (p : AVPacket) (data' : AudioStream.Chunk) (s' : AudioStream.t) :
  Turns.reaches fuel data s outer inner p data' s' ->
  AudioStream.fillChunk fuel None
    {| AudioStream.samples := true; AudioStream.sampleCount := AudioStream.sampleCount data |} s
  = bind (AudioStream.decodeWhileNeeded inner p data')
         (fun data1 => bind (AudioStream.onBase (Stream.av_packet_unref p))
                            (fun _ => AudioStream.fillChunk outer (Some p) data1)) s'.
Proof.
  induction 1 as [outer p s1 Hfuel Hbelow Hpop
                 |outer inner p data' s' s1 _ IH Hdecode
                 |outer inner p q data' data1 s' s1 s2 s3 s4 _ IH Hdecode Happend Hunref
                    Hbelow Hpop].
  - subst fuel. cbn [AudioStream.fillChunk]. rewrite bind_get.
    cbn [AudioStream.sampleCount]. unfold Decoding.oneSecond in Hbelow.
    apply Z.ltb_lt in Hbelow. rewrite Hbelow.
    rewrite (bind_Return _ _ _ _ _ Hpop). reflexivity.
  - rewrite IH. cbn [AudioStream.decodeWhileNeeded]. cbv zeta.
    rewrite !bind_assoc, (bind_Return _ _ _ _ _ Hdecode). cbn [fst snd].
    rewrite bind_assoc, bind_ret_l. reflexivity.
  - rewrite IH. cbn [AudioStream.decodeWhileNeeded]. cbv zeta.
    rewrite !bind_assoc, (bind_Return _ _ _ _ _ Hdecode). cbn [fst snd].
    rewrite bind_assoc, (bind_Return _ _ _ _ _ Happend), bind_ret_l.
    rewrite (bind_Return _ _ _ _ _ Hunref).
    cbn [AudioStream.fillChunk]. rewrite bind_get.
    unfold Decoding.oneSecond in Hbelow. apply Z.ltb_lt in Hbelow. rewrite Hbelow.
    rewrite (bind_Return _ _ _ _ _ Hpop). reflexivity.
Qed.

(** At every head of the inner loop the chunk and the stream are as
    [onGetData] needs them. *)
Lemma reaches_ready
    (fuel : nat) (data : AudioStream.Chunk) (s : AudioStream.t)
    (outer inner : nat) (p : AVPacket) (data' : AudioStream.Chunk) (s' : AudioStream.t) :
  ready data s ->
  Turns.reaches fuel data s outer inner p data' s' ->
  ready data' s'
  /\ AudioStream.m_sampleRatePerChannel s' = AudioStream.m_sampleRatePerChannel s.
Proof.
  intros Hready.
  set (capacity := AudioStream.samplesBufferCapacity s).
  induction 1 as [outer p s1 Hfuel Hbelow Hpop
                 |outer inner p data' s' s1 _ IH Hdecode
                 |outer inner p q data' data1 s' s1 s2 s3 s4 _ IH Hdecode Happend Hunref
                    Hbelow Hpop].
  - pose proof (onBase_extends capacity Stream.popEncodedData s) as Hext.
    rewrite Hpop in Hext. cbn [snd] in Hext.
    split; [|exact (proj1 Hext)].
    apply (ready_extends _ _ _ _ Hext). exact Hready.
  - destruct IH as [IH Hrate].
    pose proof (decodePacket_extends capacity p s') as Hext.
    rewrite Hdecode in Hext. cbn [snd] in Hext.
    split; [|rewrite (proj1 Hext); exact Hrate].
    apply (ready_extends _ _ _ _ Hext). exact IH.
  - destruct IH as [IH Hrate].
    pose proof (decodePacket_extends capacity p s') as Hext1.
    rewrite Hdecode in Hext1. cbn [snd] in Hext1.
    pose proof (proj1 (ready_extends _ data' _ _ Hext1) IH) as Hready1.
    destruct (appendFrame_spec data' s1 Hready1) as [Hext2 Hdata1].
    rewrite Happend in Hext2, Hdata1. cbn [fst snd] in Hext2, Hdata1.
    specialize (Hdata1 data1 eq_refl).
    pose proof (onBase_extends capacity (Stream.av_packet_unref p) s2) as Hext3.
    rewrite Hunref in Hext3. cbn [snd] in Hext3.
    pose proof (onBase_extends capacity Stream.popEncodedData s3) as Hext4.
    rewrite Hpop in Hext4. cbn [snd] in Hext4.
    split.
    + apply (ready_extends _ _ _ _ Hext4). apply (ready_extends _ _ _ _ Hext3).
      apply (ready_extends _ _ _ _ Hext2). exact Hdata1.
    + rewrite (proj1 Hext4), (proj1 Hext3), (proj1 Hext2), (proj1 Hext1). exact Hrate.
Qed.

(** C7.  [onGetData] is called on a stream with a sample rate above zero
    whose double fits an [int], with a chunk whose number of samples fits
    an [int] and is not above the capacity of the buffer,
    [2 * rate * 2] samples.  Whatever the decoder and the resampler answer
    and however the call ends, every copy it makes into the buffer lies
    inside the buffer, and when it returns, the chunk holds at most as
    many samples as the buffer.  Going beyond is fatal and not silent.
    The block run for a decoded frame, [appendFrame], on the chunk and
    the stream the call starts with, throws before it copies anything
    when the samples of the frame would bring the chunk to the capacity
    or beyond.  So does the call itself: at whatever
    turn of its loops ([Turns.reaches]) the decoder gives a frame whose
    samples, as the resampler returns them, would bring the chunk to the
    capacity or beyond, [onGetData] throws, with the message of its own
    check or, when the number of samples no longer fits an [int], with
    that of [samplesToTime], and nothing of the frame has been copied. *)
Theorem onGetData_within_capacity
    (fuel : nat) (data : AudioStream.Chunk) (s : AudioStream.t) :
  0 < AudioStream.m_sampleRatePerChannel s ->
  2 * AudioStream.m_sampleRatePerChannel s <= Int.INT_MAX ->
  0 <= AudioStream.sampleCount data <= AudioStream.samplesBufferCapacity s ->
  AudioStream.sampleCount data <= Int.INT_MAX ->
  AudioStream.samplesBufferCapacity s
  = 2 * AudioStream.m_sampleRatePerChannel s * AudioStream.getStereoChannelCount
  /\ (exists made,
        AudioStream.copied (snd (AudioStream.onGetData fuel data s))
        = AudioStream.copied s ++ made
        /\ Forall (inside (AudioStream.samplesBufferCapacity s)) made)
  /\ (forall more data',
        fst (AudioStream.onGetData fuel data s) = Return (more, data') ->
        0 <= AudioStream.sampleCount data' <= AudioStream.samplesBufferCapacity s)
  /\ (forall s1 buffer count,
        AudioStream.resampleFrame (Some (AudioStream.m_audioFrame s)) s
        = (Return (Some buffer, count), s1) ->
        0 < count ->
        AudioStream.samplesBufferCapacity s <= AudioStream.sampleCount data + count ->
        AudioStream.appendFrame data s
        = (Throw (if AudioStream.sampleCount data + count <=? Int.INT_MAX
                  then "AudioStream::onGetData() - Going to overflow!!"
                  else "computation overflow"), s1)
        /\ AudioStream.copied s1 = AudioStream.copied s)
  /\ (forall outer inner p data' s' needsMoreDecoding s1 buffer count s2,
        Turns.reaches fuel data s outer (S inner) p data' s' ->
        AudioStream.decodePacket p s' = (Return (needsMoreDecoding, true), s1) ->
        AudioStream.resampleFrame (Some (AudioStream.m_audioFrame s1)) s1
        = (Return (Some buffer, count), s2) ->
        0 < count ->
        AudioStream.samplesBufferCapacity s <= AudioStream.sampleCount data' + count ->
        AudioStream.onGetData fuel data s
        = (Throw (if AudioStream.sampleCount data' + count <=? Int.INT_MAX
                  then "AudioStream::onGetData() - Going to overflow!!"
                  else "computation overflow"), s2)
        /\ AudioStream.copied s2 = AudioStream.copied s').
Proof.
  intros Hrate Hstereo Hdata Hint.
  split; [unfold AudioStream.samplesBufferCapacity, AudioStream.getStereoChannelCount; ring|].
  assert (Hfatal : forall s1 buffer count,
             AudioStream.resampleFrame (Some (AudioStream.m_audioFrame s)) s
             = (Return (Some buffer, count), s1) ->
             0 < count ->
             AudioStream.samplesBufferCapacity s <= AudioStream.sampleCount data + count ->
             AudioStream.appendFrame data s
             = (Throw (if AudioStream.sampleCount data + count <=? Int.INT_MAX
                       then "AudioStream::onGetData() - Going to overflow!!"
                       else "computation overflow"), s1)
             /\ AudioStream.copied s1 = AudioStream.copied s).
  { intros s1 buffer count. apply appendFrame_overflow_is_fatal. unfold ready. auto. }
  assert (Habort : forall outer inner p data' s' needsMoreDecoding s1 buffer count s2,
             Turns.reaches fuel data s outer (S inner) p data' s' ->
             AudioStream.decodePacket p s' = (Return (needsMoreDecoding, true), s1) ->
             AudioStream.resampleFrame (Some (AudioStream.m_audioFrame s1)) s1
             = (Return (Some buffer, count), s2) ->
             0 < count ->
             AudioStream.samplesBufferCapacity s <= AudioStream.sampleCount data' + count ->
             AudioStream.onGetData fuel data s
             = (Throw (if AudioStream.sampleCount data' + count <=? Int.INT_MAX
                       then "AudioStream::onGetData() - Going to overflow!!"
                       else "computation overflow"), s2)
             /\ AudioStream.copied s2 = AudioStream.copied s').
  { intros outer inner p data' s' needsMoreDecoding s1 buffer count s2
           Hreach Hdecode Hresample Hpos Hover.
    destruct (reaches_ready fuel data s outer (S inner) p data' s'
                ltac:(unfold ready; auto) Hreach) as [Hready' Hrate'].
    pose proof (decodePacket_extends (AudioStream.samplesBufferCapacity s) p s') as Hext.
    pose proof (decodePacket_copied p s') as Hsame.
    rewrite Hdecode in Hext, Hsame. cbn [snd] in Hext, Hsame.
    pose proof (proj1 (ready_extends _ data' _ _ Hext) Hready') as Hready1.
    assert (Hcapacity : AudioStream.samplesBufferCapacity s1
                        = AudioStream.samplesBufferCapacity s).
    { unfold AudioStream.samplesBufferCapacity. rewrite (proj1 Hext), Hrate'. reflexivity. }
    rewrite <- Hcapacity in Hover.
    destruct (appendFrame_overflow_is_fatal data' s1 s2 buffer count
                Hready1 Hresample Hpos Hover) as [Happend Hcopied].
    split; [|rewrite Hcopied; exact Hsame].
    pose proof (reaches_run _ _ _ _ _ _ _ _ Hreach) as Hloop.
    cbn [AudioStream.decodeWhileNeeded] in Hloop. cbv zeta in Hloop.
    rewrite !bind_assoc, (bind_Return _ _ _ _ _ Hdecode) in Hloop. cbn [fst snd] in Hloop.
    rewrite bind_assoc, bind_unfold, Happend in Hloop.
    unfold AudioStream.onGetData. cbv zeta.
    rewrite bind_unfold, Hloop. reflexivity. }
  apply and_assoc. split; [|exact (conj Hfatal Habort)].
  clear Hfatal Habort.
  assert (Hready : ready {| AudioStream.samples := true;
                            AudioStream.sampleCount := AudioStream.sampleCount data |} s)
    by (unfold ready; auto).
  destruct (fillChunk_spec fuel None _ s Hready) as [Hext Hcount].
  assert (Hbound : forall last data1,
             fst (AudioStream.fillChunk fuel None
                    {| AudioStream.samples := true;
                       AudioStream.sampleCount := AudioStream.sampleCount data |} s)
             = Return (last, data1) ->
             0 <= AudioStream.sampleCount data1 <= AudioStream.samplesBufferCapacity s).
  { intros last data1 H. destruct (Hcount last data1 H) as [_ [_ [H3 _]]]. exact H3. }
  clear Hcount.
  unfold AudioStream.onGetData. rewrite bind_unfold.
  destruct (AudioStream.fillChunk fuel None
              {| AudioStream.samples := true;
                 AudioStream.sampleCount := AudioStream.sampleCount data |} s)
    as [[[last data1]| | |] s1]; cbn [fst snd] in *.
  - specialize (Hbound last data1 eq_refl).
    destruct last as [last|]; cbn [notNull negb].
    + rewrite bind_ret_l. cbn [ret fst snd].
      split; [exact (proj2 Hext)|].
      intros more data' H. injection H as _ <-. exact Hbound.
    + rewrite bind_unfold, sfeLog_run. cbn [ret fst snd].
      split.
      * destruct Hext as [_ [made [Hc Hm]]]. exists made. split; [exact Hc | exact Hm].
      * intros more data' H. injection H as _ <-. exact Hbound.
  - split; [exact (proj2 Hext) | discriminate].
  - split; [exact (proj2 Hext) | discriminate].
  - split; [exact (proj2 Hext) | discriminate].
Qed.

End WithinCapacity.

(** The stream of the scenario after a seek, with three packets queued.
    The first frame, 120000 samples, fits; 39998 of its samples are
    dropped and 80002 are copied, less than one second.  The second
    frame would bring the chunk to 200002 samples, beyond the 192000 of
    the buffer: the call throws at its second turn, and the copy of the
    first frame is the only one made. *)
Lemma onGetData_within_capacity_witness :
  AudioStream.samplesBufferCapacity Scenario.longFramesAfterSeek = 192000
  /\ exists s',
       AudioStream.onGetData 10 Scenario.emptyChunk Scenario.longFramesAfterSeek
       = (Throw "AudioStream::onGetData() - Going to overflow!!", s')
       /\ AudioStream.copied s'
          = [{| AudioStream.firstSample := 0;
                AudioStream.sourceOffset := 79996;
                AudioStream.byteCount := 160004 |}]
       /\ Stream.released (AudioStream.base s') = [Scenario.packet 0].
Proof.
  destruct (onGetData_within_capacity 10 Scenario.emptyChunk Scenario.longFramesAfterSeek)
    as [Hcapacity [_ [_ [_ Habort]]]].
  - simpl. lia.
  - vm_compute. discriminate.
  - split; vm_compute; discriminate.
  - vm_compute. discriminate.
  - split; [reflexivity|].
    pose (s1 := snd (AudioStream.onBase Stream.popEncodedData Scenario.longFramesAfterSeek)).
    pose (data0 := {| AudioStream.samples := true; AudioStream.sampleCount := 0 |}).
    pose (s2 := snd (AudioStream.decodePacket (Scenario.packet 0) s1)).
    pose (data1 := {| AudioStream.samples := true; AudioStream.sampleCount := 80002 |}).
    pose (s3 := snd (AudioStream.appendFrame data0 s2)).
    pose (s4 := snd (AudioStream.onBase (Stream.av_packet_unref (Scenario.packet 0)) s3)).
    pose (s5 := snd (AudioStream.onBase Stream.popEncodedData s4)).
    pose (s6 := snd (AudioStream.decodePacket (Scenario.packet 1) s5)).
    pose (s7 := snd (AudioStream.resampleFrame (Some (AudioStream.m_audioFrame s6)) s6)).
    assert (Hfirst : Turns.reaches 10 Scenario.emptyChunk Scenario.longFramesAfterSeek
                       9 9 (Scenario.packet 0) data0 s1).
    { apply Turns.reaches_first; [reflexivity | reflexivity | reflexivity]. }
    assert (Hsecond : Turns.reaches 10 Scenario.emptyChunk Scenario.longFramesAfterSeek
                        8 8 (Scenario.packet 1) data1 s5).
    { apply (@Turns.reaches_next _ _ 10%nat Scenario.emptyChunk Scenario.longFramesAfterSeek
               8%nat 8%nat (Scenario.packet 0) (Scenario.packet 1) data0 data1
               s1 s2 s3 s4 s5 Hfirst);
        vm_compute; reflexivity. }
    destruct (Habort 8%nat 7%nat (Scenario.packet 1) data1 s5 false s6 0 120000 s7 Hsecond)
      as [Hthrow Hcopied].
    + vm_compute. reflexivity.
    + vm_compute. reflexivity.
    + reflexivity.
    + vm_compute. discriminate.
    + exists s7. split; [exact Hthrow|]. split; vm_compute; reflexivity.
Defined.

(** A frame of two seconds, as long as the whole buffer, is refused: the
    call throws and nothing is copied. *)
Example onGetData_refuses_two_seconds :
  let r := AudioStream.onGetData 10 Scenario.emptyChunk Scenario.longFrames in
  fst r = Throw "AudioStream::onGetData() - Going to overflow!!"
  /\ AudioStream.copied (snd r) = [].
Proof. vm_compute. split; reflexivity. Qed.

(** ** [Stream::computeEncodedPosition] *)

Section EncodedPosition.
Context {DS : DataSource} {AV : LibAV}.
Import Seek.

Lemma refill_run (s : Stream.t) :
  (if Stream.empty (Stream.m_packetList s) && negb (Stream.isPassive s)
   then Stream.callRequestMoreData else ret tt) s = (Return tt, refilled s).
Proof.
  unfold refilled.
  destruct (Stream.empty (Stream.m_packetList s) && negb (Stream.isPassive s)).
  - apply callRequestMoreData_spec.
  - reflexivity.
Qed.

Lemma computeEncodedPosition_run (s : Stream.t) :
  Stream.computeEncodedPosition s
  = match Stream.m_packetList (refilled s), Stream.m_stream (refilled s) with
    | [], _ => (Return None, refilled s)
    | p :: _, Some stream => (Return (Some (Stream.positionOf stream p)), refilled s)
    | _ :: _, None => (Undefined "m_stream is null", refilled s)
    end.
Proof.
  unfold Stream.computeEncodedPosition.
  rewrite bind_get, (bind_Return _ _ _ _ _ (refill_run s)), bind_get.
  destruct (Stream.m_packetList (refilled s)); [reflexivity|].
  destruct (Stream.m_stream (refilled s)); reflexivity.
Qed.

Lemma refilled_queue (s : Stream.t) :
  Stream.m_packetList s <> [] -> refilled s = s.
Proof.
  intros H. unfold refilled. destruct (Stream.m_packetList s); [congruence|reflexivity].
Qed.

Lemma refilled_members (s : Stream.t) :
  Stream.m_stream (refilled s) = Stream.m_stream s
  /\ Stream.m_streamID (refilled s) = Stream.m_streamID s
  /\ Stream.released (refilled s) = Stream.released s
  /\ Stream.log (refilled s) = Stream.log s
  /\ Stream.isPassive (refilled s) = Stream.isPassive s
  /\ Stream.m_codec_capabilities (refilled s) = Stream.m_codec_capabilities s
  /\ (exists fetched, Stream.m_packetList (refilled s) = Stream.m_packetList s ++ fetched)
  /\ (Stream.requests s <= Stream.requests (refilled s) <= S (Stream.requests s))%nat.
Proof.
  unfold refilled, QueueOrder.afterRequest.
  destruct (Stream.empty (Stream.m_packetList s) && negb (Stream.isPassive s)); cbn.
  - repeat split; try reflexivity; try lia. eexists; reflexivity.
  - repeat split; try reflexivity; try lia. exists []. rewrite app_nil_r. reflexivity.
Qed.

(** X1.  [computeEncodedPosition] announces the next packet.  Whenever
    it returns [true], the position it reports is that of the packet at
    the front of the queue, which it leaves there: the next
    [popEncodedData] returns that very packet and asks the source for
    nothing.  A queue that was not empty is not touched at all, and an
    empty one costs one request to the source at most. *)
Theorem computeEncodedPosition_announces_next_pop
    (s s1 : Stream.t) (position : sf.Time) :
  Stream.computeEncodedPosition s = (Return (Some position), s1) ->
  exists stream p rest,
    Stream.m_stream s1 = Some stream
    /\ position = Stream.positionOf stream p
    /\ Stream.m_packetList s1 = p :: rest
    /\ Stream.popEncodedData s1 = (Return (Some p), Stream.set_packetList rest s1)
    /\ (Stream.m_packetList s <> [] -> s1 = s)
    /\ (Stream.requests s1 <= S (Stream.requests s))%nat.
Proof.
  rewrite computeEncodedPosition_run. intros H.
  destruct (Stream.m_packetList (refilled s)) as [|p rest] eqn:Hq; [discriminate|].
  destruct (Stream.m_stream (refilled s)) as [stream|] eqn:Hs; [|discriminate].
  injection H as <- <-.
  exists stream, p, rest. repeat split; auto.
  - apply popEncodedData_front. exact Hq.
  - apply refilled_queue.
  - apply refilled_members.
Qed.

End EncodedPosition.

(** The stream of the scenario: the position reported is that of its
    first packet, which the next pop returns. *)
Lemma computeEncodedPosition_announces_next_pop_witness :
  exists stream p rest,
    Stream.m_stream (AudioStream.base Scenario.seekable) = Some stream
    /\ Stream.positionOf Scenario.audio48k (Scenario.packet 0) = Stream.positionOf stream p
    /\ Stream.m_packetList (AudioStream.base Scenario.seekable) = p :: rest
    /\ Stream.popEncodedData (AudioStream.base Scenario.seekable)
       = (Return (Some p), Stream.set_packetList rest (AudioStream.base Scenario.seekable))
    /\ (Stream.m_packetList (AudioStream.base Scenario.seekable) <> [] ->
        AudioStream.base Scenario.seekable = AudioStream.base Scenario.seekable)
    /\ (Stream.requests (AudioStream.base Scenario.seekable)
        <= S (Stream.requests (AudioStream.base Scenario.seekable)))%nat.
Proof.
  apply (computeEncodedPosition_announces_next_pop
           (AudioStream.base Scenario.seekable) (AudioStream.base Scenario.seekable)
           (Stream.positionOf Scenario.audio48k (Scenario.packet 0))).
  reflexivity.
Defined.

(** ** [AudioStream::fastForward] in general *)

Section FastForwardInGeneral.
Context {DS : DataSource} {AV : LibAV}.
Import Seek.

Lemma onBase_run {A} (c : M Stream.t A) (s : AudioStream.t) :
  AudioStream.onBase c s
  = (fst (c (AudioStream.base s)), AudioStream.set_base (snd (c (AudioStream.base s))) s).
Proof. unfold AudioStream.onBase, lift. destruct (c (AudioStream.base s)); reflexivity. Qed.

Lemma packetDuration_run (p : AVPacket) (b : Stream.t) :
  Stream.packetDuration (Some p) b
  = if stream_index p =? Stream.m_streamID b then
      match Stream.m_stream b with
      | Some stream => (Return (Stream.durationOf stream p), b)
      | None => (Undefined "m_stream is null", b)
      end
    else (Throw "Asking for duration of a packet for a different stream!", b).
Proof.
  unfold Stream.packetDuration. cbn [notNull]. rewrite bind_CHECK_true, bind_get.
  destruct (stream_index p =? Stream.m_streamID b).
  - rewrite bind_CHECK_true. destruct (Stream.m_stream b); reflexivity.
  - rewrite bind_CHECK_false. reflexivity.
Qed.

(** One turn of the loop of [fastForward], in every case. *)
Lemma fastForward_turn (fuel : nat) (T : sf.Time) (s : AudioStream.t) :
  AudioStream.fastForward (S fuel) T s
  = let b := refilled (AudioStream.base s) in
    match Stream.m_packetList b, Stream.m_stream b with
    | [], _ =>
        (Return false,
         AudioStream.set_base
           (Stream.set_log (Stream.log b ++ [(LogWarning, FastForwardFailed)]) b) s)
    | _ :: _, None => (Undefined "m_stream is null", AudioStream.set_base b s)
    | p :: rest, Some stream =>
        if stream_index p =? Stream.m_streamID b then
          let position := Stream.positionOf stream p in
          let pktDuration := Stream.durationOf stream p in
          if T <? position then
            if sf.add position pktDuration <=? T
            then AudioStream.fastForward fuel T
                   (reinsertedLate (sf.sub position T) p rest b s)
            else (Return true, reinsertedLate (sf.sub position T) p rest b s)
          else if T <? sf.add position pktDuration then
            if sf.Zero <? sf.sub T position then
              if sf.sub T position <=? pktDuration
              then (Return true, reinsertedInside (sf.sub T position) p rest b s)
              else (Throw "Should have discarded a full packet",
                    reinsertedInside (sf.sub T position) p rest b s)
            else (Throw "inconcistency error",
                  reinsertedInside (sf.sub T position) p rest b s)
          else AudioStream.fastForward fuel T (discarded p rest b s)
        else (Throw "Asking for duration of a packet for a different stream!",
              AudioStream.set_base (Stream.set_packetList rest b) s)
    end.
Proof.
  cbn [AudioStream.fastForward].
  rewrite bind_unfold, onBase_run, computeEncodedPosition_run.
  cbv zeta.
  set (b := refilled (AudioStream.base s)).
  destruct (Stream.m_packetList b) as [|p rest] eqn:Hq.
  - reflexivity.
  - destruct (Stream.m_stream b) as [stream|] eqn:Hs; [|reflexivity].
    cbn [fst snd].
    rewrite bind_unfold, onBase_run. cbn [AudioStream.base AudioStream.set_base].
    rewrite (popEncodedData_front b p rest Hq). cbn [fst snd].
    rewrite bind_unfold, onBase_run. cbn [AudioStream.base AudioStream.set_base].
    rewrite packetDuration_run. cbn [Stream.m_streamID Stream.set_packetList Stream.m_stream].
    destruct (stream_index p =? Stream.m_streamID b); [|reflexivity].
    rewrite Hs. cbn [fst snd].
    destruct (T <? Stream.positionOf stream p) eqn:Hlate.
    + unfold reinsertedLate.
      destruct (sf.microseconds 1 <? sf.sub (Stream.positionOf stream p) T);
        destruct (sf.add (Stream.positionOf stream p) (Stream.durationOf stream p) <=? T);
        reflexivity.
    + destruct (T <? sf.add (Stream.positionOf stream p) (Stream.durationOf stream p)) eqn:Hin.
      * assert (Hloop : (sf.add (Stream.positionOf stream p) (Stream.durationOf stream p) <=? T)
                        = false) by (apply Z.leb_gt; apply Z.ltb_lt in Hin; exact Hin).
        rewrite Hloop. unfold reinsertedInside.
        destruct (sf.Zero <? sf.sub T (Stream.positionOf stream p)) eqn:Hpos.
        -- destruct (sf.sub T (Stream.positionOf stream p) <=? Stream.durationOf stream p) eqn:Hle.
           ++ unfold bind, AudioStream.onBase, lift, modify, get, AudioStream.sfeLog,
                AudioStream.onBase, lift, Stream.sfeLog, modify, CHECK, ret. cbn.
              rewrite Hpos, Hle. reflexivity.
           ++ unfold bind, AudioStream.onBase, lift, modify, get, AudioStream.sfeLog,
                AudioStream.onBase, lift, Stream.sfeLog, modify, CHECK, ret. cbn.
              rewrite Hpos, Hle. reflexivity.
        -- unfold bind, AudioStream.onBase, lift, modify, get, AudioStream.sfeLog,
                AudioStream.onBase, lift, Stream.sfeLog, modify, CHECK, ret. cbn.
           rewrite Hpos. reflexivity.
      * assert (Hloop : (sf.add (Stream.positionOf stream p) (Stream.durationOf stream p) <=? T)
                        = true) by (apply Z.leb_le; apply Z.ltb_ge in Hin; exact Hin).
        rewrite Hloop. reflexivity.
Qed.

Lemma skipped_trans (T : sf.Time) (a b c : Stream.t) :
  skipped T a b -> skipped T b c -> skipped T a c.
Proof.
  intros [Hs1 [[d1 [f1 [[Hr1 Hq1] He1]]] [l1 [Hl1 Hf1]]]]
         [Hs2 [[d2 [f2 [[Hr2 Hq2] He2]]] [l2 [Hl2 Hf2]]]].
  split; [congruence|]. split.
  - exists (d1 ++ d2), (f1 ++ f2). split; [split|].
    + rewrite Hr2, Hr1, app_assoc. reflexivity.
    + rewrite <- app_assoc, Hq2, app_assoc, Hq1, <- app_assoc. reflexivity.
    + intros stream H. apply Forall_app. split; [apply He1, H|].
      apply He2. congruence.
  - exists (l1 ++ l2). rewrite Hl2, Hl1, app_assoc. split; [reflexivity|].
    apply Forall_app. auto.
Qed.

(** A step that leaves the stream, the released packets and the log as
    they were, and adds [fetched] at the end of the queue and [lines],
    which hold no error, at the end of the log. *)
Lemma skipped_same (T : sf.Time) (a b : Stream.t) (fetched : list AVPacket)
    (lines : list LogEntry) :
  Stream.m_stream b = Stream.m_stream a ->
  Stream.released b = Stream.released a ->
  Stream.m_packetList b = Stream.m_packetList a ++ fetched ->
  Stream.log b = Stream.log a ++ lines ->
  Forall (fun entry : LogEntry => fst entry <> LogError) lines ->
  skipped T a b.
Proof.
  intros Hs Hr Hq Hl Hf. split; [exact Hs|]. split.
  - exists [], fetched. split; [split|].
    + rewrite app_nil_r. exact Hr.
    + exact Hq.
    + intros. constructor.
  - exists lines. auto.
Qed.

Lemma skipped_refilled (T : sf.Time) (b : Stream.t) : skipped T b (refilled b).
Proof.
  destruct (refilled_members b) as [Hs [_ [Hr [Hl [_ [_ [[fetched Hq] _]]]]]]].
  apply (skipped_same T b (refilled b) fetched []); auto.
  rewrite app_nil_r. exact Hl.
Qed.

Lemma skipped_failed (T : sf.Time) (b : Stream.t) :
  skipped T b (Stream.set_log (Stream.log b ++ [(LogWarning, FastForwardFailed)]) b).
Proof.
  apply (skipped_same T _ _ [] [(LogWarning, FastForwardFailed)]); cbn;
    rewrite ?app_nil_r; try reflexivity.
  constructor; [discriminate | constructor].
Qed.

Lemma skipped_late (T late : sf.Time) (p : AVPacket) (rest : list AVPacket)
    (b : Stream.t) (s : AudioStream.t) :
  Stream.m_packetList b = p :: rest ->
  skipped T b (AudioStream.base (reinsertedLate late p rest b s)).
Proof.
  intros Hq. unfold reinsertedLate. cbn [AudioStream.base AudioStream.set_base].
  destruct (sf.microseconds 1 <? late).
  - apply (skipped_same T _ _ [] [(LogWarning, InaccuracyDetected (sf.asMicroseconds late))]);
      cbn; rewrite ?app_nil_r; try reflexivity; [congruence|].
    constructor; [discriminate | constructor].
  - apply (skipped_same T _ _ [] []); cbn; rewrite ?app_nil_r; try reflexivity; [congruence|].
    constructor.
Qed.

Lemma skipped_inside (T extra : sf.Time) (p : AVPacket) (rest : list AVPacket)
    (b : Stream.t) (s : AudioStream.t) :
  Stream.m_packetList b = p :: rest ->
  skipped T b (AudioStream.base (reinsertedInside extra p rest b s)).
Proof.
  intros Hq. unfold reinsertedInside. cbn [AudioStream.base AudioStream.set_base].
  apply (skipped_same T _ _ [] [(LogDebug, ExtraAudioTimeToDiscard (sf.asMicroseconds extra))]);
    cbn; rewrite ?app_nil_r; try reflexivity; [congruence|].
  constructor; [discriminate | constructor].
Qed.

Lemma skipped_discarded (T : sf.Time) (stream : AVStream) (p : AVPacket)
    (rest : list AVPacket) (b : Stream.t) (s : AudioStream.t) :
  Stream.m_stream b = Some stream ->
  Stream.m_packetList b = p :: rest ->
  endsBefore stream T p ->
  skipped T b (AudioStream.base (discarded p rest b s)).
Proof.
  intros Hs Hq Hend. unfold discarded. cbn [AudioStream.base AudioStream.set_base].
  split; [reflexivity|]. split.
  - exists [p], []. split; [split|].
    + reflexivity.
    + cbn. rewrite Hq, app_nil_r. reflexivity.
    + intros stream' H. rewrite Hs in H. injection H as <-.
      constructor; [exact Hend | constructor].
  - exists []. cbn. rewrite app_nil_r. split; [reflexivity | constructor].
Qed.

Lemma reinsertedLate_members (late : sf.Time) (p : AVPacket) (rest : list AVPacket)
    (b : Stream.t) (s : AudioStream.t) :
  Stream.m_stream (AudioStream.base (reinsertedLate late p rest b s)) = Stream.m_stream b
  /\ Stream.m_packetList (AudioStream.base (reinsertedLate late p rest b s)) = p :: rest
  /\ AudioStream.m_extraAudioTime (reinsertedLate late p rest b s) = sf.Zero.
Proof.
  unfold reinsertedLate. destruct (sf.microseconds 1 <? late); repeat split; reflexivity.
Qed.

Lemma stopsAt_later (T : sf.Time) (a b : Stream.t) (result : bool) (s' : AudioStream.t) :
  skipped T a b -> stopsAt T b result s' -> stopsAt T a result s'.
Proof.
  intros [_ [_ [lines [Hl Hf]]]]. destruct result; [exact (fun H => H)|].
  intros [Hq [added [Hlog Hquiet]]]. split; [exact Hq|].
  exists (lines ++ added). rewrite Hlog, Hl, <- !app_assoc. split; [reflexivity|].
  apply Forall_app. auto.
Qed.

Lemma fastForward_returns (fuel : nat) (T : sf.Time) :
  forall (s s' : AudioStream.t) (result : bool),
    AudioStream.fastForward fuel T s = (Return result, s') ->
    skipped T (AudioStream.base s) (AudioStream.base s')
    /\ stopsAt T (AudioStream.base s) result s'.
Proof.
  induction fuel as [|fuel IH]; intros s s' result Hrun; [discriminate|].
  rewrite fastForward_turn in Hrun. cbv zeta in Hrun.
  pose proof (skipped_refilled T (AudioStream.base s)) as Hfill.
  set (b := refilled (AudioStream.base s)) in *.
  destruct (Stream.m_packetList b) as [|p rest] eqn:Hq.
  - injection Hrun as <- <-. split.
    + eapply skipped_trans; [exact Hfill|]. apply skipped_failed.
    + apply (stopsAt_later T _ b); [exact Hfill|].
      split; [exact Hq|]. exists []. split; [reflexivity | constructor].
  - destruct (Stream.m_stream b) as [stream|] eqn:Hs; [|discriminate].
    destruct (stream_index p =? Stream.m_streamID b); [|discriminate].
    destruct (T <? Stream.positionOf stream p) eqn:Hlate.
    + pose proof (skipped_late T (sf.sub (Stream.positionOf stream p) T) p rest b s Hq) as Hstep.
      destruct (sf.add (Stream.positionOf stream p) (Stream.durationOf stream p) <=? T) eqn:Hloop.
      * destruct (IH _ _ _ Hrun) as [Hskip Hstop].
        pose proof (skipped_trans T _ _ _ Hfill Hstep) as Hboth.
        split; [eapply skipped_trans; [exact Hboth | exact Hskip]|].
        apply (stopsAt_later T _ _ _ _ Hboth Hstop).
      * injection Hrun as <- <-. split.
        -- eapply skipped_trans; [exact Hfill | exact Hstep].
        -- exists stream, p, rest. apply Z.ltb_lt in Hlate. apply Z.leb_gt in Hloop.
           destruct (reinsertedLate_members (sf.sub (Stream.positionOf stream p) T) p rest b s)
             as [H1 [H2 H3]].
           rewrite H1, H2, H3, Hs. auto 10.
    + destruct (T <? sf.add (Stream.positionOf stream p) (Stream.durationOf stream p)) eqn:Hin.
      * destruct (sf.Zero <? sf.sub T (Stream.positionOf stream p)) eqn:Hpos; [|discriminate].
        destruct (sf.sub T (Stream.positionOf stream p) <=? Stream.durationOf stream p) eqn:Hle;
          [|discriminate].
        injection Hrun as <- <-. split.
        -- eapply skipped_trans; [exact Hfill|]. apply skipped_inside. exact Hq.
        -- exists stream, p, rest. apply Z.ltb_ge in Hlate. apply Z.ltb_lt in Hin, Hpos.
           apply Z.leb_le in Hle. unfold sf.Zero in Hpos.
           unfold reinsertedInside.
           cbn [AudioStream.base AudioStream.set_base AudioStream.m_extraAudioTime
                AudioStream.set_extraAudioTime Stream.m_packetList Stream.set_packetList
                Stream.m_stream Stream.set_log].
           rewrite Hs. auto 10.
      * apply Z.ltb_ge in Hin.
        pose proof (skipped_discarded T stream p rest b s Hs Hq Hin) as Hstep.
        destruct (IH _ _ _ Hrun) as [Hskip Hstop].
        pose proof (skipped_trans T _ _ _ Hfill Hstep) as Hboth.
        split; [eapply skipped_trans; [exact Hboth | exact Hskip]|].
        apply (stopsAt_later T _ _ _ _ Hboth Hstop).
Qed.

(** X2.  Whenever [fastForward] returns [true], the packet at the front
    of the queue ends after the target [T]; either it starts after [T]
    and [m_extraAudioTime] is zero, or it holds [T] and
    [m_extraAudioTime] is the time from its start to [T], above zero and
    at most its duration. *)
Theorem fastForward_true_stops_on_target
    (fuel : nat) (T : sf.Time) (s s' : AudioStream.t) :
  AudioStream.fastForward fuel T s = (Return true, s') ->
  exists stream p rest,
    Stream.m_stream (AudioStream.base s') = Some stream
    /\ Stream.m_packetList (AudioStream.base s') = p :: rest
    /\ T < sf.add (Stream.positionOf stream p) (Stream.durationOf stream p)
    /\ ((T < Stream.positionOf stream p /\ AudioStream.m_extraAudioTime s' = sf.Zero)
        \/ (Stream.positionOf stream p <= T
            /\ AudioStream.m_extraAudioTime s' = sf.sub T (Stream.positionOf stream p)
            /\ 0 < AudioStream.m_extraAudioTime s' <= Stream.durationOf stream p)).
Proof.
  intros Hrun. apply (fastForward_returns fuel T s s' true Hrun).
Qed.

(** X3.  Whenever [fastForward] returns, it has lost no packet and has
    released only packets that end at or before the target: the packets
    it released followed by the queue it leaves are the queue it found
    followed by packets taken from the source. *)
Theorem fastForward_releases_only_past_packets
    (fuel : nat) (T : sf.Time) (s s' : AudioStream.t) (result : bool) :
  AudioStream.fastForward fuel T s = (Return result, s') ->
  exists dropped fetched,
    Stream.released (AudioStream.base s')
    = Stream.released (AudioStream.base s) ++ dropped
    /\ dropped ++ Stream.m_packetList (AudioStream.base s')
       = Stream.m_packetList (AudioStream.base s) ++ fetched
    /\ forall stream,
         Stream.m_stream (AudioStream.base s) = Some stream ->
         Forall (fun q => sf.add (Stream.positionOf stream q) (Stream.durationOf stream q) <= T)
                dropped.
Proof.
  intros Hrun.
  destruct (fastForward_returns fuel T s s' result Hrun)
    as [[_ [[dropped [fetched [[Hr Hq] Hend]]] _]] _].
  exists dropped, fetched. auto.
Qed.

(** X4.  Whenever [fastForward] returns [false], the queue is empty, the
    last line of the log is the warning that the seek failed, and no
    line it logged is an error: the branch that logs the end of the
    stream as an error is never taken. *)
Theorem fastForward_false_on_empty_queue
    (fuel : nat) (T : sf.Time) (s s' : AudioStream.t) :
  AudioStream.fastForward fuel T s = (Return false, s') ->
  Stream.m_packetList (AudioStream.base s') = []
  /\ exists added,
       Stream.log (AudioStream.base s')
       = Stream.log (AudioStream.base s) ++ added ++ [(LogWarning, FastForwardFailed)]
       /\ Forall (fun entry : LogEntry => fst entry <> LogError) added.
Proof.
  intros Hrun. apply (fastForward_returns fuel T s s' false Hrun).
Qed.

Lemma refilled_exhausted (b : Stream.t) :
  Stream.m_packetList b = [] ->
  fst (requestMoreData (Stream.m_dataSource b)) = [] ->
  Stream.m_packetList (refilled b) = []
  /\ Stream.released (refilled b) = Stream.released b
  /\ Stream.log (refilled b) = Stream.log b
  /\ Stream.requests (refilled b)
     = if Stream.isPassive b then Stream.requests b else S (Stream.requests b).
Proof.
  intros Hq Hsource. unfold refilled, QueueOrder.afterRequest. rewrite Hq.
  cbn [Stream.empty andb]. destruct (Stream.isPassive b); cbn.
  - auto.
  - rewrite Hsource. auto.
Qed.


(** X6.  A seek to a time before the first queued packet.  When the
    packet at the front belongs to the stream, starts after the target
    and ends after it, [fastForward] returns [true] after one turn, has
    released nothing and has not asked the source; the packet is back at
    the front, [m_extraAudioTime] is zero, and a warning with the advance
    is the only line the call may add to the log. *)
Theorem fastForward_before_first_packet
    (s : AudioStream.t) (stream : AVStream) (p : AVPacket) (rest : list AVPacket)
    (T : sf.Time) (fuel : nat) :
  Stream.m_stream (AudioStream.base s) = Some stream ->
  Stream.m_packetList (AudioStream.base s) = p :: rest ->
  stream_index p = Stream.m_streamID (AudioStream.base s) ->
  T < Stream.positionOf stream p ->
  T < sf.add (Stream.positionOf stream p) (Stream.durationOf stream p) ->
  exists s',
    AudioStream.fastForward (S fuel) T s = (Return true, s')
    /\ Stream.m_packetList (AudioStream.base s') = p :: rest
    /\ Stream.released (AudioStream.base s') = Stream.released (AudioStream.base s)
    /\ Stream.requests (AudioStream.base s') = Stream.requests (AudioStream.base s)
    /\ AudioStream.m_extraAudioTime s' = sf.Zero
    /\ (Stream.log (AudioStream.base s') = Stream.log (AudioStream.base s)
        \/ Stream.log (AudioStream.base s')
           = Stream.log (AudioStream.base s)
               ++ [(LogWarning,
                    InaccuracyDetected (sf.sub (Stream.positionOf stream p) T))]).
Proof.
  intros Hs Hq Hid Hlate Hend.
  assert (Hfilled : refilled (AudioStream.base s) = AudioStream.base s)
    by (apply refilled_queue; rewrite Hq; discriminate).
  rewrite fastForward_turn. cbv zeta. rewrite Hfilled, Hq, Hs, Hid, Z.eqb_refl.
  assert (H1 : (T <? Stream.positionOf stream p) = true) by (apply Z.ltb_lt; exact Hlate).
  assert (H2 : (sf.add (Stream.positionOf stream p) (Stream.durationOf stream p) <=? T)
               = false) by (apply Z.leb_gt; exact Hend).
  rewrite H1, H2. eexists. split; [reflexivity|].
  unfold reinsertedLate, sf.microseconds, sf.asMicroseconds.
  destruct (1 <? sf.sub (Stream.positionOf stream p) T);
    cbn [AudioStream.base AudioStream.set_base Stream.m_packetList Stream.set_packetList
         Stream.released Stream.requests Stream.set_log Stream.log
         AudioStream.m_extraAudioTime AudioStream.set_extraAudioTime];
    rewrite ?app_nil_r; auto 10.
Qed.

End FastForwardInGeneral.

Lemma fastForward_true_stops_on_target_witness :
  exists stream p rest,
    Stream.m_stream (AudioStream.base (snd (AudioStream.fastForward 3 50000 Scenario.seekable)))
    = Some stream
    /\ Stream.m_packetList
         (AudioStream.base (snd (AudioStream.fastForward 3 50000 Scenario.seekable)))
       = p :: rest
    /\ 50000 < sf.add (Stream.positionOf stream p) (Stream.durationOf stream p)
    /\ ((50000 < Stream.positionOf stream p
         /\ AudioStream.m_extraAudioTime
              (snd (AudioStream.fastForward 3 50000 Scenario.seekable)) = sf.Zero)
        \/ (Stream.positionOf stream p <= 50000
            /\ AudioStream.m_extraAudioTime
                 (snd (AudioStream.fastForward 3 50000 Scenario.seekable))
               = sf.sub 50000 (Stream.positionOf stream p)
            /\ 0 < AudioStream.m_extraAudioTime
                     (snd (AudioStream.fastForward 3 50000 Scenario.seekable))
                 <= Stream.durationOf stream p)).
Proof.
  apply (fastForward_true_stops_on_target 3 50000 Scenario.seekable).
  vm_compute. reflexivity.
Defined.

(** The theorem holds of the seek of the scenario to 50 ms: the two
    packets before the target are released and none is fetched. *)
Lemma fastForward_releases_only_past_packets_witness :
  exists dropped fetched,
    Stream.released
      (AudioStream.base (snd (AudioStream.fastForward 3 50000 Scenario.seekable)))
    = Stream.released (AudioStream.base Scenario.seekable) ++ dropped
    /\ dropped ++ Stream.m_packetList
                    (AudioStream.base (snd (AudioStream.fastForward 3 50000 Scenario.seekable)))
       = Stream.m_packetList (AudioStream.base Scenario.seekable) ++ fetched
    /\ forall stream,
         Stream.m_stream (AudioStream.base Scenario.seekable) = Some stream ->
         Forall (fun q => sf.add (Stream.positionOf stream q) (Stream.durationOf stream q)
                          <= 50000)
                dropped.
Proof.
  apply (fastForward_releases_only_past_packets 3 50000 Scenario.seekable _ true).
  vm_compute. reflexivity.
Defined.

(** The stream of the scenario with two packets queued, which end at
    40 ms, and a seek to one second. *)
Lemma fastForward_false_on_empty_queue_witness :
  Stream.m_packetList
    (AudioStream.base (snd (AudioStream.fastForward 3 1000000 Scenario.refusedOnce))) = []
  /\ exists added,
       Stream.log (AudioStream.base (snd (AudioStream.fastForward 3 1000000 Scenario.refusedOnce)))
       = Stream.log (AudioStream.base Scenario.refusedOnce)
           ++ added ++ [(LogWarning, FastForwardFailed)]
       /\ Forall (fun entry : LogEntry => fst entry <> LogError) added.
Proof.
  apply (fastForward_false_on_empty_queue 3 1000000 Scenario.refusedOnce).
  vm_compute. reflexivity.
Defined.


(** The stream whose queue starts with the second packet, at 20 ms, and
    a seek to 19.5 ms. *)
Lemma fastForward_before_first_packet_witness :
  exists s',
    AudioStream.fastForward 1 19500 Scenario.fromSecondPacket = (Return true, s')
    /\ Stream.m_packetList (AudioStream.base s') = Scenario.packet 1 :: Scenario.packets 2 9
    /\ Stream.released (AudioStream.base s')
       = Stream.released (AudioStream.base Scenario.fromSecondPacket)
    /\ Stream.requests (AudioStream.base s')
       = Stream.requests (AudioStream.base Scenario.fromSecondPacket)
    /\ AudioStream.m_extraAudioTime s' = sf.Zero
    /\ (Stream.log (AudioStream.base s')
        = Stream.log (AudioStream.base Scenario.fromSecondPacket)
        \/ Stream.log (AudioStream.base s')
           = Stream.log (AudioStream.base Scenario.fromSecondPacket)
               ++ [(LogWarning,
                    InaccuracyDetected
                      (sf.sub (Stream.positionOf Scenario.audio48k (Scenario.packet 1))
                              19500))]).
Proof.
  apply (fastForward_before_first_packet Scenario.fromSecondPacket Scenario.audio48k
           (Scenario.packet 1) (Scenario.packets 2 9) 19500 0).
  - reflexivity.
  - reflexivity.
  - reflexivity.
  - vm_compute. reflexivity.
  - vm_compute. reflexivity.
Defined.

(** ** The methods of [Stream] on one packet, and two flushes *)

Section StreamMethods.
Context {DS : DataSource} {AV : LibAV}.

(** X7.  On a stream whose [m_streamID] is the index of its [AVStream],
    as the constructor sets it, [packetDuration] and [canUsePacket] agree
    on every packet: a packet [canUsePacket] accepts has a duration, and
    for a packet it refuses [packetDuration] throws; neither changes the
    stream. *)
Theorem packetDuration_agrees_with_canUsePacket
    (s : Stream.t) (stream : AVStream) (p : AVPacket) :
  Stream.m_stream s = Some stream ->
  Stream.m_streamID s = index stream ->
  (Stream.canUsePacket (Some p) s = (Return true, s)
   /\ Stream.packetDuration (Some p) s = (Return (Stream.durationOf stream p), s))
  \/ (Stream.canUsePacket (Some p) s = (Return false, s)
      /\ Stream.packetDuration (Some p) s
         = (Throw "Asking for duration of a packet for a different stream!", s)).
Proof.
  intros Hs Hid.
  unfold Stream.canUsePacket, Stream.packetDuration. cbn [notNull].
  rewrite !bind_CHECK_true, !bind_get, Hs, Hid. cbn [deref].
  rewrite bind_ret_l.
  destruct (stream_index p =? index stream); [left | right]; split; reflexivity.
Qed.

(** X8.  [Stream::flushBuffers] always returns; it leaves the queue
    empty, so that the stream has no packets and needs more data, and a
    second flush releases nothing more: every packet that was queued has
    been released exactly once. *)
Theorem flushBuffers_twice_releases_once (s : Stream.t) :
  exists s1 s2,
    Stream.flushBuffers s = (Return tt, s1)
    /\ Stream.flushBuffers s1 = (Return tt, s2)
    /\ Stream.released s1 = Stream.released s ++ Stream.m_packetList s
    /\ Stream.released s2 = Stream.released s1
    /\ Stream.m_packetList s1 = []
    /\ Stream.m_packetList s2 = []
    /\ Stream.hasPackets s1 = false
    /\ Stream.needsMoreData s1 = true.
Proof.
  destruct (Stream_flushBuffers_spec s) as [s1 [Hrun1 [Hq1 [Hrel1 _]]]].
  destruct (Stream_flushBuffers_spec s1) as [s2 [Hrun2 [Hq2 [Hrel2 _]]]].
  exists s1, s2. rewrite Hq1, app_nil_r in Hrel2.
  unfold Stream.hasPackets, Stream.needsMoreData. rewrite Hq1. cbn. auto 10.
Qed.

End StreamMethods.

Lemma packetDuration_agrees_with_canUsePacket_witness :
  (Stream.canUsePacket (Some (Scenario.packet 3)) (AudioStream.base Scenario.seekable)
   = (Return true, AudioStream.base Scenario.seekable)
   /\ Stream.packetDuration (Some (Scenario.packet 3)) (AudioStream.base Scenario.seekable)
      = (Return (Stream.durationOf Scenario.audio48k (Scenario.packet 3)),
         AudioStream.base Scenario.seekable))
  \/ (Stream.canUsePacket (Some (Scenario.packet 3)) (AudioStream.base Scenario.seekable)
      = (Return false, AudioStream.base Scenario.seekable)
      /\ Stream.packetDuration (Some (Scenario.packet 3)) (AudioStream.base Scenario.seekable)
         = (Throw "Asking for duration of a packet for a different stream!",
            AudioStream.base Scenario.seekable)).
Proof.
  apply (packetDuration_agrees_with_canUsePacket
           (AudioStream.base Scenario.seekable) Scenario.audio48k (Scenario.packet 3)).
  - reflexivity.
  - reflexivity.
Defined.

Section SampleTimes.
Context {DS : DataSource} {AV : LibAV}.

Lemma timeToSamples_run (s : AudioStream.t) (t : sf.Time) :
  0 < AudioStream.m_sampleRatePerChannel s ->
  2 * AudioStream.m_sampleRatePerChannel s <= Int.INT_MAX ->
  0 <= t ->
  2 * AudioStream.m_sampleRatePerChannel s * t / 1000000 <= Int.INT_MAX ->
  AudioStream.timeToSamples t s
  = (Return (2 * (AudioStream.m_sampleRatePerChannel s * t / 1000000)), s).
Proof.
  intros Hrate Hstereo Ht Hfits.
  set (rate := AudioStream.m_sampleRatePerChannel s) in *.
  unfold Int.INT_MAX in *. change (2 ^ 31 - 1) with 2147483647 in *.
  set (raw := 2 * rate * t / 1000000) in *.
  assert (Hraw : 0 <= raw) by (apply Z.div_pos; nia).
  assert (Hprod : 0 <= 2 * rate * t < 2147483648 * 1000000).
  { split; [nia|].
    pose proof (Z.div_mod (2 * rate * t) 1000000 ltac:(lia)) as Hdm.
    pose proof (Z.mod_pos_bound (2 * rate * t) 1000000 ltac:(lia)) as Hmb.
    fold raw in Hdm. lia. }
  assert (Hhalf : raw / 2 = rate * t / 1000000).
  { unfold raw. rewrite Z.div_div by lia.
    replace (2 * rate * t) with (2 * (rate * t)) by ring.
    change (1000000 * 2) with (2 * 1000000).
    apply Z.div_mul_cancel_l; lia. }
  pose proof (Z.div_mod raw 2 ltac:(lia)) as Hdm.
  pose proof (Z.mod_pos_bound raw 2 ltac:(lia)) as Hmb.
  unfold AudioStream.timeToSamples. rewrite bind_get. fold rate.
  unfold AudioStream.getStereoChannelCount, sf.asMicroseconds.
  rewrite (to_int_fits (rate * 2))
    by (unfold Int.fits_int, Int.INT_MIN, Int.INT_MAX; lia).
  rewrite (to_int64_fits (rate * 2 * t))
    by (unfold Int.fits_int64, Int.INT64_MIN, Int.INT64_MAX; lia).
  replace (rate * 2 * t) with (2 * rate * t) by ring.
  rewrite Z.quot_div_nonneg by lia. fold raw.
  assert (Hleb : (0 <=? raw) = true) by (apply Z.leb_le; lia).
  rewrite Hleb, bind_CHECK_true.
  rewrite Z.rem_mod_nonneg by lia.
  rewrite <- Hhalf. clearbody raw.
  destruct (raw mod 2 =? 0) eqn:Heven; cbn [negb ret].
  - apply Z.eqb_eq in Heven.
    rewrite to_int_fits by (unfold Int.fits_int, Int.INT_MIN, Int.INT_MAX; lia).
    unfold ret. f_equal. f_equal. lia.
  - apply Z.eqb_neq in Heven.
    rewrite (to_int64_fits (raw - raw mod 2))
      by (unfold Int.fits_int64, Int.INT64_MIN, Int.INT64_MAX; lia).
    rewrite to_int_fits by (unfold Int.fits_int, Int.INT_MIN, Int.INT_MAX; lia).
    unfold ret. f_equal. f_equal. lia.
Qed.

Lemma samplesToTime_run (s : AudioStream.t) (n : Z) :
  0 < AudioStream.m_sampleRatePerChannel s ->
  0 <= n <= Int.INT_MAX ->
  AudioStream.samplesToTime n s
  = (Return (1000000 * (n / 2) / AudioStream.m_sampleRatePerChannel s), s).
Proof.
  intros Hrate Hn.
  set (rate := AudioStream.m_sampleRatePerChannel s) in *.
  unfold Int.INT_MAX in *. change (2 ^ 31 - 1) with 2147483647 in *.
  assert (Hhalf : 0 <= n / 2 <= 1073741824).
  { split; [apply Z.div_pos; lia | apply Z.div_le_upper_bound; lia]. }
  unfold AudioStream.samplesToTime. rewrite bind_get. fold rate.
  assert (Hnz : (rate =? 0) = false) by (apply Z.eqb_neq; lia).
  rewrite Hnz, bind_ret_l. unfold AudioStream.getStereoChannelCount.
  rewrite (Z.quot_div_nonneg n 2) by lia.
  rewrite to_int64_fits
    by (unfold Int.fits_int64, Int.INT64_MIN, Int.INT64_MAX;
        change (2 ^ 63) with 9223372036854775808; lia).
  rewrite Z.quot_div_nonneg by lia.
  assert (Hpos : (0 <=? 1000000 * (n / 2) / rate) = true).
  { apply Z.leb_le. apply Z.div_pos; lia. }
  rewrite Hpos, bind_CHECK_true. reflexivity.
Qed.

(** X9.  The samples [timeToSamples] gives for a time never last longer
    than that time, and fall short of it by less than one sample-frame
    and one microsecond: for a stream with a sample rate above zero whose
    double fits an [int], and a time [t >= 0] whose samples fit an
    [int], [samplesToTime (timeToSamples t)] is a time [t'] with
    [t' <= t] and [rate * (t - t') < 1000000 + rate]. *)
Theorem samplesToTime_of_timeToSamples (s : AudioStream.t) (t : sf.Time) :
  0 < AudioStream.m_sampleRatePerChannel s ->
  2 * AudioStream.m_sampleRatePerChannel s <= Int.INT_MAX ->
  0 <= t ->
  2 * AudioStream.m_sampleRatePerChannel s * t / 1000000 <= Int.INT_MAX ->
  exists n t',
    AudioStream.timeToSamples t s = (Return n, s)
    /\ AudioStream.samplesToTime n s = (Return t', s)
    /\ 0 <= t' <= t
    /\ AudioStream.m_sampleRatePerChannel s * (t - t')
       < 1000000 + AudioStream.m_sampleRatePerChannel s.
Proof.
  intros Hrate Hstereo Ht Hfits.
  pose proof (timeToSamples_run s t Hrate Hstereo Ht Hfits) as Hsamples.
  set (rate := AudioStream.m_sampleRatePerChannel s) in *.
  set (k := rate * t / 1000000) in *.
  assert (Hk : 0 <= k) by (apply Z.div_pos; nia).
  pose proof (Z.mul_div_le (rate * t) 1000000 ltac:(lia)) as Hlow. fold k in Hlow.
  assert (Hdouble : 2 * k <= 2 * rate * t / 1000000)
    by (apply Z.div_le_lower_bound; lia).
  pose proof (samplesToTime_run s (2 * k) Hrate ltac:(lia)) as Htime.
  replace (2 * k / 2) with k in Htime
    by (symmetry; rewrite Z.mul_comm; apply Z.div_mul; lia).
  fold rate in Htime.
  exists (2 * k), (1000000 * k / rate).
  pose proof (Z.div_mod (rate * t) 1000000 ltac:(lia)) as Hdm. fold k in Hdm.
  pose proof (Z.mod_pos_bound (rate * t) 1000000 ltac:(lia)) as Hmb.
  pose proof (Z.div_mod (1000000 * k) rate ltac:(lia)) as Hdm'.
  pose proof (Z.mod_pos_bound (1000000 * k) rate ltac:(lia)) as Hmb'.
  clearbody k.
  repeat split; try assumption.
  - apply Z.div_pos; lia.
  - apply Z.div_le_upper_bound; lia.
  - nia.
Qed.


End SampleTimes.

Lemma samplesToTime_of_timeToSamples_witness :
  exists n t',
    AudioStream.timeToSamples 12345 Scenario.seekable = (Return n, Scenario.seekable)
    /\ AudioStream.samplesToTime n Scenario.seekable = (Return t', Scenario.seekable)
    /\ 0 <= t' <= 12345
    /\ AudioStream.m_sampleRatePerChannel Scenario.seekable * (12345 - t')
       < 1000000 + AudioStream.m_sampleRatePerChannel Scenario.seekable.
Proof.
  apply (samplesToTime_of_timeToSamples Scenario.seekable 12345).
  - reflexivity.
  - vm_compute. discriminate.
  - lia.
  - vm_compute. discriminate.
Defined.


(** ** The status of the sound and the status of the stream *)

Section StatusOfTheSound.
Context {DS : DataSource} {AV : LibAV}.

(** X11.  Once [update] has copied the status of the sound into the
    stream, a flush is silent: when the sound is not playing, [update]
    followed by [flushBuffers] returns, leaves the queue empty and adds
    no line to the log, whatever the status of the stream was before. *)
Theorem update_then_flushBuffers_is_silent (s : AudioStream.t) :
  AudioStream.soundStatus s <> sf.Playing ->
  exists s1 s2,
    AudioStream.update s = (Return tt, s1)
    /\ Stream.m_status (AudioStream.base s1) <> Playing
    /\ AudioStream.flushBuffers s1 = (Return tt, s2)
    /\ Stream.m_packetList (AudioStream.base s2) = []
    /\ Stream.log (AudioStream.base s2) = Stream.log (AudioStream.base s).
Proof.
  intros Hsound.
  set (status := match AudioStream.soundStatus s with
                 | sf.Playing => Playing | sf.Paused => Paused | sf.Stopped => Stopped
                 end).
  set (s1 := AudioStream.set_base (Stream.set_status status (AudioStream.base s)) s).
  assert (Hupdate : AudioStream.update s = (Return tt, s1)).
  { unfold AudioStream.update, s1, status. rewrite bind_get.
    destruct (AudioStream.soundStatus s); reflexivity. }
  assert (Hstatus : Stream.m_status (AudioStream.base s1) <> Playing).
  { unfold s1, status. cbn. destruct (AudioStream.soundStatus s); congruence. }
  destruct (Stream_flushBuffers_spec (AudioStream.base s1))
    as [b' [Hrun [Hq [_ [_ [Hlog _]]]]]].
  assert (Hquiet : Status_eqb (Stream.m_status (AudioStream.base s1)) Playing = false).
  { destruct (Stream.m_status (AudioStream.base s1)); [reflexivity | reflexivity | congruence]. }
  rewrite Hquiet, app_nil_r in Hlog.
  exists s1. 
  assert (Hsound1 : AudioStream.soundStatus s1 = AudioStream.soundStatus s) by reflexivity.
  unfold AudioStream.flushBuffers. rewrite bind_get, Hsound1.
  destruct (AudioStream.soundStatus s) eqn:Hst; [| |congruence]; cbn [sf.Status_eqb negb].
  - rewrite bind_CHECK_true, bind_ret_l, bind_modify.
    unfold AudioStream.onBase, lift.
    cbn [AudioStream.base AudioStream.set_extraAudioTime]. rewrite Hrun.
    eexists. repeat split; try assumption.
  - rewrite bind_CHECK_true. unfold AudioStream.soundStream_stop.
    rewrite bind_modify, bind_modify.
    unfold AudioStream.onBase, lift.
    cbn [AudioStream.base AudioStream.set_extraAudioTime AudioStream.set_soundStatus].
    rewrite Hrun.
    eexists. repeat split; try assumption.
Qed.

(** X12.  [didPlay] throws, and leaves the stream as it was, unless the
    sound is playing; when it returns, the status of the stream is
    [Playing], the status [update] would give it, and [flushBuffers]
    refuses to run. *)
Theorem didPlay_needs_playing_sound (s : AudioStream.t) :
  (AudioStream.soundStatus s <> sf.Playing
   /\ AudioStream.didPlay s
      = (Throw "AudioStream::didPlay() - willPlay() not executed!", s))
  \/ (exists s1,
        AudioStream.didPlay s = (Return tt, s1)
        /\ Stream.m_status (AudioStream.base s1) = Playing
        /\ AudioStream.update s1 = (Return tt, s1)
        /\ AudioStream.flushBuffers s1
           = (Throw "Trying to flush while audio is playing, this will introduce an audio glitch!",
              s1)).
Proof.
  unfold AudioStream.didPlay. rewrite bind_get.
  destruct (AudioStream.soundStatus s) eqn:Hsound; cbn [sf.Status_eqb].
  - left. split; [discriminate | reflexivity].
  - left. split; [discriminate | reflexivity].
  - right. rewrite bind_CHECK_true. eexists. split; [reflexivity|].
    split; [reflexivity|]. split.
    + unfold AudioStream.update. rewrite bind_get. cbn. rewrite Hsound.
      destruct s as [b sound rate frame swr dstNb maxDstNb channels block hp extra sent cop].
      destruct b. reflexivity.
    + apply flushBuffers_while_sound_playing. cbn. exact Hsound.
Qed.

End StatusOfTheSound.

(** The paused stream of the scenario, whose [Stream] status still says
    [Playing]. *)
Lemma update_then_flushBuffers_is_silent_witness :
  exists s1 s2,
    AudioStream.update Scenario.paused = (Return tt, s1)
    /\ Stream.m_status (AudioStream.base s1) <> Playing
    /\ AudioStream.flushBuffers s1 = (Return tt, s2)
    /\ Stream.m_packetList (AudioStream.base s2) = []
    /\ Stream.log (AudioStream.base s2) = Stream.log (AudioStream.base Scenario.paused).
Proof.
  apply (update_then_flushBuffers_is_silent Scenario.paused).
  discriminate.
Defined.

(** ** [AudioStream::resampleFrame]: what a call that returns has done *)

Section ResampledFrame.
Context {DS : DataSource} {AV : LibAV}.
Import Decoding.

Lemma bind_Return_inv {S A B} (c : M S A) (k : A -> M S B) (s s' : S) (b : B) :
  bind c k s = (Return b, s') ->
  exists a s1, c s = (Return a, s1) /\ k a s1 = (Return b, s').
Proof.
  unfold bind. destruct (c s) as [[a| | |] s1]; try discriminate.
  intros H. exists a, s1. auto.
Qed.

(** A size in bytes that is not an error is that of [nb_samples] samples
    in each of [nb_channels] channels, both above zero. *)
Lemma buffer_size_samples (nb_channels nb_samples : Z) :
  0 <= av_samples_get_buffer_size_S16 nb_channels nb_samples ->
  0 < nb_samples /\ 0 < nb_channels
  /\ Z.quot (av_samples_get_buffer_size_S16 nb_channels nb_samples)
            av_get_bytes_per_sample_S16
     = nb_samples * nb_channels.
Proof.
  unfold av_samples_get_buffer_size_S16, AVERROR, EINVAL, av_get_bytes_per_sample_S16.
  destruct ((nb_samples <=? 0) || (nb_channels <=? 0)) eqn:H1; [lia|].
  apply orb_false_elim in H1. destruct H1 as [Hn Hc]. apply Z.leb_gt in Hn, Hc.
  destruct ((Int.INT_MAX <? nb_channels)
            || ((Int.INT_MAX - nb_channels) / 2 <? nb_channels * nb_samples)); [lia|].
  intros _. split; [exact Hn|]. split; [exact Hc|].
  replace (nb_samples * 2 * nb_channels) with (nb_samples * nb_channels * 2) by ring.
  apply Z.quot_mul. lia.
Qed.

Lemma resampleFrame_returns
    (frame : option AVFrame) (s s' : AudioStream.t) (buffer : option Z) (count : Z) :
  AudioStream.resampleFrame frame s = (Return (buffer, count), s') ->
  exists swr f,
    AudioStream.m_swrCtx s = Some swr /\ frame = Some f
    /\ (AudioStream.base s' = AudioStream.base s
        /\ AudioStream.m_sampleRatePerChannel s' = AudioStream.m_sampleRatePerChannel s
        /\ AudioStream.copied s' = AudioStream.copied s
        /\ AudioStream.m_extraAudioTime s' = AudioStream.m_extraAudioTime s
        /\ AudioStream.m_dstNbChannels s' = AudioStream.m_dstNbChannels s)
    /\ AudioStream.m_dstNbSamples s' = wantedSamples swr f
    /\ ((AudioStream.m_maxDstNbSamples s' = AudioStream.m_maxDstNbSamples s
         /\ AudioStream.m_dstData s' = AudioStream.m_dstData s
         /\ wantedSamples swr f <= AudioStream.m_maxDstNbSamples s)
        \/ (AudioStream.m_maxDstNbSamples s < wantedSamples swr f
            /\ AudioStream.m_maxDstNbSamples s' = wantedSamples swr f
            /\ AudioStream.m_dstData s' = Some (wantedSamples swr f)))
    /\ buffer = option_map (fun _ => 0) (AudioStream.m_dstData s')
    /\ 0 < Int.to_int (fst (swr_convert swr (wantedSamples swr f) f))
    /\ 0 < AudioStream.m_dstNbChannels s
    /\ count = Int.to_int (fst (swr_convert swr (wantedSamples swr f) f))
               * AudioStream.m_dstNbChannels s.
Proof.
  unfold AudioStream.resampleFrame. rewrite bind_get.
  destruct (AudioStream.m_swrCtx s) as [swr|] eqn:Hswr; cbn [notNull];
    [rewrite bind_CHECK_true | rewrite bind_CHECK_false; discriminate].
  destruct frame as [f|]; cbn [notNull];
    [rewrite bind_CHECK_true | rewrite bind_CHECK_false; discriminate].
  fold (wantedSamples swr f). set (dst := wantedSamples swr f).
  rewrite bind_modify.
  intros Hrun. exists swr, f. split; [reflexivity|]. split; [reflexivity|].
  destruct (AudioStream.m_maxDstNbSamples s <? dst) eqn:Hlarger.
  - apply Z.ltb_lt in Hlarger.
    rewrite bind_assoc, bind_modify, bind_assoc, bind_get in Hrun.
    cbn [AudioStream.heap AudioStream.m_dstNbChannels AudioStream.set_dstData
         AudioStream.set_dstNbSamples] in Hrun.
    destruct (av_samples_alloc (AudioStream.heap s) (AudioStream.m_dstNbChannels s) dst)
      as [err h].
    rewrite bind_assoc, bind_put, bind_assoc in Hrun.
    destruct (0 <=? err); [rewrite bind_CHECK_true in Hrun
                          | rewrite bind_CHECK_false in Hrun; discriminate].
    rewrite bind_assoc, bind_modify, bind_modify in Hrun.
    destruct (swr_convert swr dst f) as [converted swr'] eqn:Hconv.
    rewrite bind_modify in Hrun.
    destruct (0 <=? Int.to_int converted); [rewrite bind_CHECK_true in Hrun
                          | rewrite bind_CHECK_false in Hrun; discriminate].
    rewrite bind_get in Hrun.
    cbn [AudioStream.m_dstNbChannels AudioStream.set_swrCtx AudioStream.set_maxDstNbSamples
         AudioStream.set_dstData AudioStream.set_heap AudioStream.set_dstNbSamples
         AudioStream.m_dstData] in Hrun.
    destruct (0 <=? av_samples_get_buffer_size_S16 (AudioStream.m_dstNbChannels s)
                      (Int.to_int converted)) eqn:Hsize;
      [rewrite bind_CHECK_true in Hrun | rewrite bind_CHECK_false in Hrun; discriminate].
    apply Z.leb_le in Hsize.
    destruct (buffer_size_samples _ _ Hsize) as [Hc [Hch Hcount]].
    unfold ret in Hrun. injection Hrun as <- <- <-.
    cbn. rewrite Hcount. fold dst. rewrite Hconv. cbn [fst].
    split; [auto 10|]. split; [reflexivity|]. split; [right; auto | auto 10].
  - apply Z.ltb_ge in Hlarger.
    rewrite bind_ret_l in Hrun.
    destruct (swr_convert swr dst f) as [converted swr'] eqn:Hconv.
    rewrite bind_modify in Hrun.
    destruct (0 <=? Int.to_int converted); [rewrite bind_CHECK_true in Hrun
                          | rewrite bind_CHECK_false in Hrun; discriminate].
    rewrite bind_get in Hrun.
    cbn [AudioStream.m_dstNbChannels AudioStream.set_swrCtx AudioStream.set_maxDstNbSamples
         AudioStream.set_dstData AudioStream.set_heap AudioStream.set_dstNbSamples
         AudioStream.m_dstData] in Hrun.
    destruct (0 <=? av_samples_get_buffer_size_S16 (AudioStream.m_dstNbChannels s)
                      (Int.to_int converted)) eqn:Hsize;
      [rewrite bind_CHECK_true in Hrun | rewrite bind_CHECK_false in Hrun; discriminate].
    apply Z.leb_le in Hsize.
    destruct (buffer_size_samples _ _ Hsize) as [Hc [Hch Hcount]].
    unfold ret in Hrun. injection Hrun as <- <- <-.
    cbn. rewrite Hcount. fold dst. rewrite Hconv. cbn [fst].
    split; [auto 10|]. split; [reflexivity|]. split; [left; auto | auto 10].
Qed.

(** X13.  Whenever [resampleFrame] returns on a stream whose block was
    allocated for the capacity [m_maxDstNbSamples], as [initResampler]
    and [resampleFrame] itself leave it, the stream has a resampler and
    the frame is not null; the resampler was asked for the samples of
    the frame and of its own delay, [wantedSamples], which are no more
    than the capacity; the block is still the one allocated for the
    capacity and the buffer returned is its start; and the number of
    samples returned is what [swr_convert] answered for this resampler,
    this frame and this number of samples, which is above zero, times
    the number of channels: a whole number of sample-frames, above
    zero.  The queue, the decoder and the log are as they were. *)
Theorem resampleFrame_returns_whole_frames
    (frame : option AVFrame) (s s' : AudioStream.t) (buffer : option Z) (count : Z) :
  AudioStream.m_dstData s = Some (AudioStream.m_maxDstNbSamples s) ->
  AudioStream.resampleFrame frame s = (Return (buffer, count), s') ->
  exists swr f,
    AudioStream.m_swrCtx s = Some swr
    /\ frame = Some f
    /\ buffer = Some 0
    /\ AudioStream.m_dstData s' = Some (AudioStream.m_maxDstNbSamples s')
    /\ AudioStream.m_dstNbSamples s' = wantedSamples swr f
    /\ AudioStream.m_dstNbSamples s' <= AudioStream.m_maxDstNbSamples s'
    /\ AudioStream.base s' = AudioStream.base s
    /\ AudioStream.m_dstNbChannels s' = AudioStream.m_dstNbChannels s
    /\ 0 < AudioStream.m_dstNbChannels s'
    /\ 0 < Int.to_int (fst (swr_convert swr (wantedSamples swr f) f))
    /\ count = Int.to_int (fst (swr_convert swr (wantedSamples swr f) f))
               * AudioStream.m_dstNbChannels s'
    /\ 0 < count.
Proof.
  intros Hblock Hrun.
  destruct (resampleFrame_returns frame s s' buffer count Hrun)
    as [swr [f [Hswr [Hframe [[Hbase [_ [_ [_ Hchannels]]]] [Hdst [Hcapacity
         [Hbuffer [Hconverted [Hpositive Hcount]]]]]]]]]].
  assert (Hsame : AudioStream.m_dstData s' = Some (AudioStream.m_maxDstNbSamples s')
                  /\ AudioStream.m_dstNbSamples s' <= AudioStream.m_maxDstNbSamples s').
  { destruct Hcapacity as [[Hmax [Hdata Hle]]|[Hlt [Hmax Hdata]]].
    - rewrite Hdata, Hmax, Hdst. auto.
    - rewrite Hdata, Hmax, Hdst. split; [reflexivity | lia]. }
  destruct Hsame as [Hdata Hle].
  rewrite Hdata in Hbuffer. rewrite Hchannels.
  exists swr, f.
  repeat split; auto.
  subst count. nia.
Qed.

End ResampledFrame.

(** A frame of 960 samples on the stream of the scenario: the resampler
    converts the 960 samples it is asked for, and 1920 samples are
    returned for the two channels. *)
Lemma resampleFrame_returns_whole_frames_witness :
  let frame := {| nb_samples := 960; sample_rate := 48000 |} in
  let s' := snd (AudioStream.resampleFrame (Some frame) Scenario.seekable) in
  exists swr f,
    AudioStream.m_swrCtx Scenario.seekable = Some swr
    /\ Some frame = Some f
    /\ Some 0 = Some 0
    /\ AudioStream.m_dstData s' = Some (AudioStream.m_maxDstNbSamples s')
    /\ AudioStream.m_dstNbSamples s' = Decoding.wantedSamples swr f
    /\ AudioStream.m_dstNbSamples s' <= AudioStream.m_maxDstNbSamples s'
    /\ AudioStream.base s' = AudioStream.base Scenario.seekable
    /\ AudioStream.m_dstNbChannels s' = AudioStream.m_dstNbChannels Scenario.seekable
    /\ 0 < AudioStream.m_dstNbChannels s'
    /\ 0 < Int.to_int (fst (swr_convert swr (Decoding.wantedSamples swr f) f))
    /\ 1920 = Int.to_int (fst (swr_convert swr (Decoding.wantedSamples swr f) f))
              * AudioStream.m_dstNbChannels s'
    /\ 0 < 1920.
Proof.
  apply (resampleFrame_returns_whole_frames
           (Some {| nb_samples := 960; sample_rate := 48000 |}) Scenario.seekable).
  - reflexivity.
  - vm_compute. reflexivity.
Defined.

(** ** The samples [onGetData] drops after a seek *)

Section DiscardedSamples.
Context {DS : DataSource} {AV : LibAV}.

(** The time of a number of samples grows with that number. *)
Lemma time_of_samples_le (rate a b : Z) :
  0 < rate -> 0 <= a <= b ->
  1000000 * (a / 2) / rate <= 1000000 * (b / 2) / rate.
Proof.
  intros Hrate Hab. apply Z.div_le_mono; [lia|].
  apply Z.mul_le_mono_nonneg_l; [lia|]. apply Z.div_le_mono; lia.
Qed.

(** The time of the samples of a time is at most that time. *)
Lemma time_of_samples_of_time (rate t : Z) :
  0 < rate -> 0 <= t ->
  1000000 * (2 * (rate * t / 1000000) / 2) / rate <= t.
Proof.
  intros Hrate Ht.
  replace (2 * (rate * t / 1000000) / 2) with (rate * t / 1000000)
    by (symmetry; rewrite Z.mul_comm; apply Z.div_mul; lia).
  pose proof (Z.mul_div_le (rate * t) 1000000 ltac:(lia)) as Hlow.
  apply Z.div_le_upper_bound; lia.
Qed.

(** X14.  The samples dropped after a seek.  On a stream with a sample
    rate above zero and at most 1 MHz, for a frame of [samplesCount]
    samples and an extra time that is not negative and whose samples fit
    an [int], [discardExtra] always returns: none of its checks fails and
    it divides by no zero.  The samples it keeps are between none and the
    whole frame, the offset it returns is the size in bytes of the
    samples it dropped, the extra time that is left is not negative and
    not above what it was, and of a frame made of whole sample-frames
    it keeps whole sample-frames. *)
Theorem discardExtra_never_fails (samplesCount : Z) (s : AudioStream.t) :
  0 < AudioStream.m_sampleRatePerChannel s <= 1000000 ->
  0 < samplesCount < 2 ^ 30 ->
  0 <= AudioStream.m_extraAudioTime s ->
  2 * AudioStream.m_sampleRatePerChannel s * AudioStream.m_extraAudioTime s / 1000000
  <= Int.INT_MAX ->
  exists offset left s',
    AudioStream.discardExtra samplesCount s = (Return (offset, left), s')
    /\ 0 <= left <= samplesCount
    /\ offset = AudioStream.BytesPerSample * (samplesCount - left)
    /\ 0 <= AudioStream.m_extraAudioTime s' <= AudioStream.m_extraAudioTime s
    /\ (Z.rem samplesCount AudioStream.getStereoChannelCount = 0 ->
        Z.rem left AudioStream.getStereoChannelCount = 0).
Proof.
  intros Hrate Hcount Hextra Hfits.
  change (2 ^ 30) with 1073741824 in Hcount.
  assert (Hstereo : 2 * AudioStream.m_sampleRatePerChannel s <= Int.INT_MAX).
  { unfold Int.INT_MAX. change (2 ^ 31 - 1) with 2147483647. lia. }
  unfold AudioStream.discardExtra, AudioStream.BytesPerSample,
    AudioStream.getStereoChannelCount.
  rewrite bind_get.
  destruct (sf.Zero <? AudioStream.m_extraAudioTime s) eqn:Hpositive;
    [|exists 0, samplesCount, s; split; [reflexivity|]; repeat split; lia].
  apply Z.ltb_lt in Hpositive. unfold sf.Zero in Hpositive.
  rewrite (bind_Return _ _ _ _ _ (timeToSamples_run s _ (proj1 Hrate) Hstereo Hextra Hfits)).
  set (rate := AudioStream.m_sampleRatePerChannel s) in *.
  set (extra := AudioStream.m_extraAudioTime s) in *.
  set (k := rate * extra / 1000000).
  assert (Hk : 0 <= k) by (apply Z.div_pos; nia).
  set (logged := AudioStream.set_base
                   (Stream.set_log
                      (Stream.log (AudioStream.base s) ++ [(LogDebug, CannotDiscardAll)])
                      (AudioStream.base s)) s).
  set (toDiscard := if samplesCount <? 2 * k then samplesCount else 2 * k).
  set (s1 := if samplesCount <? 2 * k then logged else s).
  assert (Hchoice : (if samplesCount <? 2 * k
                     then bind (AudioStream.sfeLog LogDebug CannotDiscardAll)
                               (fun _ => ret samplesCount)
                     else ret (2 * k)) s = (Return toDiscard, s1)).
  { unfold toDiscard, s1. destruct (samplesCount <? 2 * k); reflexivity. }
  rewrite (bind_Return _ _ _ _ _ Hchoice).
  assert (Hrate1 : AudioStream.m_sampleRatePerChannel s1 = rate).
  { unfold s1, logged. destruct (samplesCount <? 2 * k); reflexivity. }
  assert (Hdiscard : 0 <= toDiscard <= samplesCount /\ toDiscard <= 2 * k
                     /\ (Z.rem samplesCount 2 = 0 -> Z.rem toDiscard 2 = 0)).
  { unfold toDiscard. destruct (samplesCount <? 2 * k) eqn:E.
    - apply Z.ltb_lt in E. repeat split; auto; lia.
    - apply Z.ltb_ge in E. repeat split; try lia.
      intros _. rewrite Z.mul_comm. apply Z.rem_mul. lia. }
  destruct Hdiscard as [Hrange [Hwanted Heven]].
  clearbody toDiscard s1. clear Hchoice logged.
  destruct ((toDiscard <? 2) && (0 <? samplesCount)) eqn:Hsmall.
  - exists 0, samplesCount. eexists. split; [reflexivity|].
    cbn [AudioStream.m_extraAudioTime AudioStream.set_extraAudioTime AudioStream.set_base].
    unfold sf.Zero. repeat split; lia || auto.
  - assert (Hbig : 2 <= toDiscard).
    { apply andb_false_iff in Hsmall. destruct Hsmall as [H|H]; apply Z.ltb_ge in H; lia. }
    assert (Hwhole : AudioStream.samplesToTime samplesCount s1
                     = (Return (1000000 * (samplesCount / 2) / rate), s1)).
    { rewrite <- Hrate1. apply samplesToTime_run; [lia|].
      unfold Int.INT_MAX. change (2 ^ 31 - 1) with 2147483647. lia. }
    assert (Hpart : AudioStream.samplesToTime toDiscard s1
                    = (Return (1000000 * (toDiscard / 2) / rate), s1)).
    { rewrite <- Hrate1. apply samplesToTime_run; [lia|].
      unfold Int.INT_MAX. change (2 ^ 31 - 1) with 2147483647. lia. }
    set (whole := 1000000 * (samplesCount / 2) / rate) in *.
    set (part := 1000000 * (toDiscard / 2) / rate) in *.
    assert (Hpart_le : part <= extra).
    { apply Z.le_trans with (1000000 * (2 * k / 2) / rate).
      - apply time_of_samples_le; lia.
      - apply time_of_samples_of_time; lia. }
    assert (Hpart_pos : 0 <= part).
    { apply Z.div_pos; [|lia]. apply Z.mul_nonneg_nonneg; [lia|]. apply Z.div_pos; lia. }
    assert (Hwhole_pos : 1 <= whole).
    { apply Z.div_le_lower_bound; [lia|].
      assert (1 <= samplesCount / 2) by (apply Z.div_le_lower_bound; lia). lia. }
    rewrite (bind_Return _ _ _ _ _ Hwhole).
    unfold sf.asMicroseconds.
    assert (Hnz : (whole =? 0) = false) by (apply Z.eqb_neq; lia).
    rewrite Hnz, bind_ret_l.
    assert (Hcheck : (Z.quot toDiscard (Z.max samplesCount toDiscard) - Z.quot extra whole <=? 0)
                     = true).
    { apply Z.leb_le. rewrite Z.max_l by lia.
      rewrite (Z.quot_div_nonneg extra whole) by lia.
      destruct (Z.eq_dec toDiscard samplesCount) as [Hall|Hsome].
      - rewrite Hall, Z.quot_same by lia.
        assert (1 <= extra / whole); [|lia].
        apply Z.div_le_lower_bound; [lia|].
        rewrite Z.mul_1_r. unfold whole. rewrite <- Hall. exact Hpart_le.
      - rewrite Z.quot_small by lia.
        assert (0 <= extra / whole) by (apply Z.div_pos; lia). lia. }
    rewrite Hcheck, bind_CHECK_true, (bind_Return _ _ _ _ _ Hpart), bind_modify.
    eexists. eexists. eexists. split; [reflexivity|].
    cbn [AudioStream.m_extraAudioTime AudioStream.set_extraAudioTime].
    rewrite !to_int_fits
      by (unfold Int.fits_int, Int.INT_MIN, Int.INT_MAX; change (2 ^ 31) with 2147483648; lia).
    unfold sf.sub. rewrite to_int64_fits.
    + repeat split; try lia.
      intros Hc. specialize (Heven Hc).
      rewrite Z.rem_mod_nonneg in * by lia.
      rewrite Zminus_mod, Hc, Heven. reflexivity.
    + unfold Int.fits_int64, Int.INT64_MIN, Int.INT64_MAX.
      change (2 ^ 63) with 9223372036854775808.
      assert (extra < 9223372036854775808); [|lia].
      unfold Int.INT_MAX in Hfits. change (2 ^ 31 - 1) with 2147483647 in Hfits.
      pose proof (Z.div_mod (2 * rate * extra) 1000000 ltac:(lia)) as Hdm.
      pose proof (Z.mod_pos_bound (2 * rate * extra) 1000000 ltac:(lia)) as Hmb.
      nia.
Qed.

End DiscardedSamples.

(** The stream of the scenario with 5 ms left to drop and a frame of 960
    sample-frames. *)
Lemma discardExtra_never_fails_witness :
  exists offset left s',
    AudioStream.discardExtra 1920 (AudioStream.set_extraAudioTime 5000 Scenario.seekable)
    = (Return (offset, left), s')
    /\ 0 <= left <= 1920
    /\ offset = AudioStream.BytesPerSample * (1920 - left)
    /\ 0 <= AudioStream.m_extraAudioTime s'
         <= AudioStream.m_extraAudioTime
              (AudioStream.set_extraAudioTime 5000 Scenario.seekable)
    /\ (Z.rem 1920 AudioStream.getStereoChannelCount = 0 ->
        Z.rem left AudioStream.getStereoChannelCount = 0).
Proof.
  apply (discardExtra_never_fails 1920
           (AudioStream.set_extraAudioTime 5000 Scenario.seekable)).
  - split; vm_compute; [reflexivity | discriminate].
  - split; vm_compute; reflexivity.
  - vm_compute. discriminate.
  - vm_compute. discriminate.
Defined.

(** ** Methods that keep a relation between the states *)

Section Keeping.
Context {S : Type} (R : S -> S -> Prop).
Hypothesis Rrefl : forall s, R s s.
Hypothesis Rtrans : forall a b c, R a b -> R b c -> R a c.
Import Decoding.

Lemma keeps_ret {A} (a : A) : keeps R (ret a).
Proof. intros s a' s' H. injection H as _ <-. apply Rrefl. Qed.

Lemma keeps_get : keeps R get.
Proof. intros s a' s' H. injection H as _ <-. apply Rrefl. Qed.

Lemma keeps_CHECK (value : bool) (message : string) : keeps R (CHECK value message).
Proof. intros s a' s' H. destruct value; [|discriminate]. injection H as _ <-. apply Rrefl. Qed.

Lemma keeps_undefined {A} (why : string) : keeps R (undefined (A:=A) why).
Proof. intros s a' s' H. discriminate. Qed.

Lemma keeps_timeout {A} : keeps R (timeout (A:=A)).
Proof. intros s a' s' H. discriminate. Qed.

Lemma keeps_modify (f : S -> S) : (forall s, R s (f s)) -> keeps R (modify f).
Proof. intros Hf s a' s' H. injection H as _ <-. apply Hf. Qed.

Lemma keeps_bind {A B} (c : M S A) (k : A -> M S B) :
  keeps R c -> (forall a, keeps R (k a)) -> keeps R (bind c k).
Proof.
  intros Hc Hk s b s' H. apply bind_Return_inv in H. destruct H as [a [s1 [H1 H2]]].
  apply (Rtrans _ s1); [exact (Hc _ _ _ H1) | exact (Hk _ _ _ _ H2)].
Qed.

End Keeping.

(** Two steps in sequence, each with its own relation. *)
Lemma keeps_seq {S A B} (R1 R2 R3 : S -> S -> Prop) (c : M S A) (k : A -> M S B) :
  (forall a b c, R1 a b -> R2 b c -> R3 a c) ->
  Decoding.keeps R1 c -> (forall a, Decoding.keeps R2 (k a)) -> Decoding.keeps R3 (bind c k).
Proof.
  intros Hcomp Hc Hk s b s' H. apply bind_Return_inv in H. destruct H as [a [s1 [H1 H2]]].
  apply (Hcomp _ s1); [exact (Hc _ _ _ H1) | exact (Hk _ _ _ _ H2)].
Qed.

(** ** [AudioStream::onGetData]: the packets of a chunk *)

Section PacketsOfAChunk.
Context {DS : DataSource} {AV : LibAV}.
Import Decoding Seek.

Lemma copiedMore_refl (s : AudioStream.t) : copiedMore 0 s s.
Proof. unfold copiedMore. rewrite Nat.add_0_r. auto 10. Qed.

Lemma copiedMore_trans (n m : nat) (a b c : AudioStream.t) :
  copiedMore n a b -> copiedMore m b c -> copiedMore (n + m) a c.
Proof.
  unfold copiedMore.
  intros [H1 [H2 [H3 [H4 [H5 [H6 H7]]]]]] [K1 [K2 [K3 [K4 [K5 [K6 K7]]]]]].
  repeat split; try congruence. lia.
Qed.

Lemma copiedMore_trans0 (a b c : AudioStream.t) :
  copiedMore 0 a b -> copiedMore 0 b c -> copiedMore 0 a c.
Proof. apply (copiedMore_trans 0 0). Qed.

Lemma keeps_sfeLog (level : LogLevel) (message : LogMessage) :
  keeps (copiedMore 0) (AudioStream.sfeLog level message).
Proof.
  intros s a s' H. rewrite sfeLog_run in H. injection H as _ <-.
  unfold copiedMore. cbn. rewrite Nat.add_0_r. auto 10.
Qed.

Lemma keeps_timeToSamples (t : sf.Time) : keeps (copiedMore 0) (AudioStream.timeToSamples t).
Proof.
  intros s a s' H. pose proof (timeToSamples_state t s) as Hs. rewrite H in Hs.
  cbn in Hs. subst s'. apply copiedMore_refl.
Qed.

Lemma keeps_samplesToTime (n : Z) : keeps (copiedMore 0) (AudioStream.samplesToTime n).
Proof.
  intros s a s' H. pose proof (samplesToTime_state n s) as Hs. rewrite H in Hs.
  cbn in Hs. subst s'. apply copiedMore_refl.
Qed.

Lemma keeps_resampleFrame (frame : option AVFrame) :
  keeps (copiedMore 0) (AudioStream.resampleFrame frame).
Proof.
  intros s [buffer count] s' H.
  destruct (resampleFrame_returns frame s s' buffer count H)
    as [swr [f [_ [_ [[Hb [Hr [Hc _]]] _]]]]].
  unfold copiedMore. rewrite Hb, Hr, Hc, Nat.add_0_r. auto 10.
Qed.

Ltac keeps_steps :=
  repeat first
    [ apply keeps_sfeLog
    | apply keeps_timeToSamples
    | apply keeps_samplesToTime
    | apply keeps_resampleFrame
    | apply (keeps_ret _ copiedMore_refl)
    | apply (keeps_get _ copiedMore_refl)
    | apply (keeps_CHECK _ copiedMore_refl)
    | apply keeps_undefined
    | apply keeps_timeout
    | apply (keeps_bind _ copiedMore_trans0); [|intro]
    | match goal with
      | |- keeps _ (if ?c then _ else _) => destruct c
      end ].

Lemma keeps_discardExtra (samplesCount : Z) :
  keeps (copiedMore 0) (AudioStream.discardExtra samplesCount).
Proof.
  unfold AudioStream.discardExtra. cbv zeta. keeps_steps.
  - apply keeps_modify. intros s. unfold copiedMore. cbn. rewrite Nat.add_0_r. auto 10.
  - apply keeps_modify. intros s. unfold copiedMore. cbn. rewrite Nat.add_0_r. auto 10.
Qed.


Lemma keeps_appendFrame (data : AudioStream.Chunk) :
  keeps (copiedMore 1) (AudioStream.appendFrame data).
Proof.
  unfold AudioStream.appendFrame. cbv zeta.
  apply (keeps_seq (copiedMore 0) (copiedMore 1) (copiedMore 1) _ _ (copiedMore_trans 0 1));
    [keeps_steps | intro s0].
  apply (keeps_seq (copiedMore 0) (copiedMore 1) (copiedMore 1) _ _ (copiedMore_trans 0 1));
    [keeps_steps | intro resampled].
  do 4 (apply (keeps_seq (copiedMore 0) (copiedMore 1) (copiedMore 1) _ _
                 (copiedMore_trans 0 1)); [keeps_steps | intro]).
  apply (keeps_seq (copiedMore 0) (copiedMore 1) (copiedMore 1) _ _ (copiedMore_trans 0 1));
    [apply keeps_discardExtra | intro kept].
  apply (keeps_seq (copiedMore 1) (copiedMore 0) (copiedMore 1) _ _ (copiedMore_trans 1 0));
    [|intro; keeps_steps].
  apply keeps_modify. intros s. unfold copiedMore. cbn.
  rewrite length_app. cbn. auto 10.
Qed.

(** [decodePacket] always returns, asks for more decoding exactly when it
    got no frame, and has submitted the packet once. *)
Lemma decodePacket_returns (packet : AVPacket) (s : AudioStream.t) :
  exists gotFrame s',
    AudioStream.decodePacket packet s = (Return (negb gotFrame, gotFrame), s')
    /\ copiedMore 0 s s'
    /\ AudioStream.submitted s' = AudioStream.submitted s ++ [packet].
Proof.
  unfold AudioStream.decodePacket. rewrite bind_get.
  destruct (avcodec_send_packet (Stream.m_context (AudioStream.base s)) packet)
    as [sent ctx].
  rewrite bind_put.
  destruct (negb (sent =? 0)).
  - exists false. eexists. split; [reflexivity|].
    unfold copiedMore. cbn. rewrite Nat.add_0_r. auto 10.
  - rewrite bind_get.
    cbn [AudioStream.base AudioStream.set_base AudioStream.set_submitted
         Stream.m_context Stream.set_context].
    destruct (avcodec_receive_frame ctx) as [[received frame] ctx'].
    rewrite bind_put.
    destruct (negb (received =? 0)).
    + exists false. eexists. split; [reflexivity|].
      unfold copiedMore. cbn. rewrite Nat.add_0_r. auto 10.
    + exists true. eexists. split; [reflexivity|].
      unfold copiedMore. cbn. rewrite Nat.add_0_r. auto 10.
Qed.

(** The inner loop of [onGetData] returns once the packet has given one
    frame, which has been copied. *)
Lemma keeps_decodeWhileNeeded (fuel : nat) (packet : AVPacket) (data : AudioStream.Chunk) :
  keeps (copiedMore 1) (AudioStream.decodeWhileNeeded fuel packet data).
Proof.
  induction fuel as [|fuel IH]; intros s data' s' H; [discriminate|].
  cbn [AudioStream.decodeWhileNeeded] in H.
  destruct (decodePacket_returns packet s) as [gotFrame [s1 [Hdecode [Hsame _]]]].
  rewrite (bind_Return _ _ _ _ _ Hdecode) in H. cbv zeta in H. cbn [fst snd] in H.
  destruct gotFrame; cbn [negb] in H.
  - apply bind_Return_inv in H. destruct H as [d [s2 [Happend Hret]]].
    injection Hret as _ <-.
    apply (copiedMore_trans 0 1 s s1 s2 Hsame). exact (keeps_appendFrame data _ _ _ Happend).
  - rewrite bind_ret_l in H.
    apply (copiedMore_trans 0 1 s s1 s' Hsame). exact (IH _ _ _ H).
Qed.

Lemma popEncodedData_run (s : Stream.t) :
  Stream.popEncodedData s
  = match Stream.m_packetList (refilled s) with
    | front :: rest => (Return (Some front), Stream.set_packetList rest (refilled s))
    | [] =>
        if QueueOrder.hasDelay (refilled s)
        then (Return (Some Stream.flushPacket),
              Stream.set_log
                (Stream.log (refilled s)
                   ++ [(LogDebug, SendingFlushPacket (Stream.getStreamKind (refilled s)))])
                (refilled s))
        else (Return None, refilled s)
    end.
Proof.
  unfold Stream.popEncodedData.
  rewrite bind_get, (bind_Return _ _ _ _ _ (refill_run s)), bind_get.
  destruct (Stream.m_packetList (refilled s)); [|reflexivity].
  unfold QueueOrder.hasDelay.
  destruct (negb (Z.land (Stream.m_codec_capabilities (refilled s)) AV_CODEC_CAP_DELAY =? 0));
    reflexivity.
Qed.

Lemma hasDelay_refilled (b : Stream.t) :
  QueueOrder.hasDelay (refilled b) = QueueOrder.hasDelay b.
Proof.
  unfold QueueOrder.hasDelay.
  destruct (refilled_members b) as [_ [_ [_ [_ [_ [Hcaps _]]]]]]. rewrite Hcaps. reflexivity.
Qed.

(** A turn of the loop of [onGetData] once [popEncodedData] has given the
    packet [p]: the inner loop, the release of the packet, and the turns
    that follow, which [later] describes. *)
Lemma fillChunk_turn
    (fuel : nat) (p : AVPacket) (data : AudioStream.Chunk) (s1 : AudioStream.t)
    (packet' : option AVPacket) (data' : AudioStream.Chunk) (s' : AudioStream.t) :
  (forall packet data s packet' data' s',
      AudioStream.fillChunk fuel packet data s = (Return (packet', data'), s') ->
      exists popped, consumed popped s s' /\ ended packet data s popped packet' data' s') ->
  bind (AudioStream.decodeWhileNeeded fuel p data)
       (fun data => bind (AudioStream.onBase (Stream.av_packet_unref p))
                         (fun _ => AudioStream.fillChunk fuel (Some p) data)) s1
  = (Return (packet', data'), s') ->
  exists popped,
    consumed (p :: popped) 
      (AudioStream.set_base
         (Stream.set_packetList (p :: Stream.m_packetList (AudioStream.base s1))
            (AudioStream.base s1)) s1) s'
    /\ match packet' with
       | Some q => oneSecond s1 <= AudioStream.sampleCount data' /\ In q (p :: popped)
       | None => Stream.m_packetList (AudioStream.base s') = []
                 /\ QueueOrder.hasDelay (AudioStream.base s1) = false
       end.
Proof.
  intros later H.
  apply bind_Return_inv in H. destruct H as [data1 [s2 [Hinner H]]].
  pose proof (keeps_decodeWhileNeeded fuel p data _ _ _ Hinner)
    as [Hrate [Hqueue [Hreleased [Hcaps [_ [_ Hcopied]]]]]].
  rewrite bind_unfold, onBase_run in H. cbn [fst snd Stream.av_packet_unref modify] in H.
  destruct (later _ _ _ _ _ _ H) as [popped [[Krate [Kcaps [Kreleased [Kcopied Kqueue]]]] Kend]].
  cbn [AudioStream.base AudioStream.set_base AudioStream.m_sampleRatePerChannel
       AudioStream.copied Stream.released Stream.set_released Stream.m_codec_capabilities
       Stream.m_packetList] in Krate, Kcaps, Kreleased, Kcopied, Kqueue.
  exists popped. split.
  - unfold consumed.
    cbn [AudioStream.base AudioStream.set_base AudioStream.m_sampleRatePerChannel
         AudioStream.copied Stream.released Stream.set_packetList
         Stream.m_codec_capabilities Stream.m_packetList].
    repeat split.
    + congruence.
    + congruence.
    + rewrite Kreleased, Hreleased, <- app_assoc. reflexivity.
    + rewrite Kcopied, Hcopied. cbn [List.length]. lia.
    + intros Hdelay.
      destruct Kqueue as [fetched Hfetched].
      { unfold QueueOrder.hasDelay in *.
        cbn [AudioStream.base AudioStream.set_base Stream.m_codec_capabilities
             Stream.set_released] in *.
        rewrite Hcaps. exact Hdelay. }
      exists fetched. cbn [app]. rewrite Hfetched, Hqueue. reflexivity.
  - unfold ended, oneSecond, QueueOrder.hasDelay in *.
    cbn [AudioStream.base AudioStream.set_base AudioStream.m_sampleRatePerChannel
         Stream.set_released Stream.m_codec_capabilities] in Kend.
    rewrite Hrate, Hcaps in Kend.
    destruct packet' as [q|].
    + destruct Kend as [Hfull [[Hsame _]|Hin]]; split; try exact Hfull.
      * injection Hsame as <-. left. reflexivity.
      * right. exact Hin.
    + destruct Kend as [Hempty|[Hnone _]]; [exact Hempty | discriminate].
Qed.


Lemma fillChunk_returns (fuel : nat) :
  forall packet data s packet' data' s',
    AudioStream.fillChunk fuel packet data s = (Return (packet', data'), s') ->
    exists popped, consumed popped s s' /\ ended packet data s popped packet' data' s'.
Proof.
  induction fuel as [|fuel IH]; intros packet data s packet' data' s' H; [discriminate|].
  cbn [AudioStream.fillChunk] in H. rewrite bind_get in H. fold (oneSecond s) in H.
  destruct (AudioStream.sampleCount data <? oneSecond s) eqn:Hbelow.
  - rewrite bind_unfold, onBase_run, popEncodedData_run in H.
    destruct (refilled_members (AudioStream.base s))
      as [_ [_ [Hreleased [_ [_ [Hcaps [[fetched Hfetched] _]]]]]]].
    pose proof (hasDelay_refilled (AudioStream.base s)) as Hdelay.
    set (b := refilled (AudioStream.base s)) in *.
    assert (Hturn : forall p b1,
               Stream.released b1 = Stream.released b ->
               Stream.m_codec_capabilities b1 = Stream.m_codec_capabilities b ->
               (QueueOrder.hasDelay b = false ->
                p :: Stream.m_packetList b1 = Stream.m_packetList b) ->
               bind (AudioStream.decodeWhileNeeded fuel p data)
                    (fun data => bind (AudioStream.onBase (Stream.av_packet_unref p))
                                      (fun _ => AudioStream.fillChunk fuel (Some p) data))
                    (AudioStream.set_base b1 s)
               = (Return (packet', data'), s') ->
               exists popped,
                 consumed popped s s' /\ ended packet data s popped packet' data' s').
    { intros p b1 Hrel1 Hcaps1 Hqueue1 Hrun.
      destruct (fillChunk_turn fuel p data _ packet' data' s' IH Hrun)
        as [popped [[Krate [Kcaps [Kreleased [Kcopied Kqueue]]]] Kend]].
      cbn [AudioStream.base AudioStream.set_base AudioStream.m_sampleRatePerChannel
           AudioStream.copied Stream.released Stream.set_packetList
           Stream.m_codec_capabilities Stream.m_packetList] in Krate, Kcaps, Kreleased, Kcopied.
      assert (Hsame : QueueOrder.hasDelay b1 = QueueOrder.hasDelay (AudioStream.base s)).
      { rewrite <- Hdelay. unfold QueueOrder.hasDelay. rewrite Hcaps1. reflexivity. }
      exists (p :: popped). split.
      - unfold consumed. repeat split.
        + exact Krate.
        + congruence.
        + congruence.
        + exact Kcopied.
        + intros Hnone.
          destruct Kqueue as [later Hlater].
          { unfold QueueOrder.hasDelay in *.
            cbn [AudioStream.base AudioStream.set_base Stream.m_codec_capabilities
                 Stream.set_packetList] in *.
            rewrite Hcaps1, Hcaps. exact Hnone. }
          cbn [AudioStream.base AudioStream.set_base Stream.m_packetList
               Stream.set_packetList] in Hlater.
          exists (fetched ++ later).
          rewrite Hlater, Hqueue1 by (rewrite Hdelay; exact Hnone).
          rewrite Hfetched, app_assoc. reflexivity.
      - unfold ended. unfold oneSecond in *.
        cbn [AudioStream.base AudioStream.set_base AudioStream.m_sampleRatePerChannel] in Kend.
        destruct packet' as [q|].
        + destruct Kend as [Hfull Hin]. split; [exact Hfull | right; exact Hin].
        + left. destruct Kend as [Hempty Hnone]. split; [exact Hempty|].
          rewrite <- Hsame. exact Hnone. }
    destruct (Stream.m_packetList b) as [|front rest] eqn:Hq.
    + destruct (QueueOrder.hasDelay b) eqn:Hflush.
      * cbn [fst snd] in H.
        apply (Hturn Stream.flushPacket _) in H; [exact H | reflexivity | reflexivity|].
        discriminate.
      * cbn [fst snd] in H. injection H as <- <- <-.
        exists []. split.
        -- unfold consumed.
           cbn [AudioStream.base AudioStream.set_base AudioStream.m_sampleRatePerChannel
                AudioStream.copied].
           rewrite Hreleased, Hcaps, app_nil_r, Nat.add_0_r.
           repeat split. intros _. exists fetched.
           cbn [app]. rewrite Hq. exact Hfetched.
        -- left. cbn [AudioStream.base AudioStream.set_base]. rewrite <- Hdelay. auto.
    + cbn [fst snd] in H.
      apply (Hturn front _) in H; [exact H | reflexivity | reflexivity|].
      intros _. reflexivity.
  - injection H as <- <- <-. apply Z.ltb_ge in Hbelow.
    exists []. split.
    + unfold consumed. rewrite app_nil_r, Nat.add_0_r.
      repeat split. intros _. exists []. rewrite app_nil_r. reflexivity.
    + unfold ended. destruct packet as [p|]; auto 10.
Qed.

Lemma onGetData_returns
    (fuel : nat) (data : AudioStream.Chunk) (s : AudioStream.t)
    (result : bool) (data' : AudioStream.Chunk) (s' : AudioStream.t) :
  AudioStream.onGetData fuel data s = (Return (result, data'), s') ->
  exists packet' s1,
    AudioStream.fillChunk fuel None
      {| AudioStream.samples := true; AudioStream.sampleCount := AudioStream.sampleCount data |}
      s = (Return (packet', data'), s1)
    /\ result = notNull packet'
    /\ s' = (if result then s1
             else AudioStream.set_base
                    (Stream.set_log
                       (Stream.log (AudioStream.base s1) ++ [(LogDebug, NoMoreAudioPackets)])
                       (AudioStream.base s1)) s1).
Proof.
  unfold AudioStream.onGetData. cbv zeta. intros H.
  apply bind_Return_inv in H. destruct H as [[packet' data1] [s1 [Hfill H]]].
  cbn [fst snd] in H. exists packet', s1.
  destruct packet' as [p|]; cbn [notNull negb] in H.
  - rewrite bind_ret_l in H. injection H as <- <- <-. auto.
  - rewrite bind_unfold, sfeLog_run in H. cbn [ret] in H. injection H as <- <- <-. auto.
Qed.

Lemma oneSecond_exact (s : AudioStream.t) :
  0 < AudioStream.m_sampleRatePerChannel s ->
  2 * AudioStream.m_sampleRatePerChannel s <= Int.INT_MAX ->
  oneSecond s = 2 * AudioStream.m_sampleRatePerChannel s.
Proof.
  intros Hrate Hstereo. unfold oneSecond, AudioStream.getStereoChannelCount.
  unfold Int.INT_MAX in Hstereo. change (2 ^ 31 - 1) with 2147483647 in Hstereo.
  rewrite to_int_fits
    by (unfold Int.fits_int, Int.INT_MIN, Int.INT_MAX; change (2 ^ 31) with 2147483648; lia).
  apply to_size_t_small. change (2 ^ 64) with 18446744073709551616. lia.
Qed.

(** X15.  What the result of [onGetData] means, on a stream with a
    sample rate above zero whose double fits an [int].  When it returns
    [true] the chunk holds at least one second of sound,
    [2 * rate] samples, and at least one packet was released.  When it
    returns [false] the queue is empty, or the chunk held one second of
    sound from the start and nothing was done; the last line of the log
    says that no packet is left. *)
Theorem onGetData_true_means_one_second
    (fuel : nat) (data : AudioStream.Chunk) (s : AudioStream.t)
    (result : bool) (data' : AudioStream.Chunk) (s' : AudioStream.t) :
  0 < AudioStream.m_sampleRatePerChannel s ->
  2 * AudioStream.m_sampleRatePerChannel s <= Int.INT_MAX ->
  AudioStream.onGetData fuel data s = (Return (result, data'), s') ->
  if result then
    2 * AudioStream.m_sampleRatePerChannel s <= AudioStream.sampleCount data'
    /\ Stream.released (AudioStream.base s') <> Stream.released (AudioStream.base s)
  else
    (Stream.m_packetList (AudioStream.base s') = []
     \/ (2 * AudioStream.m_sampleRatePerChannel s <= AudioStream.sampleCount data
         /\ AudioStream.sampleCount data' = AudioStream.sampleCount data
         /\ Stream.released (AudioStream.base s') = Stream.released (AudioStream.base s)))
    /\ exists earlier,
         Stream.log (AudioStream.base s') = earlier ++ [(LogDebug, NoMoreAudioPackets)].
Proof.
  intros Hrate Hstereo H.
  destruct (onGetData_returns _ _ _ _ _ _ H) as [packet' [s1 [Hfill [Hresult Hs']]]].
  destruct (fillChunk_returns _ _ _ _ _ _ _ Hfill)
    as [popped [[_ [_ [Hreleased _]]] Hend]].
  unfold ended in Hend. rewrite (oneSecond_exact s Hrate Hstereo) in Hend.
  destruct packet' as [p|]; cbn [notNull] in Hresult; subst result; subst s'.
  - destruct Hend as [Hfull [[Hnone _]|Hin]]; [discriminate|].
    split; [exact Hfull|].
    rewrite Hreleased. intros Hsame.
    rewrite <- (app_nil_r (Stream.released (AudioStream.base s))) in Hsame at 2.
    apply app_inv_head in Hsame. subst popped. exact Hin.
  - cbn [AudioStream.base AudioStream.set_base Stream.m_packetList Stream.set_log
         Stream.log Stream.released].
    split; [|eexists; reflexivity].
    destruct Hend as [[Hempty _]|[_ [Hpopped [Hdata Hfull]]]]; [left; exact Hempty|].
    right. subst popped data'. rewrite app_nil_r in Hreleased. auto.
Qed.

(** X16.  Whenever [onGetData] returns, every packet it took from the
    queue gave exactly one frame to the buffer and was then released:
    there are packets [popped] which were added, in order, to the
    released packets, as many copies were made as there are packets in
    [popped], and, when the codec has no delay, [popped] followed by the
    queue that is left is the queue that was found followed by packets
    taken from the source. *)
Theorem onGetData_one_frame_per_packet
    (fuel : nat) (data : AudioStream.Chunk) (s : AudioStream.t)
    (result : bool) (data' : AudioStream.Chunk) (s' : AudioStream.t) :
  AudioStream.onGetData fuel data s = (Return (result, data'), s') ->
  exists popped,
    Stream.released (AudioStream.base s') = Stream.released (AudioStream.base s) ++ popped
    /\ List.length (AudioStream.copied s')
       = (List.length (AudioStream.copied s) + List.length popped)%nat
    /\ (QueueOrder.hasDelay (AudioStream.base s) = false ->
        exists fetched,
          popped ++ Stream.m_packetList (AudioStream.base s')
          = Stream.m_packetList (AudioStream.base s) ++ fetched).
Proof.
  intros H.
  destruct (onGetData_returns _ _ _ _ _ _ H) as [packet' [s1 [Hfill [_ Hs']]]].
  destruct (fillChunk_returns _ _ _ _ _ _ _ Hfill)
    as [popped [[_ [_ [Hreleased [Hcopied Hqueue]]]] _]].
  exists popped. subst s'. destruct result; auto.
Qed.

(** X17.  On a stream with nothing queued, whose source has nothing to
    give and whose codec has no delay, with a sample rate above zero
    whose double fits an [int], [onGetData] on a chunk of less than one
    second ([2 * rate] samples) returns [false] at once: the chunk
    points to the buffer and holds the samples it came with, nothing was
    decoded, copied or released, the source was asked once (never on a
    passive stream), and the log says that no packet is left. *)
Theorem onGetData_on_exhausted_stream
    (fuel : nat) (data : AudioStream.Chunk) (s : AudioStream.t) :
  Stream.m_packetList (AudioStream.base s) = [] ->
  fst (requestMoreData (Stream.m_dataSource (AudioStream.base s))) = [] ->
  QueueOrder.hasDelay (AudioStream.base s) = false ->
  0 < AudioStream.m_sampleRatePerChannel s ->
  2 * AudioStream.m_sampleRatePerChannel s <= Int.INT_MAX ->
  AudioStream.sampleCount data < 2 * AudioStream.m_sampleRatePerChannel s ->
  exists s',
    AudioStream.onGetData (S fuel) data s
    = (Return (false, {| AudioStream.samples := true;
                         AudioStream.sampleCount := AudioStream.sampleCount data |}), s')
    /\ AudioStream.submitted s' = AudioStream.submitted s
    /\ AudioStream.copied s' = AudioStream.copied s
    /\ Stream.released (AudioStream.base s') = Stream.released (AudioStream.base s)
    /\ Stream.m_packetList (AudioStream.base s') = []
    /\ Stream.requests (AudioStream.base s')
       = (if Stream.isPassive (AudioStream.base s)
          then Stream.requests (AudioStream.base s)
          else S (Stream.requests (AudioStream.base s)))
    /\ Stream.log (AudioStream.base s')
       = Stream.log (AudioStream.base s) ++ [(LogDebug, NoMoreAudioPackets)].
Proof.
  intros Hq Hsource Hdelay Hrate Hstereo Hbelow.
  rewrite <- (oneSecond_exact s Hrate Hstereo) in Hbelow.
  destruct (refilled_exhausted (AudioStream.base s) Hq Hsource) as [H1 [H2 [H3 H4]]].
  pose proof (hasDelay_refilled (AudioStream.base s)) as H5. rewrite Hdelay in H5.
  unfold AudioStream.onGetData. cbv zeta. cbn [AudioStream.fillChunk AudioStream.sampleCount].
  rewrite bind_assoc, bind_get. fold (oneSecond s).
  apply Z.ltb_lt in Hbelow. rewrite Hbelow.
  rewrite bind_assoc, bind_unfold, onBase_run, popEncodedData_run, H1, H5.
  cbn [fst snd]. rewrite bind_ret_l. cbn [fst snd notNull negb].
  rewrite bind_unfold, sfeLog_run. cbn [ret].
  eexists. split; [reflexivity|].
  cbn [AudioStream.base AudioStream.set_base AudioStream.submitted AudioStream.copied
       Stream.released Stream.m_packetList Stream.requests Stream.log Stream.set_log].
  rewrite H1, H2, H3, H4. auto 10.
Qed.

End PacketsOfAChunk.

(** The stream of the scenario with a hundred packets queued: fifty of
    them fill one second. *)
Lemma onGetData_true_means_one_second_witness :
  2 * AudioStream.m_sampleRatePerChannel Scenario.seekable
  <= AudioStream.sampleCount
       {| AudioStream.samples := true; AudioStream.sampleCount := 96000 |}
  /\ Stream.released
       (AudioStream.base (snd (AudioStream.onGetData 60 Scenario.emptyChunk Scenario.seekable)))
     <> Stream.released (AudioStream.base Scenario.seekable).
Proof.
  apply (onGetData_true_means_one_second 60 Scenario.emptyChunk Scenario.seekable true
           {| AudioStream.samples := true; AudioStream.sampleCount := 96000 |}
           (snd (AudioStream.onGetData 60 Scenario.emptyChunk Scenario.seekable))).
  - reflexivity.
  - vm_compute. discriminate.
  - vm_compute. reflexivity.
Defined.

(** The same call: fifty packets are released and fifty frames copied. *)
Lemma onGetData_one_frame_per_packet_witness :
  exists popped,
    Stream.released
      (AudioStream.base (snd (AudioStream.onGetData 60 Scenario.emptyChunk Scenario.seekable)))
    = Stream.released (AudioStream.base Scenario.seekable) ++ popped
    /\ List.length
         (AudioStream.copied (snd (AudioStream.onGetData 60 Scenario.emptyChunk Scenario.seekable)))
       = (List.length (AudioStream.copied Scenario.seekable) + List.length popped)%nat
    /\ (QueueOrder.hasDelay (AudioStream.base Scenario.seekable) = false ->
        exists fetched,
          popped ++ Stream.m_packetList
                      (AudioStream.base
                         (snd (AudioStream.onGetData 60 Scenario.emptyChunk Scenario.seekable)))
          = Stream.m_packetList (AudioStream.base Scenario.seekable) ++ fetched).
Proof.
  apply (onGetData_one_frame_per_packet 60 Scenario.emptyChunk Scenario.seekable true
           {| AudioStream.samples := true; AudioStream.sampleCount := 96000 |}).
  vm_compute. reflexivity.
Defined.

(** The stream of the scenario with nothing queued. *)
Lemma onGetData_on_exhausted_stream_witness :
  exists s',
    AudioStream.onGetData 1 Scenario.emptyChunk
      (Scenario.audioStream (ScriptedLibAV 960 48000 0) [] tt tt [])
    = (Return (false, {| AudioStream.samples := true;
                         AudioStream.sampleCount :=
                           AudioStream.sampleCount Scenario.emptyChunk |}), s')
    /\ AudioStream.submitted s'
       = AudioStream.submitted (Scenario.audioStream (ScriptedLibAV 960 48000 0) [] tt tt [])
    /\ AudioStream.copied s'
       = AudioStream.copied (Scenario.audioStream (ScriptedLibAV 960 48000 0) [] tt tt [])
    /\ Stream.released (AudioStream.base s')
       = Stream.released
           (AudioStream.base (Scenario.audioStream (ScriptedLibAV 960 48000 0) [] tt tt []))
    /\ Stream.m_packetList (AudioStream.base s') = []
    /\ Stream.requests (AudioStream.base s')
       = (if Stream.isPassive
               (AudioStream.base (Scenario.audioStream (ScriptedLibAV 960 48000 0) [] tt tt []))
          then Stream.requests
                 (AudioStream.base
                    (Scenario.audioStream (ScriptedLibAV 960 48000 0) [] tt tt []))
          else S (Stream.requests
                    (AudioStream.base
                       (Scenario.audioStream (ScriptedLibAV 960 48000 0) [] tt tt []))))
    /\ Stream.log (AudioStream.base s')
       = Stream.log
           (AudioStream.base (Scenario.audioStream (ScriptedLibAV 960 48000 0) [] tt tt []))
           ++ [(LogDebug, NoMoreAudioPackets)].
Proof.
  apply (onGetData_on_exhausted_stream 0 Scenario.emptyChunk
           (Scenario.audioStream (ScriptedLibAV 960 48000 0) [] tt tt [])).
  - reflexivity.
  - reflexivity.
  - reflexivity.
  - reflexivity.
  - vm_compute. discriminate.
  - reflexivity.
Defined.

(** ** The loops end *)

Section FastForwardEnds.
Context {DS : DataSource} {AV : LibAV}.
Import Seek.

(** X18.  [fastForward] ends.  On a stream that still has its
    [AVStream], when the source has nothing more to give and every queued
    packet has a duration that is not negative and an end that an
    [Int64] can hold, the loop of [fastForward] makes at most one turn
    for each queued packet and one more: with that much fuel the call
    returns [true], returns [false] or throws, whatever the target. *)
Theorem fastForward_ends
    (s : AudioStream.t) (stream : AVStream) (T : sf.Time) (fuel : nat) :
  Stream.m_stream (AudioStream.base s) = Some stream ->
  fst (requestMoreData (Stream.m_dataSource (AudioStream.base s))) = [] ->
  Forall (fun q => 0 <= Stream.durationOf stream q
                   /\ Stream.positionOf stream q + Stream.durationOf stream q
                      <= Int.INT64_MAX)
         (Stream.m_packetList (AudioStream.base s)) ->
  (List.length (Stream.m_packetList (AudioStream.base s)) < fuel)%nat ->
  exists s',
    AudioStream.fastForward fuel T s = (Return true, s')
    \/ AudioStream.fastForward fuel T s = (Return false, s')
    \/ exists what, AudioStream.fastForward fuel T s = (Throw what, s').
Proof.
  remember (Stream.m_packetList (AudioStream.base s)) as queue eqn:Hq.
  revert s fuel Hq.
  induction queue as [|q rest IH]; intros s fuel Hq Hs Hsource Hall Hfuel;
    (destruct fuel as [|fuel]; [inversion Hfuel|]); symmetry in Hq.
  - destruct (refilled_exhausted (AudioStream.base s) Hq Hsource) as [H1 _].
    rewrite fastForward_turn. cbv zeta. rewrite H1. eauto.
  - assert (Hfilled : refilled (AudioStream.base s) = AudioStream.base s)
      by (apply refilled_queue; rewrite Hq; discriminate).
    rewrite fastForward_turn. cbv zeta. rewrite Hfilled, Hq, Hs.
    destruct (stream_index q =? Stream.m_streamID (AudioStream.base s)); [|eauto].
    inversion Hall as [|? ? [Hdur Hend] Hrest]; subst.
    assert (Hpos : Int.fits_int64 (Stream.positionOf stream q)).
    { unfold Stream.positionOf, sf.milliseconds. apply to_int64_range. }
    assert (Hadd : sf.add (Stream.positionOf stream q) (Stream.durationOf stream q)
                   = Stream.positionOf stream q + Stream.durationOf stream q).
    { apply to_int64_fits. unfold Int.fits_int64 in *. lia. }
    rewrite Hadd.
    destruct (T <? Stream.positionOf stream q) eqn:Hlate.
    + apply Z.ltb_lt in Hlate.
      assert (Hstop : (Stream.positionOf stream q + Stream.durationOf stream q <=? T) = false)
        by (apply Z.leb_gt; lia).
      rewrite Hstop. eauto.
    + destruct (T <? Stream.positionOf stream q + Stream.durationOf stream q).
      * destruct (sf.Zero <? sf.sub T (Stream.positionOf stream q)); [|eauto].
        destruct (sf.sub T (Stream.positionOf stream q) <=? Stream.durationOf stream q);
          eauto.
      * apply IH; try assumption; try reflexivity.
        simpl in Hfuel. lia.
Qed.

End FastForwardEnds.

(** The stream of the scenario with two packets queued, and a seek to
    one second. *)
Lemma fastForward_ends_witness :
  exists s',
    AudioStream.fastForward 3 1000000 Scenario.refusedOnce = (Return true, s')
    \/ AudioStream.fastForward 3 1000000 Scenario.refusedOnce = (Return false, s')
    \/ exists what, AudioStream.fastForward 3 1000000 Scenario.refusedOnce = (Throw what, s').
Proof.
  apply (fastForward_ends Scenario.refusedOnce Scenario.audio48k 1000000 3).
  - reflexivity.
  - reflexivity.
  - repeat (constructor; [split; vm_compute; discriminate|]). constructor.
  - simpl. lia.
Defined.

(** ** Methods that return or throw *)

Section Settles.
Context {S : Type} (P : S -> Prop).
Import Decoding.

Lemma settles_ret {A} (Q : A -> Prop) (a : A) : Q a -> settles P Q (ret a).
Proof. intros Ha s Hs. cbn. auto. Qed.

Lemma settles_bind {A B} (Q1 : A -> Prop) (Q : B -> Prop) (c : M S A) (k : A -> M S B) :
  settles P Q1 c -> (forall a, Q1 a -> settles P Q (k a)) -> settles P Q (bind c k).
Proof.
  intros Hc Hk s Hs. unfold bind. specialize (Hc s Hs).
  destruct (c s) as [[a| | |] s1]; try exact Hc.
  destruct Hc as [Hs1 Ha]. exact (Hk a Ha s1 Hs1).
Qed.

Lemma settles_get {B} (Q : B -> Prop) (k : S -> M S B) :
  (forall s0, P s0 -> settles P Q (k s0)) -> settles P Q (bind get k).
Proof. intros Hk s Hs. rewrite bind_get. exact (Hk s Hs s Hs). Qed.

Lemma settles_put {B} (Q : B -> Prop) (s0 : S) (k : unit -> M S B) :
  P s0 -> settles P Q (k tt) -> settles P Q (bind (put s0) k).
Proof. intros H0 Hk s Hs. rewrite bind_put. exact (Hk s0 H0). Qed.

Lemma settles_modify {B} (Q : B -> Prop) (f : S -> S) (k : unit -> M S B) :
  (forall s, P s -> P (f s)) -> settles P Q (k tt) -> settles P Q (bind (modify f) k).
Proof. intros Hf Hk s Hs. rewrite bind_modify. exact (Hk (f s) (Hf s Hs)). Qed.

Lemma settles_CHECK {B} (Q : B -> Prop) (value : bool) (message : string)
    (k : unit -> M S B) :
  (value = true -> settles P Q (k tt)) -> settles P Q (bind (CHECK value message) k).
Proof.
  intros Hk s Hs. destruct value.
  - rewrite bind_CHECK_true. exact (Hk eq_refl s Hs).
  - rewrite bind_CHECK_false. exact I.
Qed.

Lemma settles_post {A} (Q : A -> Prop) (c : M S A) :
  settles P (fun _ => True) c ->
  (forall s a, fst (c s) = Return a -> Q a) ->
  settles P Q c.
Proof.
  intros Hc Hq s Hs. specialize (Hc s Hs). specialize (Hq s).
  destruct (c s) as [[a| | |] s1]; try exact Hc.
  split; [apply Hc | apply Hq; reflexivity].
Qed.

Lemma settles_bind_ret {A} (Q : A -> Prop) (c : M S A) :
  settles P Q c -> settles P Q (bind c (fun a => ret a)).
Proof.
  intros Hc s Hs. unfold bind. specialize (Hc s Hs).
  destruct (c s) as [[a| | |] s1]; exact Hc.
Qed.

End Settles.

Section SettlingOfAudioStream.
Context {DS : DataSource} {AV : LibAV}.
Import Decoding.

Lemma settles_sfeLog {B} (Q : B -> Prop) (level : LogLevel) (message : LogMessage)
    (k : unit -> M AudioStream.t B) :
  settles usualRate Q (k tt) ->
  settles usualRate Q (bind (AudioStream.sfeLog level message) k).
Proof.
  intros Hk s Hs. rewrite bind_unfold, sfeLog_run. apply Hk. exact Hs.
Qed.

Lemma settles_timeToSamples (t : sf.Time) :
  settles usualRate (fun _ => True) (AudioStream.timeToSamples t).
Proof.
  unfold AudioStream.timeToSamples. cbv zeta.
  apply settles_get. intros s0 H0.
  apply settles_CHECK. intros _. apply settles_ret. exact I.
Qed.

Lemma settles_samplesToTime (n : Z) :
  settles usualRate (fun t => 2 <= n < 2 ^ 30 -> 1 <= t) (AudioStream.samplesToTime n).
Proof.
  intros s Hs. unfold usualRate in Hs.
  unfold AudioStream.samplesToTime. rewrite bind_get.
  assert (Hnz : (AudioStream.m_sampleRatePerChannel s =? 0) = false)
    by (apply Z.eqb_neq; lia).
  rewrite Hnz, bind_ret_l. unfold AudioStream.getStereoChannelCount.
  destruct (0 <=? Z.quot (Int.to_int64 (1000000 * Z.quot n 2))
              (AudioStream.m_sampleRatePerChannel s)) eqn:Hcheck;
    [rewrite bind_CHECK_true | rewrite bind_CHECK_false; exact I].
  cbn [ret]. split; [exact Hs|].
  intros Hn. change (2 ^ 30) with 1073741824 in Hn. unfold sf.microseconds.
  rewrite (Z.quot_div_nonneg n 2) by lia.
  assert (Hhalf : 1 <= n / 2 <= 1073741824).
  { split; [apply Z.div_le_lower_bound; lia | apply Z.div_le_upper_bound; lia]. }
  rewrite to_int64_fits
    by (unfold Int.fits_int64, Int.INT64_MIN, Int.INT64_MAX;
        change (2 ^ 63) with 9223372036854775808; lia).
  rewrite Z.quot_div_nonneg by lia.
  apply Z.div_le_lower_bound; lia.
Qed.

Lemma settles_resampleFrame (frame : option AVFrame) :
  settles usualRate (fun resampled => snd resampled < 2 ^ 30)
          (AudioStream.resampleFrame frame).
Proof.
  apply settles_post;
    [|intros s [buffer count] H; exact (resampleFrame_count frame s buffer count H)].
  unfold AudioStream.resampleFrame. cbv zeta.
  apply settles_get. intros s0 H0.
  apply settles_CHECK. intros _. apply settles_CHECK. intros _.
  destruct (AudioStream.m_swrCtx s0) as [swr|]; [|apply settles_ret; exact I].
  destruct frame as [f|]; [|apply settles_ret; exact I].
  apply settles_modify; [intros s Hs; exact Hs|].
  apply (settles_bind _ (fun _ => True)).
  - match goal with |- context [if ?c then _ else _] => destruct c end;
      [|apply settles_ret; exact I].
    apply settles_modify; [intros s Hs; exact Hs|].
    apply settles_get. intros s1 H1.
    destruct (av_samples_alloc (AudioStream.heap s1) (AudioStream.m_dstNbChannels s1) _)
      as [err h].
    apply settles_put; [exact H1|].
    apply settles_CHECK. intros _.
    apply settles_modify; [intros s Hs; exact Hs|].
    intros s Hs. cbn. auto.
  - intros _ _.
    destruct (swr_convert swr _ f) as [converted swr'].
    apply settles_modify; [intros s Hs; exact Hs|].
    apply settles_CHECK. intros _.
    apply settles_get. intros s1 H1.
    apply settles_CHECK. intros _. apply settles_ret. exact I.
Qed.


Lemma settles_discardExtra (samplesCount : Z) :
  0 < samplesCount < 2 ^ 30 ->
  settles usualRate (fun _ => True) (AudioStream.discardExtra samplesCount).
Proof.
  intros Hcount. unfold AudioStream.discardExtra. cbv zeta.
  apply settles_get. intros s0 H0.
  destruct (sf.Zero <? AudioStream.m_extraAudioTime s0); [|apply settles_ret; exact I].
  apply (settles_bind _ (fun _ => True)); [apply settles_timeToSamples | intros wanted _].
  apply (settles_bind _ (fun toDiscard => toDiscard <= samplesCount)).
  - destruct (samplesCount <? wanted) eqn:Hless.
    + apply settles_sfeLog. apply settles_ret. lia.
    + apply settles_ret. apply Z.ltb_ge in Hless. exact Hless.
  - intros toDiscard Hle.
    destruct ((toDiscard <? AudioStream.getStereoChannelCount) && (0 <? samplesCount))
      eqn:Hsmall.
    + apply settles_sfeLog. apply settles_modify; [intros s Hs; exact Hs|].
      apply settles_ret. exact I.
    + assert (Hbig : 2 <= toDiscard).
      { unfold AudioStream.getStereoChannelCount in Hsmall.
        apply andb_false_iff in Hsmall. destruct Hsmall as [H|H]; apply Z.ltb_ge in H; lia. }
      apply (settles_bind _ (fun whole => 2 <= samplesCount < 2 ^ 30 -> 1 <= whole));
        [apply settles_samplesToTime | intros whole Hwhole].
      assert (Hnz : (sf.asMicroseconds whole =? 0) = false).
      { apply Z.eqb_neq. unfold sf.asMicroseconds.
        assert (1 <= whole) by (apply Hwhole; lia). lia. }
      rewrite Hnz.
      apply (settles_bind _ (fun _ => True)); [apply settles_ret; exact I | intros _ _].
      apply settles_CHECK. intros _.
      apply (settles_bind _ (fun discarded => 2 <= toDiscard < 2 ^ 30 -> 1 <= discarded));
        [apply settles_samplesToTime | intros discarded _].
      apply settles_modify; [intros s Hs; exact Hs|].
      apply settles_ret. exact I.
Qed.

Lemma settles_appendFrame (data : AudioStream.Chunk) :
  settles usualRate (fun _ => True) (AudioStream.appendFrame data).
Proof.
  unfold AudioStream.appendFrame. cbv zeta.
  apply settles_get. intros s0 H0.
  apply (settles_bind _ (fun resampled => snd resampled < 2 ^ 30));
    [apply settles_resampleFrame | intros resampled Hcount].
  apply settles_CHECK. intros _.
  apply settles_CHECK. intros Hpositive. apply Z.ltb_lt in Hpositive.
  eapply settles_bind; [apply settles_samplesToTime | intros total _].
  apply settles_CHECK. intros _.
  apply (settles_bind _ (fun _ => True));
    [apply settles_discardExtra; lia | intros kept _].
  apply settles_modify; [intros s Hs; exact Hs|].
  apply settles_ret. exact I.
Qed.

End SettlingOfAudioStream.

(** ** [AudioStream::onGetData] with a decoder that takes every packet *)

Section OnGetDataEnds.
Context {DS : DataSource} {AV : LibAV}.
Import Decoding Seek.

Hypothesis Hsend : forall ctx packet, fst (avcodec_send_packet ctx packet) = 0.
Hypothesis Hreceive : forall ctx, fst (fst (avcodec_receive_frame ctx)) = 0.

Lemma decodePacket_willing (packet : AVPacket) (s : AudioStream.t) :
  exists s',
    AudioStream.decodePacket packet s = (Return (false, true), s') /\ copiedMore 0 s s'.
Proof.
  destruct (decodePacket_returns packet s) as [gotFrame [s' [Hrun [Hsame _]]]].
  exists s'. split; [|exact Hsame].
  destruct gotFrame; [exact Hrun|]. exfalso. revert Hrun.
  unfold AudioStream.decodePacket. rewrite bind_get.
  pose proof (Hsend (Stream.m_context (AudioStream.base s)) packet) as H1.
  destruct (avcodec_send_packet (Stream.m_context (AudioStream.base s)) packet)
    as [sent ctx].
  cbn [fst] in H1. subst sent. rewrite bind_put. cbn [Z.eqb negb]. rewrite bind_get.
  cbn [AudioStream.base AudioStream.set_base AudioStream.set_submitted
       Stream.m_context Stream.set_context].
  pose proof (Hreceive ctx) as H2.
  destruct (avcodec_receive_frame ctx) as [[received frame] ctx'].
  cbn [fst] in H2. subst received. rewrite bind_put. cbn [Z.eqb negb].
  discriminate.
Qed.

Lemma settles_decodeWhileNeeded (fuel : nat) (packet : AVPacket) (data : AudioStream.Chunk) :
  settles usualRate (fun _ => True) (AudioStream.decodeWhileNeeded (S fuel) packet data).
Proof.
  intros s Hs. cbn [AudioStream.decodeWhileNeeded].
  destruct (decodePacket_willing packet s) as [s1 [Hdecode [Hrate _]]].
  rewrite (bind_Return _ _ _ _ _ Hdecode). cbv zeta. cbn [fst snd].
  apply (settles_bind_ret usualRate _ _ (settles_appendFrame data)).
  unfold usualRate in *. rewrite Hrate. exact Hs.
Qed.

Lemma fillChunk_settles (fuel : nat) :
  forall packet data s,
    usualRate s ->
    fst (requestMoreData (Stream.m_dataSource (AudioStream.base s))) = [] ->
    QueueOrder.hasDelay (AudioStream.base s) = false ->
    (List.length (Stream.m_packetList (AudioStream.base s)) < fuel)%nat ->
    match fst (AudioStream.fillChunk fuel packet data s) with
    | Return _ | Throw _ => True
    | Undefined _ | Timeout => False
    end.
Proof.
  induction fuel as [|fuel IH]; intros packet data s Hrate Hsource Hdelay Hfuel;
    [inversion Hfuel|].
  cbn [AudioStream.fillChunk]. rewrite bind_get.
  match goal with |- context [if ?c then _ else _] => destruct c end; [|exact I].
  rewrite bind_unfold, onBase_run, popEncodedData_run.
  destruct (Stream.m_packetList (AudioStream.base s)) as [|front rest] eqn:Hq.
  - destruct (refilled_exhausted (AudioStream.base s) Hq Hsource) as [H1 _].
    rewrite H1, hasDelay_refilled, Hdelay. exact I.
  - rewrite (refilled_queue (AudioStream.base s)) by (rewrite Hq; discriminate).
    rewrite Hq. cbn [fst snd].
    destruct fuel as [|fuel]; [simpl in Hfuel; lia|].
    rewrite bind_unfold.
    pose proof (settles_decodeWhileNeeded fuel front data
                  (AudioStream.set_base (Stream.set_packetList rest (AudioStream.base s)) s)
                  Hrate)
      as Hinner.
    destruct (AudioStream.decodeWhileNeeded (S fuel) front data
                (AudioStream.set_base (Stream.set_packetList rest (AudioStream.base s)) s))
      as [[data1| | |] s2] eqn:Hrun; try exact Hinner.
    destruct Hinner as [Hrate2 _].
    pose proof (keeps_decodeWhileNeeded _ _ _ _ _ _ Hrun)
      as [_ [Hqueue [_ [Hcaps [_ [Hsame _]]]]]].
    cbn [AudioStream.base AudioStream.set_base Stream.m_packetList Stream.set_packetList
         Stream.m_codec_capabilities Stream.m_dataSource] in Hqueue, Hcaps, Hsame.
    rewrite bind_unfold, onBase_run. cbn [fst snd Stream.av_packet_unref modify].
    apply IH.
    + exact Hrate2.
    + cbn [AudioStream.base AudioStream.set_base Stream.m_dataSource Stream.set_released].
      rewrite Hsame. exact Hsource.
    + unfold QueueOrder.hasDelay in *.
      cbn [AudioStream.base AudioStream.set_base Stream.m_codec_capabilities
           Stream.set_released].
      rewrite Hcaps. exact Hdelay.
    + cbn [AudioStream.base AudioStream.set_base Stream.m_packetList Stream.set_released].
      rewrite Hqueue. simpl in Hfuel. lia.
Qed.

(** X19.  [onGetData] ends with a decoder that takes every packet.  When
    [avcodec_send_packet] and [avcodec_receive_frame] always answer 0,
    the sample rate is above zero and at most 1 MHz, the codec has no
    delay and the source has nothing more to give, the loops of
    [onGetData] make at most one turn for each queued packet and one
    more: with that much fuel the call returns or throws; it divides by
    no zero. *)
Theorem onGetData_ends_with_willing_decoder
    (fuel : nat) (data : AudioStream.Chunk) (s : AudioStream.t) :
  0 < AudioStream.m_sampleRatePerChannel s <= 1000000 ->
  fst (requestMoreData (Stream.m_dataSource (AudioStream.base s))) = [] ->
  QueueOrder.hasDelay (AudioStream.base s) = false ->
  (List.length (Stream.m_packetList (AudioStream.base s)) < fuel)%nat ->
  exists s',
    (exists result data', AudioStream.onGetData fuel data s = (Return (result, data'), s'))
    \/ (exists what, AudioStream.onGetData fuel data s = (Throw what, s')).
Proof.
  intros Hrate Hsource Hdelay Hfuel. unfold AudioStream.onGetData. cbv zeta.
  rewrite bind_unfold.
  pose proof (fillChunk_settles fuel None
                {| AudioStream.samples := true;
                   AudioStream.sampleCount := AudioStream.sampleCount data |}
                s Hrate Hsource Hdelay Hfuel) as Hfill.
  destruct (AudioStream.fillChunk fuel None
              {| AudioStream.samples := true;
                 AudioStream.sampleCount := AudioStream.sampleCount data |} s)
    as [[[packet' data']| | |] s1]; cbn [fst] in Hfill; try contradiction.
  - cbn [fst snd]. destruct packet'; cbn [notNull negb].
    + rewrite bind_ret_l. eexists. left. eexists. eexists. reflexivity.
    + rewrite bind_unfold, sfeLog_run. eexists. left. eexists. eexists. reflexivity.
  - eexists. right. eexists. reflexivity.
Qed.

End OnGetDataEnds.

(** The stream of the scenario with a decoder that takes every packet. *)
Lemma onGetData_ends_with_willing_decoder_witness :
  exists s',
    (exists result data',
        AudioStream.onGetData 3 Scenario.emptyChunk
          (Scenario.audioStream (WillingLibAV 960 48000) tt tt tt (Scenario.packets 0 2))
        = (Return (result, data'), s'))
    \/ (exists what,
           AudioStream.onGetData 3 Scenario.emptyChunk
             (Scenario.audioStream (WillingLibAV 960 48000) tt tt tt (Scenario.packets 0 2))
           = (Throw what, s')).
Proof.
  apply (@onGetData_ends_with_willing_decoder ScriptedSource (WillingLibAV 960 48000)).
  - intros ctx packet. reflexivity.
  - intros ctx. reflexivity.
  - split; vm_compute; [reflexivity | discriminate].
  - reflexivity.
  - reflexivity.
  - simpl. lia.
Defined.
